(** * restoapp: daily import, reconciliation, anomaly scan, insights

    A shallow embedding of [reports/poster_client.py] and of the core of
    [reports/services.py] ([import_daily], [scan_anomalies],
    [generate_insights], [daily_summary_by_spot], [get_spot_name],
    [build_custom_report_text]) together with the Django tables of
    [reports/models.py] they read and write.

    Conventions of the embedding.
    - Python values that come out of [response.json()] are [pyval].
    - Python exceptions are the constructors of [exn]; a call that may raise
      returns a [result].
    - Python floats are IEEE binary64 numbers, kept as exact dyadic values
      [m * 2^e]; every operation rounds to nearest-even as the hardware does.
    - Strings are byte strings; digit, blank and letter-case tests are the
      ASCII ones.
    - A Django table is the list of its rows in primary-key order.  The
      key itself and the bookkeeping columns [created_at] / [updated_at]
      (which need a clock) are left out, as are the column length and range
      limits of the database: an integer column holds any [Z]. *)

From Stdlib Require Import ZArith Lia String Ascii List Bool DecimalString.
From stdpp Require Import base option list gmap strings.

Set Warnings "-register-all".

Local Open Scope string_scope.
Local Open Scope Z_scope.

(** ** Exceptions and results *)

Inductive exn : Set :=
| PosterAPIError
| PosterConfigError
| AttributeError
| TypeError
| ValueError
| OverflowError
| ZeroDivisionError.

Inductive result (A : Type) : Type :=
| Ok (a : A)
| Raise (e : exn).
Arguments Ok {A} a.
Arguments Raise {A} e.

#[global] Instance result_ret : MRet result := fun A a => Ok a.
#[global] Instance result_bind : MBind result := fun A B f m =>
  match m with
  | Ok a => f a
  | Raise e => Raise e
  end.

#[global] Instance exn_eq_dec : EqDecision exn.
Proof. solve_decision. Defined.

(** [try: m except e1, e2 => h] for handlers that name the exceptions caught *)
Definition catch {A} (m : result A) (caught : exn -> bool) (h : result A) : result A :=
  match m with
  | Ok a => Ok a
  | Raise e => if caught e then h else Raise e
  end.

Definition is_type_or_value_error (e : exn) : bool :=
  match e with
  | TypeError | ValueError => true
  | _ => false
  end.

Definition is_api_error (e : exn) : bool :=
  match e with
  | PosterAPIError => true
  | _ => false
  end.

(** ** Binary64 floats *)

Module PyFloat.

(** [FFin m e] is the number [m * 2^e]. *)
Inductive t : Set :=
| FNan
| FInf (neg : bool)
| FFin (m e : Z).

(** round-half-even of the fraction [p / q], [0 <= p], [0 < q] *)
Definition rne (p q : Z) : Z :=
  let k := p / q in
  let r := p mod q in
  if 2 * r <? q then k
  else if q <? 2 * r then k + 1
  else if Z.even k then k else k + 1.

(** [floor (log2 (n / d))] for [0 < n], [0 < d] *)
Definition flog2 (n d : Z) : Z :=
  let f0 := Z.log2 n - Z.log2 d in
  if n * 2 ^ Z.max 0 (- f0) <? d * 2 ^ Z.max 0 f0 then f0 - 1 else f0.

(** exponent of the last place: 53 bits of precision, smallest exponent
    -1074 (subnormal numbers) *)
Definition fexp (f : Z) : Z := Z.max (f - 52) (-1074).

(** nearest binary64 mantissa and exponent of [n / d], [0 < n], [0 < d] *)
Definition round_pos (n d : Z) : Z * Z :=
  let e := fexp (flog2 n d) in
  (rne (n * 2 ^ Z.max 0 (- e)) (d * 2 ^ Z.max 0 e), e).

(** [m * 2^e >= 2^1024], for [-1074 <= e] *)
Definition overflows (m e : Z) : bool := 2 ^ 2098 <=? m * 2 ^ (e + 1074).

(** nearest binary64 number of the rational [n / d], [0 < d];
    infinite when the rounded value leaves the format *)
Definition round_q (n d : Z) : t :=
  if n =? 0 then FFin 0 0
  else
    let '(m, e) := round_pos (Z.abs n) d in
    if overflows m e then FInf (n <? 0) else FFin (Z.sgn n * m) e.

Definition is_inf (x : t) : bool :=
  match x with FInf _ => true | _ => false end.

(** a float operation that raises [OverflowError] instead of giving
    infinity *)
Definition finite_or_overflow (x : t) : result t :=
  if is_inf x then Raise OverflowError else Ok x.

(** [float(z)] for an int *)
Definition of_int (z : Z) : result t := finite_or_overflow (round_q z 1).

(** [a / b] on ints (true division) *)
Definition truediv (a b : Z) : result t :=
  if b =? 0 then Raise ZeroDivisionError
  else finite_or_overflow (round_q (a * Z.sgn b) (Z.abs b)).

Definition is_neg (x : t) : bool :=
  match x with
  | FNan => false
  | FInf s => s
  | FFin m _ => m <? 0
  end.

(** [x * y] on floats *)
Definition mul (x y : t) : t :=
  match x, y with
  | FNan, _ | _, FNan => FNan
  | FInf s, FInf s' => FInf (xorb s s')
  | FInf s, FFin m _ | FFin m _, FInf s =>
      if m =? 0 then FNan else FInf (xorb s (m <? 0))
  | FFin m1 e1, FFin m2 e2 =>
      let e := e1 + e2 in
      round_q (m1 * m2 * 2 ^ Z.max 0 e) (2 ^ Z.max 0 (- e))
  end.

(** [int(x)]: truncation toward zero *)
Definition to_int (x : t) : result Z :=
  match x with
  | FNan => Raise ValueError
  | FInf _ => Raise OverflowError
  | FFin m e => Ok (if 0 <=? e then m * 2 ^ e else Z.quot m (2 ^ (- e)))
  end.

(** [round(x)]: nearest int, ties to even *)
Definition round (x : t) : result Z :=
  match x with
  | FNan => Raise ValueError
  | FInf _ => Raise OverflowError
  | FFin m e =>
      Ok (if 0 <=? e then m * 2 ^ e
          else Z.sgn m * rne (Z.abs m) (2 ^ (- e)))
  end.

(** [x >= y] *)
Definition geb (x y : t) : bool :=
  match x, y with
  | FNan, _ | _, FNan => false
  | FInf s, FInf s' => negb s || s'
  | FInf s, FFin _ _ => negb s
  | FFin _ _, FInf s => s
  | FFin m1 e1, FFin m2 e2 =>
      let c := Z.min e1 e2 in
      m2 * 2 ^ (e2 - c) <=? m1 * 2 ^ (e1 - c)
  end.

(** truth value: zero is false, everything else (the NaN too) true *)
Definition truthy (x : t) : bool :=
  match x with
  | FFin m _ => negb (m =? 0)
  | _ => true
  end.

(** the literals of the source *)
Definition lit_100 : t := FFin 100 0.
Definition lit_0_3 : t := round_q 3 10.

End PyFloat.

(** ** Byte strings *)

Module PyStr.

Definition code (c : ascii) : Z := Z.of_N (N_of_ascii c).
Definition chr (z : Z) : ascii := ascii_of_N (Z.to_N z).

Definition is_digit (c : ascii) : bool := (48 <=? code c) && (code c <=? 57).

(** the blanks that [str.strip], [int] and [float] skip *)
Definition is_space (c : ascii) : bool :=
  let n := code c in
  ((9 <=? n) && (n <=? 13)) || ((28 <=? n) && (n <=? 32)).

Definition lower_char (c : ascii) : ascii :=
  let n := code c in
  if (65 <=? n) && (n <=? 90) then chr (n + 32) else c.

Definition upper_char (c : ascii) : ascii :=
  let n := code c in
  if (97 <=? n) && (n <=? 122) then chr (n - 32) else c.

Definition chars (s : string) : list ascii := list_ascii_of_string s.
Definition of_chars (l : list ascii) : string := string_of_list_ascii l.

Definition lower (s : string) : string := of_chars (map lower_char (chars s)).
Definition upper (s : string) : string := of_chars (map upper_char (chars s)).

Fixpoint drop_while (p : ascii -> bool) (l : list ascii) : list ascii :=
  match l with
  | c :: l' => if p c then drop_while p l' else l
  | [] => []
  end.

Fixpoint take_while (p : ascii -> bool) (l : list ascii) : list ascii :=
  match l with
  | c :: l' => if p c then c :: take_while p l' else []
  | [] => []
  end.

Definition lstrip_chars (p : ascii -> bool) (l : list ascii) : list ascii :=
  drop_while p l.
Definition rstrip_chars (p : ascii -> bool) (l : list ascii) : list ascii :=
  rev (drop_while p (rev l)).

Definition is_slash (c : ascii) : bool := code c =? 47.

(** [s.rstrip('/')] and [s.lstrip('/')] *)
Definition rstrip_slash (s : string) : string :=
  of_chars (rstrip_chars is_slash (chars s)).
Definition lstrip_slash (s : string) : string :=
  of_chars (lstrip_chars is_slash (chars s)).

Definition nonempty (s : string) : bool :=
  match s with EmptyString => false | _ => true end.

(** [k in t] *)
Fixpoint contains (k t : string) : bool :=
  String.prefix k t ||
  match t with
  | EmptyString => false
  | String _ t' => contains k t'
  end.

Definition of_Z (z : Z) : string :=
  DecimalString.NilZero.string_of_int (Z.to_int z).

Fixpoint repeat_char (c : ascii) (n : nat) : list ascii :=
  match n with
  | O => []
  | S n' => c :: repeat_char c n'
  end.

(** decimal digits of [z >= 0], at least [w] of them *)
Definition zero_padded (w : nat) (z : Z) : string :=
  let ds := chars (of_Z z) in
  of_chars (repeat_char "0"%char (w - List.length ds) ++ ds).

(** a run of digits in which single underscores may separate digits: the
    number read and how many digits it has *)
Fixpoint num_token (tok : list ascii) (acc cnt : Z) (after_digit : bool)
  : option (Z * Z) :=
  match tok with
  | [] => if after_digit then Some (acc, cnt) else None
  | c :: tok' =>
      if is_digit c then num_token tok' (10 * acc + (code c - 48)) (cnt + 1) true
      else if after_digit then num_token tok' acc cnt false
      else None
  end.

Definition is_num_char (c : ascii) : bool := is_digit c || (code c =? 95).

Definition strip (l : list ascii) : list ascii :=
  rstrip_chars is_space (lstrip_chars is_space l).

(** an optional sign: [true] for minus *)
Definition split_sign (l : list ascii) : bool * list ascii :=
  match l with
  | c :: l' =>
      if code c =? 45 then (true, l')
      else if code c =? 43 then (false, l')
      else (false, l)
  | [] => (false, [])
  end.

(** [int(s)] in base ten; [None] is the [ValueError] *)
Definition parse_int (s : string) : option Z :=
  let '(neg, body) := split_sign (strip (chars s)) in
  match num_token body 0 0 false with
  | Some (n, _) =>
      if forallb is_num_char body then Some (if neg then - n else n) else None
  | None => None
  end.

(** the pieces of a decimal literal *)
Inductive float_lit : Set :=
| LitNan
| LitInf (neg : bool)
| LitDec (neg : bool) (digits : Z) (exp10 : Z).

Definition parse_exponent (l : list ascii) : option Z :=
  match l with
  | [] => Some 0
  | c :: l' =>
      if (code c =? 101) || (code c =? 69) then
        let '(neg, ds) := split_sign l' in
        if forallb is_num_char ds then
          match num_token ds 0 0 false with
          | Some (n, _) => Some (if neg then - n else n)
          | None => None
          end
        else None
      else None
  end.

Definition parse_decimal (neg : bool) (l : list ascii) : option float_lit :=
  let ip := take_while is_num_char l in
  let rest := drop_while is_num_char l in
  let '(fp, rest') :=
    match rest with
    | c :: r =>
        if code c =? 46
        then (take_while is_num_char r, drop_while is_num_char r)
        else ([], rest)
    | [] => ([], [])
    end in
  let tok t := match t with [] => Some (0, 0) | _ => num_token t 0 0 false end in
  match ip, fp with
  | [], [] => None
  | _, _ =>
      match tok ip, tok fp, parse_exponent rest' with
      | Some (i, _), Some (f, fc), Some x =>
          Some (LitDec neg (i * 10 ^ fc + f) (x - fc))
      | _, _, _ => None
      end
  end.

(** the grammar of [float(s)]; [None] is the [ValueError] *)
Definition parse_float (s : string) : option float_lit :=
  let '(neg, body) := split_sign (strip (chars s)) in
  let word := of_chars (map lower_char body) in
  if String.eqb word "nan" then Some LitNan
  else if String.eqb word "inf" || String.eqb word "infinity" then Some (LitInf neg)
  else parse_decimal neg body.

End PyStr.

(** ** Values of the JSON payloads *)

Inductive pyval : Type :=
| PNone
| PBool (b : bool)
| PInt (z : Z)
| PFloat (x : PyFloat.t)
| PStr (s : string)
| PList (l : list pyval)
| PDict (kvs : list (string * pyval)).

Module Py.

(** [bool(v)] *)
Definition truthy (v : pyval) : bool :=
  match v with
  | PNone => false
  | PBool b => b
  | PInt z => negb (z =? 0)
  | PFloat x => PyFloat.truthy x
  | PStr s => PyStr.nonempty s
  | PList l => match l with [] => false | _ => true end
  | PDict kvs => match kvs with [] => false | _ => true end
  end.

(** [a or b] *)
Definition or_ (a b : pyval) : pyval := if truthy a then a else b.

Definition is_none (v : pyval) : bool :=
  match v with PNone => true | _ => false end.
Definition is_dict (v : pyval) : bool :=
  match v with PDict _ => true | _ => false end.
Definition is_list (v : pyval) : bool :=
  match v with PList _ => true | _ => false end.

(** [d.get(k, default)] on the items of a dict *)
Fixpoint lookup_default (kvs : list (string * pyval)) (k : string) (dflt : pyval)
  : pyval :=
  match kvs with
  | [] => dflt
  | (k', v) :: kvs' => if String.eqb k' k then v else lookup_default kvs' k dflt
  end.

(** [d[k] = v] *)
Fixpoint setitem (kvs : list (string * pyval)) (k : string) (v : pyval)
  : list (string * pyval) :=
  match kvs with
  | [] => [(k, v)]
  | (k', v') :: kvs' =>
      if String.eqb k' k then (k, v) :: kvs' else (k', v') :: setitem kvs' k v
  end.

(** [v.get(k)]: only a dict has the method *)
Definition get (v : pyval) (k : string) : result pyval :=
  match v with
  | PDict kvs => Ok (lookup_default kvs k PNone)
  | _ => Raise AttributeError
  end.

(** [v.get(k, dflt)] *)
Definition get_default (v : pyval) (k : string) (dflt : pyval) : result pyval :=
  match v with
  | PDict kvs => Ok (lookup_default kvs k dflt)
  | _ => Raise AttributeError
  end.

(** [int(v)] *)
Definition int (v : pyval) : result Z :=
  match v with
  | PInt z => Ok z
  | PBool b => Ok (if b then 1 else 0)
  | PFloat x => PyFloat.to_int x
  | PStr s =>
      match PyStr.parse_int s with
      | Some z => Ok z
      | None => Raise ValueError
      end
  | PNone | PList _ | PDict _ => Raise TypeError
  end.

Definition pow10_ratio (digits exp10 : Z) : PyFloat.t :=
  PyFloat.round_q (digits * 10 ^ Z.max 0 exp10) (10 ^ Z.max 0 (- exp10)).

(** [float(v)] *)
Definition float (v : pyval) : result PyFloat.t :=
  match v with
  | PFloat x => Ok x
  | PInt z => PyFloat.of_int z
  | PBool b => Ok (PyFloat.FFin (if b then 1 else 0) 0)
  | PStr s =>
      match PyStr.parse_float s with
      | Some PyStr.LitNan => Ok PyFloat.FNan
      | Some (PyStr.LitInf neg) => Ok (PyFloat.FInf neg)
      | Some (PyStr.LitDec neg ds x) =>
          Ok (pow10_ratio (if neg then - ds else ds) x)
      | None => Raise ValueError
      end
  | PNone | PList _ | PDict _ => Raise TypeError
  end.

(** [for x in v]: the elements visited *)
Definition iter (v : pyval) : result (list pyval) :=
  match v with
  | PList l => Ok l
  | PDict kvs => Ok (map (fun kv => PStr (fst kv)) kvs)
  | PStr s => Ok (map (fun c => PStr (String c EmptyString)) (PyStr.chars s))
  | PNone | PBool _ | PInt _ | PFloat _ => Raise TypeError
  end.

(** can [v] be an element of a set *)
Definition hashable (v : pyval) : bool :=
  match v with
  | PList _ | PDict _ => false
  | _ => true
  end.

(** the number a bool, int or finite float stands for, as [m * 2^e] *)
Definition as_dyadic (v : pyval) : option (Z * Z) :=
  match v with
  | PBool b => Some (if b then 1 else 0, 0)
  | PInt z => Some (z, 0)
  | PFloat (PyFloat.FFin m e) => Some (m, e)
  | _ => None
  end.

(** [a == b] on hashable values *)
Definition eqb (a b : pyval) : bool :=
  match a, b with
  | PNone, PNone => true
  | PStr s, PStr s' => String.eqb s s'
  | PFloat (PyFloat.FInf s), PFloat (PyFloat.FInf s') => Bool.eqb s s'
  | _, _ =>
      match as_dyadic a, as_dyadic b with
      | Some (m, e), Some (m', e') =>
          let c := Z.min e e' in m * 2 ^ (e - c) =? m' * 2 ^ (e' - c)
      | _, _ => false
      end
  end.

End Py.

(** ** [str()] and [repr()] *)

Module PyRepr.
Import PyStr.

(** [x >= 10^k] for the fraction [x = xn / xd] *)
Definition ge_pow10 (xn xd k : Z) : bool :=
  xd * 10 ^ Z.max 0 k <=? xn * 10 ^ Z.max 0 (- k).

Fixpoint bump_log10 (fuel : nat) (xn xd c : Z) : Z :=
  match fuel with
  | O => c
  | S fuel' => if ge_pow10 xn xd (c + 1) then bump_log10 fuel' xn xd (c + 1) else c
  end.

(** [floor (log10 (xn / xd))] *)
Definition flog10 (xn xd : Z) : Z :=
  bump_log10 4 xn xd (PyFloat.flog2 xn xd * 30103 / 100000 - 1).

Definition same_float (x y : PyFloat.t) : bool :=
  PyFloat.geb x y && PyFloat.geb y x.

(** the shortest decimal [D * 10^s] that reads back as [xn / xd]: with [n]
    digits try the two neighbours of the value, nearest first *)
Fixpoint shortest (fuel : nat) (n : Z) (x : PyFloat.t) (xn xd c : Z) : Z * Z :=
  let s := c - (n - 1) in
  let num := xn * 10 ^ Z.max 0 (- s) in
  let den := xd * 10 ^ Z.max 0 s in
  let lo := num / den in
  let hi := lo + 1 in
  let ok d := same_float (Py.pow10_ratio d s) x in
  let lo_first :=
    (2 * num <? (lo + hi) * den) || ((2 * num =? (lo + hi) * den) && Z.even lo) in
  let '(d1, d2) := if lo_first then (lo, hi) else (hi, lo) in
  match fuel with
  | O => (lo, s)
  | S fuel' =>
      if ok d1 then (d1, s)
      else if ok d2 then (d2, s)
      else shortest fuel' (n + 1) x xn xd c
  end.

Fixpoint strip_zeros (fuel : nat) (d s : Z) : Z * Z :=
  match fuel with
  | O => (d, s)
  | S fuel' => if (d mod 10 =? 0) && negb (d =? 0)
               then strip_zeros fuel' (d / 10) (s + 1) else (d, s)
  end.

(** [repr] of the positive float [m * 2^e] *)
Definition repr_pos (m e : Z) : string :=
  let xn := m * 2 ^ Z.max 0 e in
  let xd := 2 ^ Z.max 0 (- e) in
  let '(d0, s0) := shortest 17 1 (PyFloat.FFin m e) xn xd (flog10 xn xd) in
  let '(d, s) := strip_zeros 20 d0 s0 in
  let ds := chars (of_Z d) in
  let nd := Z.of_nat (List.length ds) in
  let decpt := nd + s in
  if (-4 <? decpt) && (decpt <=? 16) then
    if decpt <=? 0 then
      of_chars (chars "0." ++ repeat_char "0"%char (Z.to_nat (- decpt)) ++ ds)
    else if nd <=? decpt then
      of_chars (ds ++ repeat_char "0"%char (Z.to_nat (decpt - nd)) ++ chars ".0")
    else
      of_chars (firstn (Z.to_nat decpt) ds ++ chars "." ++ skipn (Z.to_nat decpt) ds)
  else
    let x := decpt - 1 in
    let mant :=
      match ds with
      | [c] => [c]
      | c :: rest => c :: chars "." ++ rest
      | [] => []
      end in
    of_chars (mant ++ chars (if x <? 0 then "e-" else "e+")
                   ++ chars (zero_padded 2 (Z.abs x))).

(** [repr(x)] of a float; the sign of a zero is not kept by [PyFloat.t] *)
Definition repr_float (x : PyFloat.t) : string :=
  match x with
  | PyFloat.FNan => "nan"
  | PyFloat.FInf false => "inf"
  | PyFloat.FInf true => "-inf"
  | PyFloat.FFin m e =>
      if m =? 0 then "0.0"
      else if m <? 0 then String "-"%char (repr_pos (- m) e)
      else repr_pos m e
  end.

Definition hex_digit (n : Z) : ascii :=
  if n <? 10 then chr (48 + n) else chr (87 + n).

(** one character inside the quotes [q] of a [repr] *)
Definition escape_char (q : ascii) (c : ascii) : list ascii :=
  let n := code c in
  if (n =? 92) || (n =? code q) then ["\"%char; c]
  else if n =? 10 then chars "\n"
  else if n =? 13 then chars "\r"
  else if n =? 9 then chars "\t"
  else if (n <? 32) || (n =? 127)
  then chars "\x" ++ [hex_digit (n / 16); hex_digit (n mod 16)]
  else [c].

(** [repr(s)] of a str: single quotes unless only those occur inside;
    bytes above 127 are taken as printable *)
Definition repr_str (s : string) : string :=
  let cs := chars s in
  let has c := existsb (fun c' => code c' =? c) cs in
  let q := if has 39 && negb (has 34) then chr 34 else chr 39 in
  of_chars (q :: flat_map (escape_char q) cs ++ [q]).

Definition join (sep : string) (l : list string) : string :=
  match l with
  | [] => ""
  | s :: l' => fold_left (fun acc x => acc ++ sep ++ x)%string l' s
  end.

Fixpoint repr (v : pyval) : string :=
  match v with
  | PNone => "None"
  | PBool b => if b then "True" else "False"
  | PInt z => of_Z z
  | PFloat x => repr_float x
  | PStr s => repr_str s
  | PList l => ("[" ++ join ", " (map repr l) ++ "]")%string
  | PDict kvs =>
      ("{" ++ join ", " (map (fun kv => repr_str (fst kv) ++ ": " ++ repr (snd kv)) kvs)
           ++ "}")%string
  end.

(** [str(v)] *)
Definition str (v : pyval) : string :=
  match v with
  | PStr s => s
  | _ => repr v
  end.

End PyRepr.

(** ** Dates and instants

    A [dt.date] is its day number (days since 1970-01-01); a stored
    [DateTimeField] is the instant in microseconds since the epoch.  The
    current time zone of the Django settings is not part of the sources: it is
    the parameter [tz], the offset to UTC in microseconds at an instant. *)

Module PyDate.

Definition tzinfo : Type := Z -> Z.
Definition utc : tzinfo := fun _ => 0.

Definition us_per_day : Z := 86400000000.

(** year, month and day of a day number *)
Definition civil (days : Z) : Z * Z * Z :=
  let z := days + 719468 in
  let era := z / 146097 in
  let doe := z - era * 146097 in
  let yoe := (doe - doe / 1460 + doe / 36524 - doe / 146096) / 365 in
  let doy := doe - (365 * yoe + yoe / 4 - yoe / 100) in
  let mp := (5 * doy + 2) / 153 in
  let d := doy - (153 * mp + 2) / 5 + 1 in
  let m := if mp <? 10 then mp + 3 else mp - 9 in
  let y := yoe + era * 400 + (if m <=? 2 then 1 else 0) in
  (y, m, d).

(** [d.strftime(fmt)] with year, month and day joined by [sep] *)
Definition format_date (sep : string) (days : Z) : string :=
  let '(y, m, d) := civil days in
  (PyStr.zero_padded 4 y ++ sep ++ PyStr.zero_padded 2 m ++ sep
     ++ PyStr.zero_padded 2 d)%string.

(** the [__date] lookup and [timezone.localtime(t).date()] *)
Definition local_date (tz : tzinfo) (t : Z) : Z := (t + tz t) / us_per_day.

(** [timezone.localtime(t).strftime("%Y-%m-%d %H:%M")] *)
Definition format_local_minute (tz : tzinfo) (t : Z) : string :=
  let l := t + tz t in
  let minute_of_day := (l mod us_per_day) / 60000000 in
  (format_date "-" (l / us_per_day) ++ " "
     ++ PyStr.zero_padded 2 (minute_of_day / 60) ++ ":"
     ++ PyStr.zero_padded 2 (minute_of_day mod 60))%string.

(** last second of the year 9999 *)
Definition max_seconds : Z := 253402300799.

(** [dt.datetime.fromtimestamp(x, tz=utc)] for [x >= 0]: whole seconds and
    the fraction rounded half-even to microseconds; a year past 9999 is a
    [ValueError], a value past [time_t] an [OverflowError] *)
Definition fromtimestamp (x : PyFloat.t) : result Z :=
  match x with
  | PyFloat.FNan => Raise ValueError
  | PyFloat.FInf _ => Raise OverflowError
  | PyFloat.FFin m e =>
      let intpart := if 0 <=? e then m * 2 ^ e else m / 2 ^ (- e) in
      let frac := if 0 <=? e then PyFloat.FFin 0 0
                  else PyFloat.FFin (m mod 2 ^ (- e)) e in
      us ← PyFloat.round (PyFloat.mul frac (PyFloat.FFin 1000000 0));
      let '(secs, us') := if 1000000 <=? us then (intpart + 1, us - 1000000)
                          else (intpart, us) in
      if 2 ^ 63 <=? secs then Raise OverflowError
      else if max_seconds <? secs then Raise ValueError
      else Ok (secs * 1000000 + us')
  end.

End PyDate.

(** ** The tables of [reports/models.py] *)

Record DailyReport : Type := {
  dr_date : Z;
  dr_transactions_count : Z;
  dr_revenue : Z;
  dr_avg_check : Z;
  dr_raw_transactions : pyval;
  dr_raw_payments : pyval;
  dr_raw_products_sales : pyval;
}.

Record Transaction : Type := {
  tx_transaction_id : string;
  tx_date_start : option Z;
  tx_date_close : option Z;
  tx_status : option Z;
  tx_sum : Z;
  tx_payed_sum : Z;
  tx_payed_cash : Z;
  tx_payed_card : Z;
  tx_payed_bonus : Z;
  tx_payed_third_party : Z;
  tx_payed_cert : Z;
  tx_spot_id : string;
  tx_table_id : string;
  tx_user_id : string;
  tx_client_id : string;
  tx_service_mode : string;
  tx_processing_status : string;
  tx_raw : pyval;
}.

Record Spot : Type := {
  sp_spot_id : string;
  sp_name : string;
}.

(** [PaymentsReport], [ProductsSalesReport] and [SpotsSalesReport] have the
    same two columns. *)
Record RawReport : Type := {
  rr_date : Z;
  rr_raw : pyval;
}.

Record DataIssue : Type := {
  di_date : Z;
  di_issue_type : string;
  di_severity : Z;
  di_message : string;
  di_context : pyval;
  di_ignored : bool;
  di_ignored_at : option Z;
}.

Record Insight : Type := {
  in_date : Z;
  in_title : string;
  in_severity : Z;
  in_details : string;
}.

Record DB : Type := {
  db_daily_reports : list DailyReport;
  db_transactions : list Transaction;
  db_spots : list Spot;
  db_payments_reports : list RawReport;
  db_products_sales_reports : list RawReport;
  db_spots_sales_reports : list RawReport;
  db_data_issues : list DataIssue;
  db_insights : list Insight;
}.

(** ** Query-set operations *)

Module Orm.

(** [objects.update_or_create(key=k, defaults=...)] on a table whose [key]
    column is unique: the row with that key is replaced in place, or a new
    row is appended.  Every modelled column is among the defaults at each
    call site, so the row written is [r]. *)
Fixpoint update_or_create {R K : Type} `{EqDecision K} (key : R -> K) (r : R)
  (tbl : list R) : list R :=
  match tbl with
  | [] => [r]
  | r0 :: tbl' =>
      if decide (key r0 = key r) then r :: tbl'
      else r0 :: update_or_create key r tbl'
  end.

(** [objects.filter(...)] *)
Definition filter_rows {R : Type} (p : R -> bool) (tbl : list R) : list R :=
  List.filter p tbl.

(** [objects.filter(...).delete()] *)
Definition delete_rows {R : Type} (p : R -> bool) (tbl : list R) : list R :=
  List.filter (fun r => negb (p r)) tbl.

(** [objects.bulk_create(rows)] *)
Definition bulk_create {R : Type} (rows : list R) (tbl : list R) : list R :=
  tbl ++ rows.

(** [.first()] *)
Definition first {R : Type} (rows : list R) : option R := head rows.

(** [.order_by("-key").first()]: the row with the largest key, the earliest
    such row among equals *)
Fixpoint first_desc {R : Type} (key : R -> Z) (rows : list R) : option R :=
  match rows with
  | [] => None
  | r :: rows' =>
      match first_desc key rows' with
      | Some r' => if key r <? key r' then Some r' else Some r
      | None => Some r
      end
  end.

End Orm.

(** ** Code that reads and writes the tables and may raise *)

Definition M (A : Type) : Type := DB -> DB * result A.

#[global] Instance M_ret : MRet M := fun A a db => (db, Ok a).
#[global] Instance M_bind : MBind M := fun A B f m db =>
  match m db with
  | (db', Ok a) => f a db'
  | (db', Raise e) => (db', Raise e)
  end.

(** a computation without effect on the tables *)
Definition lift {A} (r : result A) : M A := fun db => (db, r).

Definition read {A} (f : DB -> A) : M A := fun db => (db, Ok (f db)).

Definition write (f : DB -> DB) : M unit := fun db => (f db, Ok tt).

(** [try: m except ...: h] *)
Definition try_except {A} (m : M A) (caught : exn -> bool) (h : M A) : M A :=
  fun db =>
    match m db with
    | (db', Raise e) => if caught e then h db' else (db', Raise e)
    | r => r
    end.

(** [for x in l: body x] *)
Fixpoint for_each {A} (l : list A) (body : A -> M unit) : M unit :=
  match l with
  | [] => mret tt
  | x :: l' => _ ← body x; for_each l' body
  end.

(** ** [reports/poster_client.py] *)

(** What [requests.request] sends and what comes back.  [RequestException]
    stands for every failure of the transport itself (no connection, timeout,
    malformed URL); [json] is [None] when the body is not valid JSON. *)
Record http_request : Type := {
  rq_method : string;
  rq_url : string;
  rq_params : list (string * pyval);
  rq_json : option pyval;
  rq_data : option pyval;
  rq_headers : list (string * pyval);
  rq_timeout : Z;
}.

Inductive http_outcome : Type :=
| RequestException
| Response (status_code : Z) (json : option pyval).

Definition transport : Type := http_request -> http_outcome.

(** [response.raise_for_status()] raises for the 4xx and 5xx codes *)
Definition is_http_error (status_code : Z) : bool :=
  (400 <=? status_code) && (status_code <? 600).

(** the three settings [from_settings] reads *)
Record Settings : Type := {
  POSTER_API_BASE_URL : option string;
  POSTER_API_TOKEN : option string;
  POSTER_AUTH_STYLE : option string;
}.

Module PosterClient.

Record t : Type := {
  base_url : string;
  token : string;
  auth_style : string;
  timeout : Z;
}.

(** [not value] for a setting *)
Definition unset (v : option string) : bool :=
  match v with
  | Some s => negb (PyStr.nonempty s)
  | None => true
  end.

Definition from_settings (settings : Settings) : result t :=
  let missing :=
    List.filter (fun nv => unset (snd nv))
      [("POSTER_API_BASE_URL", POSTER_API_BASE_URL settings);
       ("POSTER_API_TOKEN", POSTER_API_TOKEN settings);
       ("POSTER_AUTH_STYLE", POSTER_AUTH_STYLE settings)] in
  match missing with
  | _ :: _ => Raise PosterConfigError
  | [] =>
      Ok {| base_url := default "" (POSTER_API_BASE_URL settings);
            token := default "" (POSTER_API_TOKEN settings);
            auth_style := default "" (POSTER_AUTH_STYLE settings);
            timeout := 20 |}
  end.

Definition _apply_auth (self : t) (params headers : list (string * pyval))
  : result (list (string * pyval) * list (string * pyval)) :=
  if String.eqb (auth_style self) "query_token" then
    Ok (Py.setitem params "token" (PStr (token self)), headers)
  else if String.eqb (auth_style self) "query_access_token" then
    Ok (Py.setitem params "access_token" (PStr (token self)), headers)
  else if String.eqb (auth_style self) "bearer" then
    Ok (params, Py.setitem headers "Authorization"
                  (PStr ("Bearer " ++ token self)%string))
  else Raise PosterConfigError.

(** the first half of [request]: the call handed to [requests.request] *)
Definition prepare (self : t) (method path : string)
  (params : option (list (string * pyval))) (json_body form_body : option pyval)
  : result http_request :=
  let params := default [] params in
  '(params, headers) ← _apply_auth self params [];
  let url := (PyStr.rstrip_slash (base_url self) ++ "/"
                ++ PyStr.lstrip_slash path)%string in
  Ok {| rq_method := PyStr.upper method;
        rq_url := url;
        rq_params := params;
        rq_json := json_body;
        rq_data := form_body;
        rq_headers := headers;
        rq_timeout := timeout self |}.

(** the second half: the two [try] blocks *)
Definition receive (outcome : http_outcome) : result pyval :=
  match outcome with
  | RequestException => Raise PosterAPIError
  | Response status_code json =>
      if is_http_error status_code then Raise PosterAPIError
      else match json with
           | Some v => Ok v
           | None => Raise PosterAPIError
           end
  end.

Definition request (net : transport) (self : t) (method path : string)
  (params : option (list (string * pyval))) (json_body form_body : option pyval)
  : result pyval :=
  rq ← prepare self method path params json_body form_body;
  receive (net rq).

Definition get (net : transport) (self : t) (path : string)
  (params : option (list (string * pyval))) : result pyval :=
  request net self "GET" path params None None.

End PosterClient.

(** ** [reports/services.py] *)

Definition _yyyymmdd (value : Z) : string := PyDate.format_date "" value.

Definition _safe_int (value : pyval) : result Z :=
  catch (Py.int value) is_type_or_value_error (Ok 0).

Definition _parse_ms (value : pyval) : result (option Z) :=
  match Py.int value with
  | Raise e => if is_type_or_value_error e then Ok None else Raise e
  | Ok ms =>
      if ms <=? 0 then Ok None
      else
        x ← PyFloat.truediv ms 1000;
        t ← PyDate.fromtimestamp x;
        Ok (Some t)
  end.

Definition _extract_transactions (data : pyval) : list pyval :=
  match data with
  | PDict kvs =>
      match Py.lookup_default kvs "response" PNone with
      | PList l => l
      | _ => []
      end
  | _ => []
  end.

(** [int(revenue / transactions_count) if transactions_count else 0] *)
Definition avg_check_of (revenue transactions_count : Z) : result Z :=
  if transactions_count =? 0 then Ok 0
  else
    x ← PyFloat.truediv revenue transactions_count;
    PyFloat.to_int x.

(** [sum(_safe_int(item.get("sum")) for item in items)] *)
Fixpoint sum_of_sums (items : list pyval) : result Z :=
  match items with
  | [] => Ok 0
  | item :: items' =>
      v ← Py.get item "sum";
      n ← _safe_int v;
      rest ← sum_of_sums items';
      Ok (n + rest)
  end.

(** the loop over the rows of a list-shaped spots-sales response *)
Fixpoint spots_rows_totals (rows : list pyval) (total_revenue total_tx : Z)
  : result (Z * Z) :=
  match rows with
  | [] => Ok (total_revenue, total_tx)
  | row :: rows' =>
      r1 ← Py.get row "revenue";
      r2 ← Py.get row "sum";
      dr ← _safe_int (Py.or_ r1 r2);
      t1 ← Py.get row "transactions_count";
      t2 ← Py.get row "count";
      t3 ← Py.get row "clients";
      dt ← _safe_int (Py.or_ (Py.or_ t1 t2) t3);
      spots_rows_totals rows' (total_revenue + dr) (total_tx + dt)
  end.

(** The block "Prefer official spots sales totals" of [import_daily]: from the
    spots-sales payload and the figures [(revenue, transactions_count,
    avg_check)] computed from the transactions to the figures stored. *)
Definition reconcile (spots_sales : pyval) (figures : Z * Z * Z) : result (Z * Z * Z) :=
  match spots_sales with
  | PDict kvs =>
      match Py.lookup_default kvs "response" PNone with
      | PDict response =>
          let rev := Py.lookup_default response "revenue" PNone in
          if Py.is_none rev then Ok figures
          else
            total_revenue_eur ← Py.float (Py.or_ rev (PInt 0));
            total_tx ← _safe_int (Py.or_ (Py.lookup_default response "clients" PNone)
                                    (Py.lookup_default response "transactions_count" PNone));
            if PyFloat.geb total_revenue_eur (PyFloat.FFin 0 0) then
              revenue ← PyFloat.round (PyFloat.mul total_revenue_eur PyFloat.lit_100);
              let transactions_count := total_tx in
              let middle_invoice := Py.lookup_default response "middle_invoice" PNone in
              avg_check ←
                (if Py.is_none middle_invoice
                 then avg_check_of revenue transactions_count
                 else catch (x ← Py.float middle_invoice;
                             PyFloat.round (PyFloat.mul x PyFloat.lit_100))
                        is_type_or_value_error
                        (avg_check_of revenue transactions_count));
              Ok (revenue, transactions_count, avg_check)
            else Ok figures
      | PList response =>
          '(total_revenue, total_tx) ← spots_rows_totals response 0 0;
          if 0 <=? total_revenue then
            avg_check ← avg_check_of total_revenue total_tx;
            Ok (total_revenue, total_tx, avg_check)
          else Ok figures
      | _ => Ok figures
      end
  | _ => Ok figures
  end.

(** [str(row.get(k) or "")] *)
Definition str_field (row : pyval) (k : string) : result string :=
  v ← Py.get row k;
  Ok (PyRepr.str (Py.or_ v (PStr ""))).

Definition int_field (row : pyval) (k : string) : result Z :=
  v ← Py.get row k;
  _safe_int v.

(** the [defaults] of the transaction upsert, evaluated in source order *)
Definition transaction_row (transaction_id : string) (item : pyval)
  : result Transaction :=
  ds ← (v ← Py.get item "date_start"; _parse_ms v);
  dc ← (v ← Py.get item "date_close"; _parse_ms v);
  status ← int_field item "status";
  sum ← int_field item "sum";
  payed_sum ← int_field item "payed_sum";
  payed_cash ← int_field item "payed_cash";
  payed_card ← int_field item "payed_card";
  payed_bonus ← int_field item "payed_bonus";
  payed_third_party ← int_field item "payed_third_party";
  payed_cert ← int_field item "payed_cert";
  spot_id ← str_field item "spot_id";
  table_id ← str_field item "table_id";
  user_id ← str_field item "user_id";
  client_id ← str_field item "client_id";
  service_mode ← str_field item "service_mode";
  processing_status ← str_field item "processing_status";
  Ok {| tx_transaction_id := transaction_id;
        tx_date_start := ds;
        tx_date_close := dc;
        tx_status := Some status;
        tx_sum := sum;
        tx_payed_sum := payed_sum;
        tx_payed_cash := payed_cash;
        tx_payed_card := payed_card;
        tx_payed_bonus := payed_bonus;
        tx_payed_third_party := payed_third_party;
        tx_payed_cert := payed_cert;
        tx_spot_id := spot_id;
        tx_table_id := table_id;
        tx_user_id := user_id;
        tx_client_id := client_id;
        tx_service_mode := service_mode;
        tx_processing_status := processing_status;
        tx_raw := item |}.

Definition set_spots (f : list Spot -> list Spot) (db : DB) : DB :=
  {| db_daily_reports := db_daily_reports db;
     db_transactions := db_transactions db;
     db_spots := f (db_spots db);
     db_payments_reports := db_payments_reports db;
     db_products_sales_reports := db_products_sales_reports db;
     db_spots_sales_reports := db_spots_sales_reports db;
     db_data_issues := db_data_issues db;
     db_insights := db_insights db |}.

Definition set_transactions (f : list Transaction -> list Transaction) (db : DB) : DB :=
  {| db_daily_reports := db_daily_reports db;
     db_transactions := f (db_transactions db);
     db_spots := db_spots db;
     db_payments_reports := db_payments_reports db;
     db_products_sales_reports := db_products_sales_reports db;
     db_spots_sales_reports := db_spots_sales_reports db;
     db_data_issues := db_data_issues db;
     db_insights := db_insights db |}.

Definition set_daily_reports (f : list DailyReport -> list DailyReport) (db : DB) : DB :=
  {| db_daily_reports := f (db_daily_reports db);
     db_transactions := db_transactions db;
     db_spots := db_spots db;
     db_payments_reports := db_payments_reports db;
     db_products_sales_reports := db_products_sales_reports db;
     db_spots_sales_reports := db_spots_sales_reports db;
     db_data_issues := db_data_issues db;
     db_insights := db_insights db |}.

Definition set_payments_reports (f : list RawReport -> list RawReport) (db : DB) : DB :=
  {| db_daily_reports := db_daily_reports db;
     db_transactions := db_transactions db;
     db_spots := db_spots db;
     db_payments_reports := f (db_payments_reports db);
     db_products_sales_reports := db_products_sales_reports db;
     db_spots_sales_reports := db_spots_sales_reports db;
     db_data_issues := db_data_issues db;
     db_insights := db_insights db |}.

Definition set_products_sales_reports (f : list RawReport -> list RawReport) (db : DB)
  : DB :=
  {| db_daily_reports := db_daily_reports db;
     db_transactions := db_transactions db;
     db_spots := db_spots db;
     db_payments_reports := db_payments_reports db;
     db_products_sales_reports := f (db_products_sales_reports db);
     db_spots_sales_reports := db_spots_sales_reports db;
     db_data_issues := db_data_issues db;
     db_insights := db_insights db |}.

Definition set_spots_sales_reports (f : list RawReport -> list RawReport) (db : DB) : DB :=
  {| db_daily_reports := db_daily_reports db;
     db_transactions := db_transactions db;
     db_spots := db_spots db;
     db_payments_reports := db_payments_reports db;
     db_products_sales_reports := db_products_sales_reports db;
     db_spots_sales_reports := f (db_spots_sales_reports db);
     db_data_issues := db_data_issues db;
     db_insights := db_insights db |}.

Definition set_data_issues (f : list DataIssue -> list DataIssue) (db : DB) : DB :=
  {| db_daily_reports := db_daily_reports db;
     db_transactions := db_transactions db;
     db_spots := db_spots db;
     db_payments_reports := db_payments_reports db;
     db_products_sales_reports := db_products_sales_reports db;
     db_spots_sales_reports := db_spots_sales_reports db;
     db_data_issues := f (db_data_issues db);
     db_insights := db_insights db |}.

Definition set_insights (f : list Insight -> list Insight) (db : DB) : DB :=
  {| db_daily_reports := db_daily_reports db;
     db_transactions := db_transactions db;
     db_spots := db_spots db;
     db_payments_reports := db_payments_reports db;
     db_products_sales_reports := db_products_sales_reports db;
     db_spots_sales_reports := db_spots_sales_reports db;
     db_data_issues := db_data_issues db;
     db_insights := f (db_insights db) |}.

(** the body of the loop "Sync spots list" *)
Definition sync_spot (row : pyval) : M unit :=
  spot_id ← lift (str_field row "spot_id");
  name ← lift (str_field row "name");
  if PyStr.nonempty spot_id && PyStr.nonempty name
  then write (set_spots (Orm.update_or_create sp_spot_id
                           {| sp_spot_id := spot_id; sp_name := name |}))
  else mret tt.

(** the block "Sync spots list" *)
Definition sync_spots_list
  (client_get : string -> option (list (string * pyval)) -> result pyval) : M unit :=
  try_except
    (spots_list ← lift (client_get "spots.getSpots" None);
     match spots_list with
     | PDict kvs =>
         match Py.lookup_default kvs "response" PNone with
         | PList rows => for_each rows sync_spot
         | _ => mret tt
         end
     | _ => mret tt
     end)
    is_api_error (mret tt).

(** the body of the loop that upserts the transactions *)
Definition upsert_transaction (item : pyval) : M unit :=
  transaction_id ← lift (str_field item "transaction_id");
  if negb (PyStr.nonempty transaction_id) then mret tt
  else
    row ← lift (transaction_row transaction_id item);
    write (set_transactions (Orm.update_or_create tx_transaction_id row)).

Definition date_params (k1 k2 : string) (date_from date_to : string)
  : option (list (string * pyval)) :=
  Some [(k1, PStr date_from); (k2, PStr date_to)].

(** The body of [import_daily]; the client enters it only through its bound
    method [client.get]. *)
Definition import_daily_with
  (client_get : string -> option (list (string * pyval)) -> result pyval)
  (report_date : Z) (include_products_sales : bool) : M Z :=
  let date_from := _yyyymmdd report_date in
  let date_to := _yyyymmdd report_date in
  transactions ← lift (client_get "dash.getTransactions"
                         (date_params "dateFrom" "dateTo" date_from date_to));
  payments ← lift (client_get "dash.getPaymentsReport"
                     (date_params "date_from" "date_to" date_from date_to));
  products_sales ←
    (if include_products_sales
     then lift (catch (client_get "dash.getProductsSales"
                         (date_params "dateFrom" "dateTo" date_from date_to))
                  is_api_error (Ok (PDict [])))
     else mret (PDict []));
  spots_sales ←
    lift (catch (client_get "dash.getSpotsSales"
                   (date_params "dateFrom" "dateTo" date_from date_to))
            is_api_error (Ok (PDict [])));
  _ ← sync_spots_list client_get;
  let items := _extract_transactions transactions in
  let transactions_count := Z.of_nat (List.length items) in
  revenue ← lift (sum_of_sums items);
  avg_check ← lift (avg_check_of revenue transactions_count);
  _ ← for_each items upsert_transaction;
  _ ← write (set_payments_reports
               (Orm.update_or_create rr_date
                  {| rr_date := report_date; rr_raw := payments |}));
  _ ← (if Py.truthy products_sales
       then write (set_products_sales_reports
                     (Orm.update_or_create rr_date
                        {| rr_date := report_date; rr_raw := products_sales |}))
       else mret tt);
  _ ← (if Py.truthy spots_sales
       then write (set_spots_sales_reports
                     (Orm.update_or_create rr_date
                        {| rr_date := report_date; rr_raw := spots_sales |}))
       else mret tt);
  '(revenue, transactions_count, avg_check) ←
    lift (reconcile spots_sales (revenue, transactions_count, avg_check));
  _ ← write (set_daily_reports
               (Orm.update_or_create dr_date
                  {| dr_date := report_date;
                     dr_transactions_count := transactions_count;
                     dr_revenue := revenue;
                     dr_avg_check := avg_check;
                     dr_raw_transactions := transactions;
                     dr_raw_payments := payments;
                     dr_raw_products_sales := products_sales |}));
  mret transactions_count.

Definition import_daily (net : transport) (client : PosterClient.t) (report_date : Z)
  (include_products_sales : bool) : M Z :=
  import_daily_with (PosterClient.get net client) report_date include_products_sales.

(** *** [scan_anomalies] *)

(** the pair [(issue.issue_type, (issue.context or {}).get("transaction_id"))];
    a pair with a list or a dict inside cannot be put in a set *)
Definition ignored_key (issue : DataIssue) : result (string * pyval) :=
  v ← Py.get (Py.or_ (di_context issue) (PDict [])) "transaction_id";
  if Py.hashable v then Ok (di_issue_type issue, v) else Raise TypeError.

Fixpoint ignored_keys (issues : list DataIssue) : result (list (string * pyval)) :=
  match issues with
  | [] => Ok []
  | issue :: issues' =>
      k ← ignored_key issue;
      ks ← ignored_keys issues';
      Ok (k :: ks)
  end.

(** [(issue_type, key) in existing_ignored] *)
Definition in_ignored (issue_type : string) (key : pyval)
  (existing_ignored : list (string * pyval)) : bool :=
  existsb (fun p => String.eqb (fst p) issue_type && Py.eqb (snd p) key)
    existing_ignored.

Definition table_move_keywords : list string :=
  ["transfer"; "move"; "change_table"; "change table"; "change_table_id"].

(** the loop over [history]: it stops at the first entry that matches *)
Fixpoint history_moved (history : list pyval) : result bool :=
  match history with
  | [] => Ok false
  | h :: history' =>
      v ← Py.get h "type_history";
      let t := PyStr.lower (PyRepr.str (Py.or_ v (PStr ""))) in
      if existsb (fun k => PyStr.contains k t) table_move_keywords then Ok true
      else history_moved history'
  end.

(** [f"{x:.2f}"] *)
Definition format_2f (x : PyFloat.t) : string :=
  match x with
  | PyFloat.FNan => "nan"
  | PyFloat.FInf neg => if neg then "-inf" else "inf"
  | PyFloat.FFin m e =>
      let cents := PyFloat.rne (Z.abs m * 100 * 2 ^ Z.max 0 e) (2 ^ Z.max 0 (- e)) in
      let sign := if m <? 0 then "-" else "" in
      let whole := PyStr.of_Z (cents / 100) in
      let part := PyStr.zero_padded 2 (cents mod 100) in
      (sign ++ whole ++ "." ++ part)%string
  end.

Definition on_date (tz : PyDate.tzinfo) (report_date : Z) (tx : Transaction) : bool :=
  match tx_date_start tx with
  | Some t => PyDate.local_date tz t =? report_date
  | None => false
  end.

Definition zero_sum_issue (report_date : Z) (tx : Transaction) : DataIssue :=
  {| di_date := report_date;
     di_issue_type := "zero_or_negative_sum";
     di_severity := 2;
     di_message := ("Чек закрыт с нулевой/отрицательной суммой: "
                      ++ tx_transaction_id tx)%string;
     di_context := PDict [("transaction_id", PStr (tx_transaction_id tx));
                          ("sum", PInt (tx_sum tx))];
     di_ignored := false;
     di_ignored_at := None |}.

Definition mismatch_issue (report_date : Z) (tx : Transaction) (total : Z) : DataIssue :=
  {| di_date := report_date;
     di_issue_type := "payment_mismatch";
     di_severity := 2;
     di_message := ("Несоответствие оплат по чеку: " ++ tx_transaction_id tx)%string;
     di_context := PDict [("transaction_id", PStr (tx_transaction_id tx));
                          ("payed_sum", PInt (tx_payed_sum tx));
                          ("payed_parts", PInt total)];
     di_ignored := false;
     di_ignored_at := None |}.

Definition table_move_issue (tz : PyDate.tzinfo) (report_date : Z) (tx : Transaction)
  : result DataIssue :=
  let waiter :=
    match tx_raw tx with
    | PDict raw =>
        Py.or_ (Py.or_ (Py.lookup_default raw "name" PNone)
                  (Py.lookup_default raw "waiter" PNone))
          (Py.lookup_default raw "user_name" PNone)
    | _ => PNone
    end in
  let when := match tx_date_close tx with
              | Some t => Some t
              | None => tx_date_start tx
              end in
  let when_text := match when with
                   | Some t => PyDate.format_local_minute tz t
                   | None => "—"
                   end in
  x ← PyFloat.truediv (tx_sum tx) 100;
  let sum_eur := (format_2f x ++ " €")%string in
  Ok {| di_date := report_date;
        di_issue_type := "table_move";
        di_severity := 1;
        di_message := ("Перенос на другой стол: чек " ++ tx_transaction_id tx
                         ++ ", официант " ++ PyRepr.str (Py.or_ waiter (PStr "—"))
                         ++ ", время " ++ when_text ++ ", сумма " ++ sum_eur)%string;
        di_context := PDict [("transaction_id", PStr (tx_transaction_id tx));
                             ("waiter", waiter);
                             ("time", PStr when_text);
                             ("sum", PInt (tx_sum tx))];
        di_ignored := false;
        di_ignored_at := None |}.

(** the issues one transaction adds, in the order of the three checks *)
Definition tx_issues (tz : PyDate.tzinfo) (report_date : Z)
  (existing_ignored : list (string * pyval)) (tx : Transaction)
  : result (list DataIssue) :=
  let key := PStr (tx_transaction_id tx) in
  let zero :=
    if bool_decide (tx_status tx = Some 2) && (tx_sum tx <=? 0)
       && negb (in_ignored "zero_or_negative_sum" key existing_ignored)
    then [zero_sum_issue report_date tx] else [] in
  let total := tx_payed_cash tx + tx_payed_card tx + tx_payed_bonus tx
               + tx_payed_third_party tx + tx_payed_cert tx in
  let mismatch :=
    if (0 <? tx_payed_sum tx) && negb (total =? tx_payed_sum tx)
       && negb (in_ignored "payment_mismatch" key existing_ignored)
    then [mismatch_issue report_date tx total] else [] in
  let history := match tx_raw tx with
                 | PDict raw => Py.lookup_default raw "history" PNone
                 | _ => PNone
                 end in
  moves ←
    match history with
    | PList h =>
        moved ← history_moved h;
        if moved && negb (in_ignored "table_move" key existing_ignored)
        then (i ← table_move_issue tz report_date tx; Ok [i])
        else Ok []
    | _ => Ok []
    end;
  Ok (zero ++ mismatch ++ moves)%list.

Fixpoint txs_issues (tz : PyDate.tzinfo) (report_date : Z)
  (existing_ignored : list (string * pyval)) (txs : list Transaction)
  : result (list DataIssue) :=
  match txs with
  | [] => Ok []
  | tx :: txs' =>
      here ← tx_issues tz report_date existing_ignored tx;
      rest ← txs_issues tz report_date existing_ignored txs';
      Ok (here ++ rest)%list
  end.

Definition no_transactions_issue (report_date : Z) : DataIssue :=
  {| di_date := report_date;
     di_issue_type := "no_transactions";
     di_severity := 1;
     di_message := "Нет чеков за день";
     di_context := PDict [];
     di_ignored := false;
     di_ignored_at := None |}.

(** everything [scan_anomalies] computes before it touches the table *)
Definition fresh_issues (tz : PyDate.tzinfo) (report_date : Z) (db : DB)
  : result (list DataIssue) :=
  let transactions := Orm.filter_rows (on_date tz report_date) (db_transactions db) in
  existing_ignored ←
    ignored_keys (Orm.filter_rows
                    (fun i => (di_date i =? report_date) && di_ignored i)
                    (db_data_issues db));
  issues ← txs_issues tz report_date existing_ignored transactions;
  let report := Orm.first (Orm.filter_rows (fun r => dr_date r =? report_date)
                             (db_daily_reports db)) in
  let empty_day :=
    match report with
    | Some r =>
        if (dr_transactions_count r =? 0)
           && negb (in_ignored "no_transactions" PNone existing_ignored)
        then [no_transactions_issue report_date] else []
    | None => []
    end in
  Ok (issues ++ empty_day)%list.

Definition scan_anomalies (tz : PyDate.tzinfo) (report_date : Z) : M (list DataIssue) :=
  issues ← (fun db => (db, fresh_issues tz report_date db));
  _ ← write (set_data_issues
               (Orm.delete_rows
                  (fun i => (di_date i =? report_date) && negb (di_ignored i))));
  _ ← write (set_data_issues (Orm.bulk_create issues));
  mret issues.

(** *** [generate_insights] *)

(** [drop = (prev - current) / prev] together with the test [drop >= 0.3] *)
Definition drop_of (prev current : Z) : result PyFloat.t :=
  PyFloat.truediv (prev - current) prev.

Definition drop_fires (drop : PyFloat.t) : bool := PyFloat.geb drop PyFloat.lit_0_3.

(** [int(drop*100)] inside the details *)
Definition drop_percent (drop : PyFloat.t) : result string :=
  p ← PyFloat.to_int (PyFloat.mul drop PyFloat.lit_100);
  Ok (PyStr.of_Z p).

Definition no_sales_insight (report_date : Z) : Insight :=
  {| in_date := report_date;
     in_title := "Нет продаж";
     in_severity := 2;
     in_details := "За выбранный день нет чеков. Проверьте, работала ли касса." |}.

Definition revenue_drop_insight (report_date : Z) (percent : string) : Insight :=
  {| in_date := report_date;
     in_title := "Падение выручки";
     in_severity := 2;
     in_details := ("Выручка упала на " ++ percent
                      ++ "% по сравнению с предыдущим днем.")%string |}.

Definition avg_check_drop_insight (report_date : Z) (percent : string) : Insight :=
  {| in_date := report_date;
     in_title := "Падение среднего чека";
     in_severity := 1;
     in_details := ("Средний чек упал на " ++ percent
                      ++ "% по сравнению с предыдущим днем.")%string |}.

(** one of the two blocks [if prev and prev.x > 0: ...] *)
Definition drop_insights (prev_value current_value : Z) (mk : string -> Insight)
  : result (list Insight) :=
  if 0 <? prev_value then
    drop ← drop_of prev_value current_value;
    if drop_fires drop then
      percent ← drop_percent drop;
      Ok [mk percent]
    else Ok []
  else Ok [].

(** the list [insights] built for the report [current] given the most recent
    earlier report [prev] *)
Definition insights_for (report_date : Z) (current : DailyReport)
  (prev : option DailyReport) : result (list Insight) :=
  let no_sales := if dr_transactions_count current =? 0
                  then [no_sales_insight report_date] else [] in
  revenue ←
    match prev with
    | Some p => drop_insights (dr_revenue p) (dr_revenue current)
                  (revenue_drop_insight report_date)
    | None => Ok []
    end;
  avg ←
    match prev with
    | Some p => drop_insights (dr_avg_check p) (dr_avg_check current)
                  (avg_check_drop_insight report_date)
    | None => Ok []
    end;
  Ok (no_sales ++ revenue ++ avg)%list.

Definition current_report (report_date : Z) (db : DB) : option DailyReport :=
  Orm.first (Orm.filter_rows (fun r => dr_date r =? report_date) (db_daily_reports db)).

Definition previous_report (report_date : Z) (db : DB) : option DailyReport :=
  Orm.first_desc dr_date
    (Orm.filter_rows (fun r => dr_date r <? report_date) (db_daily_reports db)).

Definition generate_insights (report_date : Z) : M Z :=
  current ← read (current_report report_date);
  match current with
  | None => mret 0
  | Some current =>
      prev ← read (previous_report report_date);
      insights ← lift (insights_for report_date current prev);
      _ ← write (set_insights (Orm.delete_rows (fun i => in_date i =? report_date)));
      _ ← write (set_insights (Orm.bulk_create insights));
      mret (Z.of_nat (List.length insights))
  end.

(** *** [daily_summary_by_spot] *)

Record SpotSummary : Type := {
  ss_transactions : Z;
  ss_revenue : Z;
  ss_returns : Z;
  ss_returns_sum : Z;
}.

#[global] Instance SpotSummary_eq_dec : EqDecision SpotSummary.
Proof. solve_decision. Defined.

(** [int(a or b or 0)] over the fields of a row *)
Definition int_of_first (row : list (string * pyval)) (keys : list string) : result Z :=
  Py.int (fold_right (fun k rest => Py.or_ (Py.lookup_default row k PNone) rest)
            (PInt 0) keys).

(** the body of the loop over the rows of the stored spots-sales report *)
Definition official_row (summary : gmap string SpotSummary) (row : pyval)
  : result (gmap string SpotSummary) :=
  match row with
  | PDict r =>
      let spot_id :=
        PyRepr.str (Py.or_ (Py.or_ (Py.lookup_default r "spot_id" PNone)
                              (Py.lookup_default r "id" PNone)) (PStr "")) in
      if negb (PyStr.nonempty spot_id) then Ok summary
      else
        transactions ← int_of_first r ["transactions_count"; "count"];
        revenue ← int_of_first r ["revenue"; "sum"];
        returns ← int_of_first r ["returns_count"];
        returns_sum ← int_of_first r ["returns_sum"];
        Ok (<[spot_id := {| ss_transactions := transactions;
                            ss_revenue := revenue;
                            ss_returns := returns;
                            ss_returns_sum := returns_sum |}]> summary)
  | _ => Ok summary
  end.

Fixpoint official_rows (summary : gmap string SpotSummary) (rows : list pyval)
  : result (gmap string SpotSummary) :=
  match rows with
  | [] => Ok summary
  | row :: rows' =>
      summary' ← official_row summary row;
      official_rows summary' rows'
  end.

(** the summary read from the stored spots-sales payload [raw], a dict *)
Definition official_summary (raw : list (string * pyval))
  : result (gmap string SpotSummary) :=
  let rows := Py.lookup_default raw "response" (PList []) in
  let rows := match rows with
              | PDict d => Py.lookup_default d "spots" (PList [])
              | _ => rows
              end in
  elems ← Py.iter rows;
  official_rows ∅ elems.

Definition is_return (tx : Transaction) : bool :=
  bool_decide (tx_status tx = Some 3) || (tx_sum tx <? 0).

Definition spot_key (tx : Transaction) : string :=
  if PyStr.nonempty (tx_spot_id tx) then tx_spot_id tx else "unknown".

Definition empty_summary : SpotSummary :=
  {| ss_transactions := 0; ss_revenue := 0; ss_returns := 0; ss_returns_sum := 0 |}.

(** the body of the fallback loop *)
Definition add_transaction (summary : gmap string SpotSummary) (tx : Transaction)
  : gmap string SpotSummary :=
  let key := spot_key tx in
  let item := default empty_summary (summary !! key) in
  <[key := {| ss_transactions := ss_transactions item + 1;
              ss_revenue := ss_revenue item + tx_sum tx;
              ss_returns := if is_return tx then ss_returns item + 1
                            else ss_returns item;
              ss_returns_sum := if is_return tx then ss_returns_sum item + tx_sum tx
                                else ss_returns_sum item |}]> summary.

Definition fallback_summary (tz : PyDate.tzinfo) (report_date : Z) (db : DB)
  : gmap string SpotSummary :=
  fold_left add_transaction
    (Orm.filter_rows (on_date tz report_date) (db_transactions db)) ∅.

Definition stored_spots_report (report_date : Z) (db : DB) : option RawReport :=
  Orm.first (Orm.filter_rows (fun r => rr_date r =? report_date)
               (db_spots_sales_reports db)).

Definition daily_summary_by_spot (tz : PyDate.tzinfo) (report_date : Z) (db : DB)
  : result (gmap string SpotSummary) :=
  match stored_spots_report report_date db with
  | Some {| rr_raw := PDict raw |} =>
      summary ← official_summary raw;
      if bool_decide (summary = ∅) then Ok (fallback_summary tz report_date db)
      else Ok summary
  | _ => Ok (fallback_summary tz report_date db)
  end.

(** ** Notions used in the statements *)

(** mantissa of the float nearest to 0.3, which is [M_0_3 * 2^-54] *)
Definition M_0_3 : Z := 5404319552844595.

(** [2^f <= n/d < 2^(f+1)], written without fractions *)
Definition in_binade (n d f : Z) : Prop :=
  d * 2 ^ Z.max 0 f <= n * 2 ^ Z.max 0 (- f) /\
  n * 2 ^ Z.max 0 (- (f + 1)) < d * 2 ^ Z.max 0 (f + 1).

(** *** Requests *)

Definition recognized_auth_style (style : string) : bool :=
  existsb (String.eqb style) ["query_token"; "query_access_token"; "bearer"].

(** a client that lacks a credential or a base URL *)
Definition lacks_setting (client : PosterClient.t) : Prop :=
  PosterClient.base_url client = "" \/ PosterClient.token client = "".

(** *** Fetches of an import *)

Definition optional_paths : list string :=
  ["dash.getProductsSales"; "dash.getSpotsSales"; "spots.getSpots"].

(** a client whose optional endpoints answer with an empty object where
    [client_get] fails with [PosterAPIError] *)
Definition degraded
  (client_get : string -> option (list (string * pyval)) -> result pyval)
  (path : string) (params : option (list (string * pyval))) : result pyval :=
  if existsb (String.eqb path) optional_paths
  then catch (client_get path params) is_api_error (Ok (PDict []))
  else client_get path params.

Definition day_range (k1 k2 : string) (report_date : Z)
  : option (list (string * pyval)) :=
  date_params k1 k2 (_yyyymmdd report_date) (_yyyymmdd report_date).

Definition fetch_transactions
  (client_get : string -> option (list (string * pyval)) -> result pyval)
  (report_date : Z) : result pyval :=
  client_get "dash.getTransactions" (day_range "dateFrom" "dateTo" report_date).

Definition fetch_payments
  (client_get : string -> option (list (string * pyval)) -> result pyval)
  (report_date : Z) : result pyval :=
  client_get "dash.getPaymentsReport" (day_range "date_from" "date_to" report_date).

Definition fetch_spots_sales
  (client_get : string -> option (list (string * pyval)) -> result pyval)
  (report_date : Z) : result pyval :=
  client_get "dash.getSpotsSales" (day_range "dateFrom" "dateTo" report_date).

(** the payload the reconciliation looks at: the answer, or [{}] after a
    [PosterAPIError] *)
Definition spots_sales_payload
  (client_get : string -> option (list (string * pyval)) -> result pyval)
  (report_date : Z) : result pyval :=
  catch (fetch_spots_sales client_get report_date) is_api_error (Ok (PDict [])).

(** the figures of the raw-sum path *)
Definition raw_figures (transactions : pyval) : result (Z * Z * Z) :=
  let items := _extract_transactions transactions in
  revenue ← sum_of_sums items;
  avg_check ← avg_check_of revenue (Z.of_nat (List.length items));
  Ok (revenue, Z.of_nat (List.length items), avg_check).

Definition figures_of (r : DailyReport) : Z * Z * Z :=
  (dr_revenue r, dr_transactions_count r, dr_avg_check r).

(** *** Reconciliation, case by case *)

(** [int(round(float(v) * 100))] *)
Definition cents_of (v : pyval) : result Z :=
  x ← Py.float v;
  PyFloat.round (PyFloat.mul x PyFloat.lit_100).

Definition row_revenue (row : pyval) : result Z :=
  r1 ← Py.get row "revenue";
  r2 ← Py.get row "sum";
  _safe_int (Py.or_ r1 r2).

Definition row_count (row : pyval) : result Z :=
  t1 ← Py.get row "transactions_count";
  t2 ← Py.get row "count";
  t3 ← Py.get row "clients";
  _safe_int (Py.or_ (Py.or_ t1 t2) t3).

Definition sum_Z (l : list Z) : Z := fold_right Z.add 0 l.

(** the average check of a dict-shaped aggregate: [middle_invoice] times 100
    when the field is there and is a number, re-derived otherwise *)
Definition avg_from_total (response : list (string * pyval)) (revenue count avg : Z)
  : Prop :=
  let middle_invoice := Py.lookup_default response "middle_invoice" PNone in
  (middle_invoice = PNone /\ avg_check_of revenue count = Ok avg) \/
  (middle_invoice <> PNone /\ cents_of middle_invoice = Ok avg) \/
  (middle_invoice <> PNone /\
   (exists e, cents_of middle_invoice = Raise e /\ is_type_or_value_error e = true) /\
   avg_check_of revenue count = Ok avg).

Inductive reconciled (spots_sales : pyval) (raw : Z * Z * Z) : Z * Z * Z -> Prop :=
| by_total kvs response x revenue count avg :
    spots_sales = PDict kvs ->
    Py.lookup_default kvs "response" PNone = PDict response ->
    Py.lookup_default response "revenue" PNone <> PNone ->
    Py.float (Py.or_ (Py.lookup_default response "revenue" PNone) (PInt 0)) = Ok x ->
    PyFloat.geb x (PyFloat.FFin 0 0) = true ->
    PyFloat.round (PyFloat.mul x PyFloat.lit_100) = Ok revenue ->
    _safe_int (Py.or_ (Py.lookup_default response "clients" PNone)
                 (Py.lookup_default response "transactions_count" PNone)) = Ok count ->
    avg_from_total response revenue count avg ->
    reconciled spots_sales raw (revenue, count, avg)
| by_total_negative kvs response x :
    spots_sales = PDict kvs ->
    Py.lookup_default kvs "response" PNone = PDict response ->
    Py.lookup_default response "revenue" PNone <> PNone ->
    Py.float (Py.or_ (Py.lookup_default response "revenue" PNone) (PInt 0)) = Ok x ->
    PyFloat.geb x (PyFloat.FFin 0 0) = false ->
    reconciled spots_sales raw raw
| by_rows kvs rows revenues counts avg :
    spots_sales = PDict kvs ->
    Py.lookup_default kvs "response" PNone = PList rows ->
    Forall2 (fun row v => row_revenue row = Ok v) rows revenues ->
    Forall2 (fun row v => row_count row = Ok v) rows counts ->
    0 <= sum_Z revenues ->
    avg_check_of (sum_Z revenues) (sum_Z counts) = Ok avg ->
    reconciled spots_sales raw (sum_Z revenues, sum_Z counts, avg)
| by_rows_negative kvs rows revenues :
    spots_sales = PDict kvs ->
    Py.lookup_default kvs "response" PNone = PList rows ->
    Forall2 (fun row v => row_revenue row = Ok v) rows revenues ->
    sum_Z revenues < 0 ->
    reconciled spots_sales raw raw
| by_neither :
    (forall kvs response, spots_sales = PDict kvs ->
       Py.lookup_default kvs "response" PNone = PDict response ->
       Py.lookup_default response "revenue" PNone = PNone) ->
    (forall kvs rows, spots_sales = PDict kvs ->
       Py.lookup_default kvs "response" PNone <> PList rows) ->
    reconciled spots_sales raw raw.

(** the average check was taken from the [middle_invoice] field *)
Definition from_middle_invoice (spots_sales : pyval) (avg : Z) : Prop :=
  exists kvs response,
    spots_sales = PDict kvs /\
    Py.lookup_default kvs "response" PNone = PDict response /\
    Py.lookup_default response "middle_invoice" PNone <> PNone /\
    cents_of (Py.lookup_default response "middle_invoice" PNone) = Ok avg.

(** *** Transactions of an import *)

Definition transaction_ids (tbl : list Transaction) : list string :=
  map tx_transaction_id tbl.



(** *** Issues of a scan *)

(** the rows [scan_anomalies] deletes and re-creates *)
Definition open_on (report_date : Z) (i : DataIssue) : bool :=
  (di_date i =? report_date) && negb (di_ignored i).

Definition ignored_on (report_date : Z) (i : DataIssue) : bool :=
  (di_date i =? report_date) && di_ignored i.

(** *** Summary by spot *)

Definition spot_transactions (tz : PyDate.tzinfo) (report_date : Z) (db : DB)
  (spot : string) : list Transaction :=
  List.filter (fun tx => String.eqb (spot_key tx) spot)
    (List.filter (on_date tz report_date) (db_transactions db)).

(** the entry of the summary computed from the transactions [txs] of a spot *)
Definition summary_of (txs : list Transaction) : SpotSummary :=
  {| ss_transactions := Z.of_nat (List.length txs);
     ss_revenue := sum_Z (map tx_sum txs);
     ss_returns := Z.of_nat (List.length (List.filter is_return txs));
     ss_returns_sum := sum_Z (map tx_sum (List.filter is_return txs)) |}.

(** the stored spots-sales report gives no row per spot *)
Definition no_official_rows (report_date : Z) (db : DB) : Prop :=
  match stored_spots_report report_date db with
  | None => True
  | Some r =>
      match rr_raw r with
      | PDict raw => official_summary raw = Ok ∅
      | _ => True
      end
  end.

(** *** Insights *)

Definition has_title (title : string) (i : Insight) : bool :=
  String.eqb (in_title i) title.

Definition insights_on (report_date : Z) (db : DB) : list Insight :=
  List.filter (fun i => in_date i =? report_date) (db_insights db).

(** ** Sample data *)

Definition empty_db : DB :=
  {| db_daily_reports := [];
     db_transactions := [];
     db_spots := [];
     db_payments_reports := [];
     db_products_sales_reports := [];
     db_spots_sales_reports := [];
     db_data_issues := [];
     db_insights := [] |}.

Definition demo_client : PosterClient.t :=
  {| PosterClient.base_url := "https://demo.joinposter.com/api/";
     PosterClient.token := "secret";
     PosterClient.auth_style := "query_token";
     PosterClient.timeout := 20 |}.

(** a server that answers the listed API methods and is unreachable for the
    others *)
Definition canned (answers : list (string * http_outcome)) : transport :=
  fun rq =>
    match List.find (fun a => String.eqb (rq_url rq)
                                ("https://demo.joinposter.com/api/" ++ fst a)%string)
            answers with
    | Some a => snd a
    | None => RequestException
    end.

Definition ok_json (v : pyval) : http_outcome := Response 200 (Some v).

(** 2023-11-14, and one hour into that day in milliseconds *)
Definition demo_day : Z := 19675.
Definition demo_ms : Z := 1699923600000.

Definition demo_item (id : string) (sum : Z) : pyval :=
  PDict [("transaction_id", PStr id); ("date_start", PInt demo_ms);
         ("status", PInt 2); ("sum", PInt sum)].

Definition demo_transactions (items : list pyval) : string * http_outcome :=
  ("dash.getTransactions", ok_json (PDict [("response", PList items)])).

Definition demo_payments : string * http_outcome :=
  ("dash.getPaymentsReport", ok_json (PDict [])).

Definition demo_spots_sales (response : pyval) : string * http_outcome :=
  ("dash.getSpotsSales", ok_json (PDict [("response", response)])).

Definition demo_transaction (id spot : string) (status sum : Z) : Transaction :=
  {| tx_transaction_id := id;
     tx_date_start := Some (demo_ms * 1000);
     tx_date_close := None;
     tx_status := Some status;
     tx_sum := sum;
     tx_payed_sum := 0;
     tx_payed_cash := 0;
     tx_payed_card := 0;
     tx_payed_bonus := 0;
     tx_payed_third_party := 0;
     tx_payed_cert := 0;
     tx_spot_id := spot;
     tx_table_id := "";
     tx_user_id := "";
     tx_client_id := "";
     tx_service_mode := "";
     tx_processing_status := "";
     tx_raw := PDict [] |}.

Definition demo_report (report_date count revenue avg : Z) : DailyReport :=
  {| dr_date := report_date;
     dr_transactions_count := count;
     dr_revenue := revenue;
     dr_avg_check := avg;
     dr_raw_transactions := PDict [];
     dr_raw_payments := PDict [];
     dr_raw_products_sales := PDict [] |}.

(** *** Notions used in the proofs *)

(** a step that leaves a part [π] of the tables alone, whatever its outcome *)
Definition keeps {A X} (π : DB -> X) (m : M A) : Prop :=
  forall db db' r, m db = (db', r) -> π db' = π db.

(** what a successful import went through: the payloads fetched, the figures
    before and after the reconciliation, and the tables between the steps *)
Record import_trace : Type := {
  it_transactions : pyval;
  it_payments : pyval;
  it_products_sales : pyval;
  it_spots_sales : pyval;
  it_raw : Z * Z * Z;
  it_report : DailyReport;
  it_after_sync : DB;
  it_after_upserts : DB;
  it_before_report : DB;
}.

(** [t] is the trace of the import that took [db] to [db'] and returned [n] *)
Definition import_run
  (client_get : string -> option (list (string * pyval)) -> result pyval)
  (report_date : Z) (db db' : DB) (n : Z) (t : import_trace) : Prop :=
  fetch_transactions client_get report_date = Ok (it_transactions t) /\
  fetch_payments client_get report_date = Ok (it_payments t) /\
  spots_sales_payload client_get report_date = Ok (it_spots_sales t) /\
  raw_figures (it_transactions t) = Ok (it_raw t) /\
  reconcile (it_spots_sales t) (it_raw t) = Ok (figures_of (it_report t)) /\
  dr_date (it_report t) = report_date /\
  dr_raw_transactions (it_report t) = it_transactions t /\
  dr_raw_payments (it_report t) = it_payments t /\
  dr_raw_products_sales (it_report t) = it_products_sales t /\
  n = dr_transactions_count (it_report t) /\
  sync_spots_list client_get db = (it_after_sync t, Ok tt) /\
  for_each (_extract_transactions (it_transactions t)) upsert_transaction
    (it_after_sync t) = (it_after_upserts t, Ok tt) /\
  db_transactions (it_before_report t) = db_transactions (it_after_upserts t) /\
  db' = set_daily_reports (Orm.update_or_create dr_date (it_report t))
          (it_before_report t).

(** a computation that never raises [PosterAPIError] *)
Definition quiet {A} (r : result A) : Prop :=
  forall e, r = Raise e -> is_api_error e = false.

Definition quietM {A} (m : M A) : Prop :=
  forall db db' e, m db = (db', Raise e) -> is_api_error e = false.


(** what every issue of a scan looks like: it is of the day, not ignored, and
    its pair is not among the ignored pairs *)
Definition accepted (report_date : Z) (existing_ignored : list (string * pyval))
  (i : DataIssue) : Prop :=
  di_date i = report_date /\ di_ignored i = false /\
  exists k, ignored_key i = Ok (di_issue_type i, k) /\
            Py.eqb k k = true /\
            in_ignored (di_issue_type i) k existing_ignored = false.

(** stored data a scan can read: the context of an ignored issue of the day
    is a dict (or empty) whose transaction id can be hashed, the history of a
    transaction of the day holds dicts only, and sums are below [2^1023] *)
Definition scannable (tz : PyDate.tzinfo) (report_date : Z) (db : DB) : Prop :=
  (forall g, In g (db_data_issues db) -> ignored_on report_date g = true ->
             exists k, ignored_key g = Ok k) /\
  (forall tx, In tx (db_transactions db) -> on_date tz report_date tx = true ->
     Z.abs (tx_sum tx) < 2 ^ 1023 /\
     forall raw h, tx_raw tx = PDict raw ->
                   Py.lookup_default raw "history" PNone = PList h ->
                   Forall (fun x => Py.is_dict x = true) h).

(** the entry [item] after the transactions [txs] were added to it *)
Definition extended (item : SpotSummary) (txs : list Transaction) : SpotSummary :=
  {| ss_transactions := ss_transactions item + ss_transactions (summary_of txs);
     ss_revenue := ss_revenue item + ss_revenue (summary_of txs);
     ss_returns := ss_returns item + ss_returns (summary_of txs);
     ss_returns_sum := ss_returns_sum item + ss_returns_sum (summary_of txs) |}.

Definition revenue_drop_title : string := "Падение выручки".
Definition avg_check_drop_title : string := "Падение среднего чека".

(** a revenue drop (resp. average-check drop) insight is among [l] *)
Definition reports_drop (title : string) (l : list Insight) : bool :=
  existsb (has_title title) l.

(** *** Sample days *)

Definition negative_day : transport :=
  canned [demo_transactions [demo_item "1" (-7); demo_item "2" 0]; demo_payments].

Definition two_sales : transport :=
  canned [demo_transactions [demo_item "1" 1000; demo_item "2" 501]; demo_payments].

Definition negative_total : transport :=
  canned [demo_transactions [demo_item "1" 1000]; demo_payments;
          demo_spots_sales (PDict [("revenue", PStr "-5"); ("clients", PInt 3)])].

Definition total_day : transport :=
  canned [demo_transactions [demo_item "1" 1000]; demo_payments;
          demo_spots_sales (PDict [("revenue", PStr "12.34"); ("clients", PInt 3);
                                   ("middle_invoice", PFloat (PyFloat.FFin 33 (-3)))])].

Definition empty_rows_day : transport :=
  canned [demo_transactions [demo_item "1" 1000; demo_item "2" 500]; demo_payments;
          demo_spots_sales (PList [])].

Definition ragged_day : transport :=
  canned [demo_transactions
            [PDict [("sum", PInt 100)];
             PDict [("transaction_id", PInt 7); ("date_start", PInt 0);
                    ("date_close", PStr "soon")];
             demo_item "8" 300;
             demo_item "8" 500];
          demo_payments].

Definition tokenless_client : PosterClient.t :=
  {| PosterClient.base_url := "https://demo.joinposter.com/api/";
     PosterClient.token := "";
     PosterClient.auth_style := "bearer";
     PosterClient.timeout := 20 |}.

Definition mismatch_tx (id : string) : Transaction :=
  {| tx_transaction_id := id;
     tx_date_start := Some (demo_ms * 1000);
     tx_date_close := None;
     tx_status := Some 2;
     tx_sum := 500;
     tx_payed_sum := 500;
     tx_payed_cash := 400;
     tx_payed_card := 0;
     tx_payed_bonus := 0;
     tx_payed_third_party := 0;
     tx_payed_cert := 0;
     tx_spot_id := "1";
     tx_table_id := "";
     tx_user_id := "";
     tx_client_id := "";
     tx_service_mode := "";
     tx_processing_status := "";
     tx_raw := PDict [] |}.

Definition ignored_mismatch (id : string) : DataIssue :=
  {| di_date := demo_day;
     di_issue_type := "payment_mismatch";
     di_severity := 2;
     di_message := "";
     di_context := PDict [("transaction_id", PStr id)];
     di_ignored := true;
     di_ignored_at := Some 0 |}.

Definition stale_issue (report_date : Z) : DataIssue :=
  {| di_date := report_date;
     di_issue_type := "zero_or_negative_sum";
     di_severity := 2;
     di_message := "";
     di_context := PDict [("transaction_id", PStr "T0")];
     di_ignored := false;
     di_ignored_at := None |}.

Definition triaged_db : DB :=
  {| db_daily_reports := [];
     db_transactions := [mismatch_tx "T1"; mismatch_tx "T2"];
     db_spots := [];
     db_payments_reports := [];
     db_products_sales_reports := [];
     db_spots_sales_reports := [];
     db_data_issues := [ignored_mismatch "T1"; stale_issue demo_day;
                        stale_issue (demo_day + 1)];
     db_insights := [] |}.

Definition returns_db : DB :=
  {| db_daily_reports := [];
     db_transactions := [demo_transaction "1" "5" 2 1000;
                         demo_transaction "2" "" 3 400;
                         demo_transaction "3" "5" 2 (-250);
                         demo_transaction "4" "5" 3 0];
     db_spots := [];
     db_payments_reports := [];
     db_products_sales_reports := [];
     db_spots_sales_reports := [];
     db_data_issues := [];
     db_insights := [] |}.

Definition huge_db : DB :=
  {| db_daily_reports := [demo_report (demo_day - 1) 10 3000000000000007 100;
                          demo_report demo_day 10 2100000000000005 100];
     db_transactions := [];
     db_spots := [];
     db_payments_reports := [];
     db_products_sales_reports := [];
     db_spots_sales_reports := [];
     db_data_issues := [];
     db_insights := [] |}.

Definition drop_db (current : Z) : DB :=
  {| db_daily_reports := [demo_report (demo_day - 3) 10 1000 100;
                          demo_report demo_day 10 current 70];
     db_transactions := [];
     db_spots := [];
     db_payments_reports := [];
     db_products_sales_reports := [];
     db_spots_sales_reports := [];
     db_data_issues := [];
     db_insights := [] |}.

(** ** Further code of [reports/services.py] and notions about it *)

(** *** The writes of an import *)

(** one call of [update_or_create] of [import_daily], with the row written *)
Inductive upsert : Type :=
| UpSpot (r : Spot)
| UpTransaction (r : Transaction)
| UpPaymentsReport (r : RawReport)
| UpProductsSalesReport (r : RawReport)
| UpSpotsSalesReport (r : RawReport)
| UpDailyReport (r : DailyReport).

Definition apply_upsert (u : upsert) : DB -> DB :=
  match u with
  | UpSpot r => set_spots (Orm.update_or_create sp_spot_id r)
  | UpTransaction r => set_transactions (Orm.update_or_create tx_transaction_id r)
  | UpPaymentsReport r => set_payments_reports (Orm.update_or_create rr_date r)
  | UpProductsSalesReport r =>
      set_products_sales_reports (Orm.update_or_create rr_date r)
  | UpSpotsSalesReport r => set_spots_sales_reports (Orm.update_or_create rr_date r)
  | UpDailyReport r => set_daily_reports (Orm.update_or_create dr_date r)
  end.

Definition apply_upserts (log : list upsert) (db : DB) : DB :=
  fold_left (fun db u => apply_upsert u db) log db.

(** a computation that reads nothing from the tables: it makes the same
    upserts and has the same outcome from every state *)
Definition upserts_only {A} (m : M A) : Prop :=
  exists log r, forall db, m db = (apply_upserts log db, r).

(** two upserts that write the row of the same key of the same table *)
Definition same_slot (u u' : upsert) : bool :=
  match u, u' with
  | UpSpot r, UpSpot r' => bool_decide (sp_spot_id r = sp_spot_id r')
  | UpTransaction r, UpTransaction r' =>
      bool_decide (tx_transaction_id r = tx_transaction_id r')
  | UpPaymentsReport r, UpPaymentsReport r' => bool_decide (rr_date r = rr_date r')
  | UpProductsSalesReport r, UpProductsSalesReport r' =>
      bool_decide (rr_date r = rr_date r')
  | UpSpotsSalesReport r, UpSpotsSalesReport r' => bool_decide (rr_date r = rr_date r')
  | UpDailyReport r, UpDailyReport r' => bool_decide (dr_date r = dr_date r')
  | _, _ => false
  end.

(** the first row of [tbl] with the key of [r] *)
Definition row_of {R K : Type} `{EqDecision K} (key : R -> K) (r : R) (tbl : list R)
  : option R :=
  List.find (fun x => bool_decide (key x = key r)) tbl.

(** the row stored under the key of [u] *)
Definition stored (u : upsert) (db : DB) : option upsert :=
  match u with
  | UpSpot r => UpSpot <$> row_of sp_spot_id r (db_spots db)
  | UpTransaction r => UpTransaction <$> row_of tx_transaction_id r (db_transactions db)
  | UpPaymentsReport r => UpPaymentsReport <$> row_of rr_date r (db_payments_reports db)
  | UpProductsSalesReport r =>
      UpProductsSalesReport <$> row_of rr_date r (db_products_sales_reports db)
  | UpSpotsSalesReport r =>
      UpSpotsSalesReport <$> row_of rr_date r (db_spots_sales_reports db)
  | UpDailyReport r => UpDailyReport <$> row_of dr_date r (db_daily_reports db)
  end.

(** a step that only appends to a column [π] of the tables, whatever its
    outcome *)
Definition grows {A X} (π : DB -> list X) (m : M A) : Prop :=
  forall db db' r, m db = (db', r) -> π db `prefix_of` π db'.

(** the rows of the reports of the other days *)
Definition other_days {R} (date : R -> Z) (report_date : Z) (tbl : list R) : list R :=
  List.filter (fun r => negb (date r =? report_date)) tbl.

(** tables that hold the rows of the sample day and of the day after *)
Definition later_db : DB :=
  {| db_daily_reports := [demo_report (demo_day + 1) 1 900 900;
                          demo_report demo_day 7 7000 1000];
     db_transactions := [demo_transaction "2" "5" 2 400;
                         demo_transaction "9" "5" 2 900];
     db_spots := [{| sp_spot_id := "5"; sp_name := "Bar" |}];
     db_payments_reports := [{| rr_date := demo_day + 1; rr_raw := PDict [] |}];
     db_products_sales_reports := [];
     db_spots_sales_reports :=
       [{| rr_date := demo_day; rr_raw := PDict [("response", PList [])] |}];
     db_data_issues := [stale_issue demo_day; stale_issue (demo_day + 1)];
     db_insights := [no_sales_insight (demo_day + 1)] |}.

(** *** The checks of a scan *)

(** [payed_cash + payed_card + payed_bonus + payed_third_party + payed_cert] *)
Definition payed_parts (tx : Transaction) : Z :=
  tx_payed_cash tx + tx_payed_card tx + tx_payed_bonus tx
  + tx_payed_third_party tx + tx_payed_cert tx.

(** closed with nothing to pay *)
Definition closed_at_zero (tx : Transaction) : Prop :=
  tx_status tx = Some 2 /\ tx_sum tx <= 0.

(** paid, and the parts do not add up to the amount paid *)
Definition parts_mismatch (tx : Transaction) : Prop :=
  0 < tx_payed_sum tx /\ payed_parts tx <> tx_payed_sum tx.

(** the stored history has an entry whose type names a move to another table *)
Definition moved_tables (tx : Transaction) : Prop :=
  exists raw h,
    tx_raw tx = PDict raw /\
    Py.lookup_default raw "history" PNone = PList h /\
    history_moved h = Ok true.

(** the pair of an issue type and a transaction is not among the ignored *)
Definition not_ignored (existing_ignored : list (string * pyval)) (issue_type : string)
  (tx : Transaction) : Prop :=
  in_ignored issue_type (PStr (tx_transaction_id tx)) existing_ignored = false.

(** [i] is the issue one of the three checks raises on [tx] *)
Definition raised_on (tz : PyDate.tzinfo) (report_date : Z)
  (existing_ignored : list (string * pyval)) (tx : Transaction) (i : DataIssue) : Prop :=
  (i = zero_sum_issue report_date tx /\ closed_at_zero tx /\
   not_ignored existing_ignored "zero_or_negative_sum" tx) \/
  (i = mismatch_issue report_date tx (payed_parts tx) /\ parts_mismatch tx /\
   not_ignored existing_ignored "payment_mismatch" tx) \/
  (table_move_issue tz report_date tx = Ok i /\ moved_tables tx /\
   not_ignored existing_ignored "table_move" tx).

(** [i] is the issue raised on a day whose report counts no transaction *)
Definition raised_on_empty_day (report_date : Z)
  (existing_ignored : list (string * pyval)) (db : DB) (i : DataIssue) : Prop :=
  i = no_transactions_issue report_date /\
  (exists r, current_report report_date db = Some r /\ dr_transactions_count r = 0) /\
  in_ignored "no_transactions" PNone existing_ignored = false.

(** *** Totals of a summary by spot *)

(** the sum of a column over the spots of a summary *)
Definition total_of (f : SpotSummary -> Z) (summary : gmap string SpotSummary) : Z :=
  map_fold (fun _ item acc => f item + acc) 0 summary.

(** the transactions [daily_summary_by_spot] falls back to *)
Definition day_transactions (tz : PyDate.tzinfo) (report_date : Z) (db : DB)
  : list Transaction :=
  List.filter (on_date tz report_date) (db_transactions db).

(** tables with a stored spots-sales report that lists two spots, one row
    without an id, and transactions at a third spot *)
Definition official_db : DB :=
  {| db_daily_reports := [];
     db_transactions := [demo_transaction "1" "9" 2 1000];
     db_spots := [{| sp_spot_id := "5"; sp_name := "Bar" |}];
     db_payments_reports := [];
     db_products_sales_reports := [];
     db_spots_sales_reports :=
       [{| rr_date := demo_day;
           rr_raw := PDict [("response",
                             PList [PDict [("spot_id", PInt 5); ("revenue", PInt 700);
                                           ("count", PInt 3)];
                                    PDict [("revenue", PInt 50)];
                                    PDict [("id", PStr "6"); ("sum", PStr "120");
                                           ("transactions_count", PInt 1)]])] |}];
     db_data_issues := [];
     db_insights := [] |}.

Definition official_db_summary : gmap string SpotSummary :=
  <["6" := {| ss_transactions := 1; ss_revenue := 120;
              ss_returns := 0; ss_returns_sum := 0 |}]>
    (<["5" := {| ss_transactions := 3; ss_revenue := 700;
                 ss_returns := 0; ss_returns_sum := 0 |}]> ∅).

(** *** [get_spot_name] *)

Definition get_spot_name (spot_id : string) (db : DB) : string :=
  if negb (PyStr.nonempty spot_id) then "Неизвестная точка"
  else
    match Orm.first (Orm.filter_rows (fun s => String.eqb (sp_spot_id s) spot_id)
                       (db_spots db)) with
    | Some spot => sp_name spot
    | None => ("Точка " ++ spot_id)%string
    end.

(** the name the rows of a spots list give to [spot_id]: that of the last row
    with this id and a non-empty name *)
Fixpoint listed_name (rows : list pyval) (spot_id : string) : option string :=
  match rows with
  | [] => None
  | row :: rows' =>
      match listed_name rows' spot_id with
      | Some name => Some name
      | None =>
          match str_field row "spot_id", str_field row "name" with
          | Ok id, Ok name =>
              if String.eqb id spot_id && PyStr.nonempty name then Some name else None
          | _, _ => None
          end
      end
  end.

(** *** The URL of a request *)

(** a run of [n] slashes *)
Definition slashes (n : nat) : string := PyStr.of_chars (PyStr.repeat_char "/"%char n).

(** [s] neither starts nor ends with a slash on the side that is joined *)
Definition no_trailing_slash (s : string) : Prop := forall s', s <> (s' ++ "/")%string.
Definition no_leading_slash (s : string) : Prop := forall s', s <> ("/" ++ s')%string.

(** a spots list that renames spot 5 twice, names spot 6 and has a row
    without a name *)
Definition spots_rows : list pyval :=
  [PDict [("spot_id", PInt 5); ("name", PStr "Garden")];
   PDict [("spot_id", PStr "6"); ("name", PStr "Hall")];
   PDict [("spot_id", PStr "7")];
   PDict [("spot_id", PStr "5"); ("name", PStr "Terrace")]].

Definition spots_answer (path : string) (params : option (list (string * pyval)))
  : result pyval :=
  if String.eqb path "spots.getSpots" then Ok (PDict [("response", PList spots_rows)])
  else Raise PosterAPIError.

(** the call a client with style [query_token] makes when the caller passes a
    [token] parameter of its own *)
Definition token_request : http_request :=
  {| rq_method := "GET";
     rq_url := "https://demo.joinposter.com/api/dash.getTransactions";
     rq_params := [("token", PStr "secret"); ("dateFrom", PStr "20231114")];
     rq_json := None;
     rq_data := None;
     rq_headers := [];
     rq_timeout := 20 |}.

(** *** [build_custom_report_text] *)

(** the columns of [ReportTemplate] the function reads *)
Record ReportTemplate : Type := {
  rt_name : string;
  rt_config : pyval;
}.

Definition newline : string := String "010"%char EmptyString.

(** [f"{cents/100:.2f} €"] *)
Definition money (cents : Z) : result string :=
  x ← PyFloat.truediv cents 100;
  Ok (format_2f x ++ " €")%string.

(** [d.get(m, dflt)] on a dict whose keys are strings: a key that is a list
    or a dict cannot be hashed *)
Definition get_value (d : list (string * pyval)) (m dflt : pyval) : result pyval :=
  if Py.hashable m then
    Ok (match m with
        | PStr k => Py.lookup_default d k dflt
        | _ => dflt
        end)
  else Raise TypeError.

Definition metric_labels : list (string * pyval) :=
  [("transactions_count", PStr "Чеков");
   ("revenue", PStr "Выручка");
   ("avg_check", PStr "Средний чек")].

(** the body of the loop over the metrics *)
Definition metric_line (values : list (string * pyval)) (m : pyval) : result string :=
  label ← get_value metric_labels m m;
  value ← get_value values m (PStr "");
  Ok (PyRepr.str label ++ ": " ++ PyRepr.str value)%string.

Fixpoint metric_lines (values : list (string * pyval)) (metrics : list pyval)
  : result (list string) :=
  match metrics with
  | [] => Ok []
  | m :: metrics' =>
      line ← metric_line values m;
      lines ← metric_lines values metrics';
      Ok (line :: lines)
  end.

Definition default_metrics : pyval :=
  PList [PStr "transactions_count"; PStr "revenue"; PStr "avg_check"].

Definition build_custom_report_text (report_date : Z) (template : ReportTemplate)
  (db : DB) : result string :=
  let config := Py.or_ (rt_config template) (PDict []) in
  configured ← Py.get config "metrics";
  let metrics := Py.or_ configured default_metrics in
  match Orm.first (Orm.filter_rows (fun r => dr_date r =? report_date)
                     (db_daily_reports db)) with
  | None =>
      Ok ("Отчет за " ++ PyDate.format_date "-" report_date ++ ": данных нет.")%string
  | Some report =>
      revenue ← money (dr_revenue report);
      avg_check ← money (dr_avg_check report);
      let values := [("transactions_count", PInt (dr_transactions_count report));
                     ("revenue", PStr revenue);
                     ("avg_check", PStr avg_check)] in
      let title := (rt_name template ++ " за "
                      ++ PyDate.format_date "-" report_date)%string in
      elems ← Py.iter metrics;
      lines ← metric_lines values elems;
      Ok (PyRepr.join newline (title :: lines))
  end.

(** an amount in cents written with two decimals *)
Definition cents_text (cents : Z) : string :=
  let sign := if cents <? 0 then "-" else "" in
  let whole := PyStr.of_Z (Z.abs cents / 100) in
  let part := PyStr.zero_padded 2 (Z.abs cents mod 100) in
  (sign ++ whole ++ "." ++ part)%string.

(** a template that names no metric *)
Definition names_no_metric (template : ReportTemplate) : Prop :=
  exists configured,
    Py.get (Py.or_ (rt_config template) (PDict [])) "metrics" = Ok configured /\
    Py.truthy configured = false.

Definition weekly_template : ReportTemplate :=
  {| rt_name := "Weekly"; rt_config := PDict [("title", PStr "w")] |}.

(** the line of the metric called [name] in the text of a custom report *)
Definition named_line (r : DailyReport) (name : string) : string :=
  if String.eqb name "transactions_count"
  then ("Чеков: " ++ PyStr.of_Z (dr_transactions_count r))%string
  else if String.eqb name "revenue"
  then ("Выручка: " ++ cents_text (dr_revenue r) ++ " €")%string
  else if String.eqb name "avg_check"
  then ("Средний чек: " ++ cents_text (dr_avg_check r) ++ " €")%string
  else (name ++ ": ")%string.

(** the preset "revenue_only" of the dashboard, with a name the function
    does not know *)
Definition revenue_template : ReportTemplate :=
  {| rt_name := "Revenue";
     rt_config := PDict [("metrics", PList [PStr "revenue"; PStr "margin"])] |}.

(** a day on which the API lists no transaction *)
Definition closed_day : transport :=
  canned [demo_transactions []; demo_payments].

(** *** [daily_summary_by_spot], with the order of its entries

    [build_report_text] prints the entries of the summary in the order of
    the dict, which a [gmap] does not keep: the same function once more, the
    dict as the list of its items. *)

Definition summary_items : Type := list (string * SpotSummary).

(** [summary[k] = v]: a key that is there keeps its place *)
Fixpoint items_set (items : summary_items) (k : string) (v : SpotSummary)
  : summary_items :=
  match items with
  | [] => [(k, v)]
  | (k', v') :: items' =>
      if String.eqb k' k then (k, v) :: items' else (k', v') :: items_set items' k v
  end.

Definition items_get (items : summary_items) (k : string) : option SpotSummary :=
  match List.find (fun kv => String.eqb (fst kv) k) items with
  | Some kv => Some (snd kv)
  | None => None
  end.

Definition official_row_items (summary : summary_items) (row : pyval)
  : result summary_items :=
  match row with
  | PDict r =>
      let spot_id :=
        PyRepr.str (Py.or_ (Py.or_ (Py.lookup_default r "spot_id" PNone)
                              (Py.lookup_default r "id" PNone)) (PStr "")) in
      if negb (PyStr.nonempty spot_id) then Ok summary
      else
        transactions ← int_of_first r ["transactions_count"; "count"];
        revenue ← int_of_first r ["revenue"; "sum"];
        returns ← int_of_first r ["returns_count"];
        returns_sum ← int_of_first r ["returns_sum"];
        Ok (items_set summary spot_id
              {| ss_transactions := transactions;
                 ss_revenue := revenue;
                 ss_returns := returns;
                 ss_returns_sum := returns_sum |})
  | _ => Ok summary
  end.

Fixpoint official_rows_items (summary : summary_items) (rows : list pyval)
  : result summary_items :=
  match rows with
  | [] => Ok summary
  | row :: rows' =>
      summary' ← official_row_items summary row;
      official_rows_items summary' rows'
  end.

Definition official_summary_items (raw : list (string * pyval)) : result summary_items :=
  let rows := Py.lookup_default raw "response" (PList []) in
  let rows := match rows with
              | PDict d => Py.lookup_default d "spots" (PList [])
              | _ => rows
              end in
  elems ← Py.iter rows;
  official_rows_items [] elems.

Definition add_transaction_items (summary : summary_items) (tx : Transaction)
  : summary_items :=
  let key := spot_key tx in
  let item := default empty_summary (items_get summary key) in
  items_set summary key
    {| ss_transactions := ss_transactions item + 1;
       ss_revenue := ss_revenue item + tx_sum tx;
       ss_returns := if is_return tx then ss_returns item + 1 else ss_returns item;
       ss_returns_sum := if is_return tx then ss_returns_sum item + tx_sum tx
                         else ss_returns_sum item |}.

Definition fallback_items (tz : PyDate.tzinfo) (report_date : Z) (db : DB)
  : summary_items :=
  fold_left add_transaction_items
    (Orm.filter_rows (on_date tz report_date) (db_transactions db)) [].

Definition daily_summary_items (tz : PyDate.tzinfo) (report_date : Z) (db : DB)
  : result summary_items :=
  match stored_spots_report report_date db with
  | Some {| rr_raw := PDict raw |} =>
      summary ← official_summary_items raw;
      match summary with
      | [] => Ok (fallback_items tz report_date db)
      | _ => Ok summary
      end
  | _ => Ok (fallback_items tz report_date db)
  end.

(** *** [build_report_text] *)

(** ["x" in metrics] for a list *)
Definition in_list (x : string) (l : list pyval) : bool := existsb (Py.eqb (PStr x)) l.

Definition default_report_metrics : list pyval :=
  [PStr "revenue"; PStr "transactions"; PStr "avg_check"; PStr "issues"].

(** the line of a spot *)
Definition spot_line (include_returns : bool) (db : DB) (kv : string * SpotSummary)
  : result string :=
  let name := get_spot_name (fst kv) db in
  revenue ← money (ss_revenue (snd kv));
  let line := ("• " ++ name ++ ": выручка " ++ revenue ++ ", чеков "
                 ++ PyStr.of_Z (ss_transactions (snd kv)))%string in
  if include_returns
  then Ok (line ++ ", возвратов " ++ PyStr.of_Z (ss_returns (snd kv)))%string
  else Ok line.

Fixpoint spot_lines (include_returns : bool) (db : DB) (summary : summary_items)
  : result (list string) :=
  match summary with
  | [] => Ok []
  | kv :: summary' =>
      line ← spot_line include_returns db kv;
      lines ← spot_lines include_returns db summary';
      Ok (line :: lines)
  end.

(** the lines about the issues [issues], the open issues of the date *)
Definition issue_lines (issues : list DataIssue) : list string :=
  ([""; "Сомнительные операции:"]
     ++ map (fun i => ("• " ++ di_message i)%string) (firstn 5 issues)
     ++ (if 5 <? Z.of_nat (List.length issues)
         then [("… и еще " ++ PyStr.of_Z (Z.of_nat (List.length issues) - 5))%string]
         else []))%list.

(** the list [lines] at the end of [build_report_text] *)
Definition build_report_lines (tz : PyDate.tzinfo) (report_date : Z)
  (metrics : option (list pyval))
  (include_spots include_issues include_returns : bool)
  (spot_ids : option (list pyval)) (report : DailyReport) (db : DB)
  : result (list string) :=
  summary ← daily_summary_items tz report_date db;
  let summary :=
    match spot_ids with
    | Some ((_ :: _) as ids) =>
        let allowed := map PyRepr.str ids in
        List.filter (fun kv => existsb (String.eqb (fst kv)) allowed) summary
    | _ => summary
    end in
  let issues := Orm.filter_rows
                  (fun i => (di_date i =? report_date) && negb (di_ignored i))
                  (db_data_issues db) in
  let metrics := match metrics with
                 | Some ((_ :: _) as l) => l
                 | _ => default_report_metrics
                 end in
  let title := ("Отчет за " ++ PyDate.format_date "-" report_date)%string in
  revenue ← (if in_list "revenue" metrics
             then (s ← money (dr_revenue report); Ok [("Выручка: " ++ s)%string])
             else Ok []);
  let transactions := if in_list "transactions" metrics
                      then [("Чеков: "
                               ++ PyStr.of_Z (dr_transactions_count report))%string]
                      else [] in
  avg_check ← (if in_list "avg_check" metrics
               then (s ← money (dr_avg_check report);
                     Ok [("Средний чек: " ++ s)%string])
               else Ok []);
  let problems := if in_list "issues" metrics
                  then [("Проблем: "
                           ++ PyStr.of_Z (Z.of_nat (List.length issues)))%string]
                  else [] in
  spots ← (if include_spots
           then match summary with
                | [] => Ok [""; "По точкам:"; "— нет данных по точкам"]
                | _ => ls ← spot_lines include_returns db summary;
                       Ok ("" :: "По точкам:" :: ls)
                end
           else Ok []);
  let doubts := if include_issues && match issues with [] => false | _ => true end
                then issue_lines issues else [] in
  Ok (title :: revenue ++ transactions ++ avg_check ++ problems ++ spots ++ doubts)%list.

Definition build_report_text (tz : PyDate.tzinfo) (report_date : Z)
  (metrics : option (list pyval))
  (include_spots include_issues include_returns : bool)
  (spot_ids : option (list pyval)) (db : DB) : result string :=
  match Orm.first (Orm.filter_rows (fun r => dr_date r =? report_date)
                     (db_daily_reports db)) with
  | None =>
      Ok ("Отчет за " ++ PyDate.format_date "-" report_date ++ ": данных нет.")%string
  | Some report =>
      lines ← build_report_lines tz report_date metrics include_spots include_issues
                include_returns spot_ids report db;
      Ok (PyRepr.join newline lines)
  end.

(** the tables of [official_db] with the report of the day and two issues,
    one of them ignored *)
Definition official_day_db : DB :=
  {| db_daily_reports := [demo_report demo_day 4 820 205];
     db_transactions := db_transactions official_db;
     db_spots := db_spots official_db;
     db_payments_reports := [];
     db_products_sales_reports := [];
     db_spots_sales_reports := db_spots_sales_reports official_db;
     db_data_issues := [ignored_mismatch "T1"; stale_issue demo_day];
     db_insights := [] |}.


(** *** Notions and sample data of the claims on the summary and the upserts *)




(** *** Rows stored under an identifier *)



(** a day on which the API lists the stored transaction "2" again, now
    without a start, an entry without identifier and a new transaction *)
Definition relisted_day : transport :=
  canned [demo_transactions
            [PDict [("transaction_id", PStr "2"); ("date_start", PInt 0);
                    ("date_close", PStr "soon"); ("sum", PInt 300)];
             PDict [("sum", PInt 100)];
             PDict [("transaction_id", PInt 2); ("date_start", PInt 0);
                    ("sum", PInt 500)];
             demo_item "1" 1000];
          demo_payments].

(** the tables after the import of that day into [later_db] *)
Definition after_relisting : DB :=
  fst (import_daily relisted_day demo_client demo_day false later_db).

(** * Facts *)

(** ** Rounding to binary64 *)

Section Rounding.
Import PyFloat.

Lemma rne_cases p q : 0 < q ->
  let k := p / q in
  (rne p q = k /\ 2 * (p mod q) <= q /\ (2 * (p mod q) = q -> Z.even k = true)) \/
  (rne p q = k + 1 /\ q <= 2 * (p mod q) /\ (2 * (p mod q) = q -> Z.even k = false)).
Proof.
  intros Hq k. unfold rne. fold k.
  destruct (Z.ltb_spec (2 * (p mod q)) q); [left; lia|].
  destruct (Z.ltb_spec q (2 * (p mod q))); [right; lia|].
  destruct (Z.even k) eqn:E; [left | right]; repeat split; auto; lia.
Qed.

Lemma rne_lower p q j : 0 < q -> j * q <= p -> j <= rne p q.
Proof.
  intros Hq H.
  assert (j <= p / q) by (apply Z.div_le_lower_bound; lia).
  destruct (rne_cases p q Hq) as [[-> _]|[-> _]]; lia.
Qed.

Lemma rne_upper p q j : 0 < q -> p <= j * q -> rne p q <= j.
Proof.
  intros Hq H.
  pose proof (Z.div_mod p q ltac:(lia)) as E.
  pose proof (Z.mod_pos_bound p q Hq) as B.
  destruct (rne_cases p q Hq) as [[-> _]|[-> [H2 _]]].
  - nia.
  - nia.
Qed.

Lemma rne_exact a q : 0 < q -> rne (a * q) q = a.
Proof.
  intros Hq. unfold rne. rewrite Z.div_mul, Z.mod_mul by lia.
  destruct (Z.ltb_spec (2 * 0) q); lia.
Qed.

Lemma rne_near p q : 0 < q ->
  2 * p - q <= 2 * rne p q * q <= 2 * p + q.
Proof.
  intros Hq.
  pose proof (Z.div_mod p q ltac:(lia)) as E.
  pose proof (Z.mod_pos_bound p q Hq) as B.
  destruct (rne_cases p q Hq) as [[-> [H2 _]]|[-> [H2 _]]]; nia.
Qed.

Lemma rne_ge_odd p q j : 0 < q -> Z.odd j = true ->
  j <= rne p q <-> (2 * j - 1) * q < 2 * p.
Proof.
  intros Hq Hj.
  pose proof (Z.div_mod p q ltac:(lia)) as E.
  pose proof (Z.mod_pos_bound p q Hq) as B.
  destruct (rne_cases p q Hq) as [[-> [H2 H3]]|[-> [H2 H3]]]; split; intros H.
  - nia.
  - nia.
  - destruct (Z.eq_dec (p / q + 1) j) as [E1|]; [|nia].
    destruct (Z.eq_dec (2 * (p mod q)) q) as [E2|]; [|nia].
    specialize (H3 E2). rewrite <- E1 in Hj.
    rewrite Z.add_1_r, Z.odd_succ in Hj. congruence.
  - nia.
Qed.

Lemma pow2_pos k : 0 < 2 ^ k \/ (k < 0 /\ 2 ^ k = 0).
Proof.
  destruct (Z.lt_ge_cases k 0) as [H|H].
  - right. split; auto. apply Z.pow_neg_r; lia.
  - left. apply Z.pow_pos_nonneg; lia.
Qed.

Lemma pow2_gt0 k : 0 <= k -> 0 < 2 ^ k.
Proof. intros. apply Z.pow_pos_nonneg; lia. Qed.

Lemma pow2_split a b : 0 <= a -> 0 <= b -> 2 ^ (a + b) = 2 ^ a * 2 ^ b.
Proof. intros. apply Z.pow_add_r; lia. Qed.

Lemma max0_pos f : 0 <= f -> Z.max 0 f = f /\ Z.max 0 (- f) = 0.
Proof. lia. Qed.
Lemma max0_neg f : f <= 0 -> Z.max 0 f = 0 /\ Z.max 0 (- f) = - f.
Proof. lia. Qed.

Lemma flog2_spec n d : 0 < n -> 0 < d -> in_binade n d (flog2 n d).
Proof.
  intros Hn Hd. unfold in_binade, flog2.
  pose proof (Z.log2_spec n Hn) as [Ln Un].
  pose proof (Z.log2_spec d Hd) as [Ld Ud].
  pose proof (Z.log2_nonneg n) as Nn. pose proof (Z.log2_nonneg d) as Nd.
  set (ln := Z.log2 n) in *. set (ld := Z.log2 d) in *.
  rewrite Z.pow_succ_r in Un, Ud by lia.
  pose proof (pow2_gt0 ln Nn) as Pn. pose proof (pow2_gt0 ld Nd) as Pd.
  set (f0 := ln - ld).
  destruct (Z.ltb_spec (n * 2 ^ Z.max 0 (- f0)) (d * 2 ^ Z.max 0 f0)) as [T|T].
  - (* f = f0 - 1 *)
    replace (f0 - 1 + 1) with f0 by lia. split; [|exact T].
    destruct (Z.le_gt_cases f0 0) as [S|S].
    + destruct (max0_neg (f0 - 1) ltac:(lia)) as [-> ->].
      replace (- (f0 - 1)) with (1 + (ld - ln)) by lia.
      rewrite pow2_split, Z.pow_1_r, Z.pow_0_r by lia.
      assert (2 ^ ld = 2 ^ ln * 2 ^ (ld - ln)) as E
          by (rewrite <- pow2_split by lia; f_equal; lia).
      pose proof (pow2_gt0 (ld - ln) ltac:(lia)). nia.
    + destruct (max0_pos (f0 - 1) ltac:(lia)) as [-> ->].
      rewrite Z.pow_0_r.
      assert (2 ^ ln = 2 ^ ld * (2 * 2 ^ (f0 - 1))) as E.
      { rewrite <- Z.pow_succ_r, <- pow2_split by lia. f_equal. lia. }
      pose proof (pow2_gt0 (f0 - 1) ltac:(lia)). nia.
  - split; [exact T|].
    destruct (Z.lt_ge_cases (f0 + 1) 0) as [S|S].
    + destruct (max0_neg (f0 + 1) ltac:(lia)) as [-> ->].
      rewrite Z.pow_0_r.
      assert (2 ^ ld = 2 * 2 ^ ln * 2 ^ (- (f0 + 1))) as E.
      { rewrite <- Z.pow_succ_r, <- pow2_split by lia. f_equal. lia. }
      pose proof (pow2_gt0 (- (f0 + 1)) ltac:(lia)). nia.
    + destruct (max0_pos (f0 + 1) ltac:(lia)) as [-> ->].
      rewrite Z.pow_0_r.
      assert (2 * 2 ^ ln = 2 ^ ld * 2 ^ (f0 + 1)) as E.
      { rewrite <- Z.pow_succ_r, <- pow2_split by lia. f_equal. lia. }
      pose proof (pow2_gt0 (f0 + 1) ltac:(lia)). nia.
Qed.

Lemma pow2_mono a b : 0 <= a <= b -> 2 ^ a <= 2 ^ b.
Proof. intros. apply Z.pow_le_mono_r; lia. Qed.

Lemma binade_bound n d f c :
  0 < n -> 0 < d -> 0 <= c -> in_binade n d f -> n < 2 ^ c * d -> f < c.
Proof.
  intros Hn Hd Hc [L _] B.
  destruct (Z.lt_ge_cases f c) as [|G]; [assumption|exfalso].
  destruct (max0_pos f ltac:(lia)) as [E1 E2]. rewrite E1, E2, Z.pow_0_r in L.
  pose proof (pow2_mono c f ltac:(lia)). pose proof (pow2_gt0 c Hc). nia.
Qed.

(** the rounded quotient of two ints keeps the integer part when the
    dividend has at most 53 bits *)
Lemma round_pos_floor a b m e :
  0 < a < 2 ^ 53 -> 0 < b -> round_pos a b = (m, e) ->
  -1074 <= e <= 0 /\ (a / b) * 2 ^ (- e) <= m < (a / b + 1) * 2 ^ (- e).
Proof.
  intros Ha Hb R. unfold round_pos in R. injection R as Rm Re.
  pose proof (flog2_spec a b ltac:(lia) Hb) as S.
  set (f := flog2 a b) in *.
  assert (f < 53) as Hf.
  { apply (binade_bound a b f 53); try lia; auto. }
  assert (-1074 <= e <= 0) as He by (unfold fexp in Re; lia).
  split; [exact He|].
  set (k := - e) in *.
  destruct (max0_neg (fexp f) ltac:(unfold fexp; lia)) as [M1 M2].
  rewrite M1, M2, Z.pow_0_r, Z.mul_1_r in Rm. rewrite Re in Rm. fold k in Rm.
  pose proof (pow2_gt0 k ltac:(lia)) as Pk.
  pose proof (Z.div_mod a b ltac:(lia)) as D.
  pose proof (Z.mod_pos_bound a b Hb) as B.
  assert (0 <= a / b) as Hq by (apply Z.div_pos; lia).
  split.
  - subst m. apply rne_lower; [lia|]. nia.
  - destruct (Z.le_gt_cases (-1074) (f - 52)) as [N|N].
    + (* normal numbers *)
      assert (k = 52 - f) as Ek by (unfold k, fexp in *; lia).
      assert (b < 2 * 2 ^ k) as Hbk.
      { destruct S as [L _].
        destruct (Z.le_gt_cases 0 f) as [F|F].
        - destruct (max0_pos f F) as [E1 E2]. rewrite E1, E2, Z.pow_0_r in L.
          assert (2 ^ 53 = 2 ^ f * (2 * 2 ^ k)) as E.
          { rewrite <- Z.pow_succ_r, <- pow2_split by lia. f_equal. lia. }
          pose proof (pow2_gt0 f F). nia.
        - destruct (max0_neg f ltac:(lia)) as [E1 E2]. rewrite E1, E2, Z.pow_0_r in L.
          assert (2 * 2 ^ k = 2 ^ 53 * 2 ^ (- f)) as E.
          { rewrite <- Z.pow_succ_r, <- pow2_split by lia. f_equal. lia. }
          pose proof (pow2_gt0 (- f) ltac:(lia)). nia. }
      pose proof (rne_near (a * 2 ^ k) b Hb) as [_ U]. rewrite Rm in U. nia.
    + (* subnormal numbers *)
      assert (k = 1074) as Ek by (unfold k, fexp in *; lia).
      destruct S as [_ U].
      destruct (max0_neg (f + 1) ltac:(lia)) as [E1 E2].
      rewrite E1, E2, Z.pow_0_r in U.
      pose proof (pow2_mono 1022 (- (f + 1)) ltac:(lia)) as Mo.
      pose proof (pow2_gt0 1022 ltac:(lia)) as P1022.
      assert (a * 2 ^ 1022 < b) as Hab by nia.
      assert (a / b = 0) as -> by (apply Z.div_small; nia).
      assert (m <= 2 ^ 52).
      { subst m. apply rne_upper; [lia|]. rewrite Ek.
        replace 1074 with (52 + 1022) by lia. rewrite pow2_split by lia.
        pose proof (pow2_gt0 52 ltac:(lia)). nia. }
      rewrite Ek. pose proof (pow2_mono 53 1074 ltac:(lia)).
      assert (2 ^ 52 < 2 ^ 53) by (apply Z.pow_lt_mono_r; lia). lia.
Qed.

Lemma no_overflow_below m e c :
  -1074 <= e <= 0 -> 0 <= c <= 1000 -> 0 <= m < 2 ^ c * 2 ^ (- e) -> overflows m e = false.
Proof.
  intros He Hc Hm. unfold overflows. apply Z.leb_gt.
  pose proof (pow2_gt0 (e + 1074) ltac:(lia)) as P.
  assert (2 ^ (- e) * 2 ^ (e + 1074) = 2 ^ 1074) as E
      by (rewrite <- pow2_split by lia; f_equal; lia).
  assert (2 ^ c * 2 ^ 1074 < 2 ^ 2098) as B.
  { rewrite <- pow2_split by lia. apply Z.pow_lt_mono_r; lia. }
  pose proof (pow2_gt0 c ltac:(lia)). nia.
Qed.

Lemma to_int_floor m e q s :
  e <= 0 -> 0 <= q -> q * 2 ^ (- e) <= m < (q + 1) * 2 ^ (- e) ->
  s = 1 \/ s = -1 -> to_int (FFin (s * m) e) = Ok (s * q).
Proof.
  intros He Hq Hm Hs. simpl to_int.
  pose proof (pow2_gt0 (- e) ltac:(lia)) as P.
  assert (m / 2 ^ (- e) = q) as D
      by (symmetry; apply Z.div_unique with (m - q * 2 ^ (- e)); lia).
  destruct (Z.leb_spec 0 e).
  - assert (e = 0) as -> by lia. simpl in *. f_equal. nia.
  - f_equal. destruct Hs as [-> | ->].
    + rewrite !Z.mul_1_l, Z.quot_div_nonneg by lia. exact D.
    + replace (-1 * m) with (- m) by lia.
      rewrite Z.quot_opp_l, Z.quot_div_nonneg by lia. lia.
Qed.

(** [int(a / b)] is the quotient truncated toward zero as long as the
    dividend is below [2^53] in absolute value *)
Lemma avg_check_of_quot a b :
  Z.abs a < 2 ^ 53 -> b <> 0 -> avg_check_of a b = Ok (Z.quot a b).
Proof.
  intros Ha Hb. unfold avg_check_of, truediv.
  destruct (Z.eqb_spec b 0) as [|_]; [contradiction|].
  unfold round_q.
  destruct (Z.eqb_spec (a * Z.sgn b) 0) as [E0|N0].
  - assert (a = 0) as -> by nia. rewrite Z.quot_0_l by lia. reflexivity.
  - destruct (round_pos (Z.abs (a * Z.sgn b)) (Z.abs b)) as [m e] eqn:R.
    assert (Z.abs (a * Z.sgn b) = Z.abs a) as Eabs by nia.
    rewrite Eabs in R.
    apply round_pos_floor in R as [He Hm]; [|lia|lia].
    assert (0 <= Z.abs a / Z.abs b < 2 ^ 53) as Hq.
    { split; [apply Z.div_pos; lia|].
      apply Z.div_lt_upper_bound; [lia|]. nia. }
    pose proof (pow2_gt0 (- e) ltac:(lia)) as P.
    rewrite (no_overflow_below m e 53); [|lia|lia|nia].
    change (to_int (FFin (Z.sgn (a * Z.sgn b) * m) e) = Ok (Z.quot a b)).
    rewrite (to_int_floor m e (Z.abs a / Z.abs b) (Z.sgn (a * Z.sgn b)));
      [|lia|lia|exact Hm|lia].
    f_equal. rewrite (Z.quot_div a b Hb). nia.
Qed.

Lemma avg_check_of_zero a : avg_check_of a 0 = Ok 0.
Proof. reflexivity. Qed.

(** ... and the floor of the quotient when nothing is negative *)
Lemma avg_check_of_floor a b :
  0 <= a < 2 ^ 53 -> 0 < b -> avg_check_of a b = Ok (a / b).
Proof.
  intros Ha Hb. rewrite avg_check_of_quot by lia.
  f_equal. apply Z.quot_div_nonneg; lia.
Qed.

(** the mantissa of a rounded quotient has at most 53 bits, and exactly 53
    for a normal number *)
Lemma round_pos_mantissa n d m e :
  0 < n -> 0 < d -> round_pos n d = (m, e) ->
  e = fexp (flog2 n d) /\ 0 <= m <= 2 ^ 53 /\
  (-1074 <= flog2 n d - 52 -> 2 ^ 52 <= m).
Proof.
  intros Hn Hd R. unfold round_pos in R. injection R as Rm Re.
  pose proof (flog2_spec n d Hn Hd) as [L U].
  set (f := flog2 n d) in *.
  split; [auto|].
  pose proof (pow2_gt0 (Z.max 0 (- fexp f)) ltac:(lia)) as P1.
  pose proof (pow2_gt0 (Z.max 0 (fexp f)) ltac:(lia)) as P2.
  pose proof (pow2_gt0 (Z.max 0 f) ltac:(lia)) as P3.
  pose proof (pow2_gt0 (Z.max 0 (- f)) ltac:(lia)) as P4.
  pose proof (pow2_gt0 (Z.max 0 (f + 1)) ltac:(lia)) as P5.
  pose proof (pow2_gt0 (Z.max 0 (- (f + 1))) ltac:(lia)) as P6.
  repeat split.
  - subst m. apply (rne_lower _ _ 0); nia.
  - subst m. apply rne_upper; [nia|].
    (* n * 2^max(0,-e) <= 2^53 * d * 2^max(0,e) *)
    destruct (Z.le_gt_cases (-1074) (f - 52)) as [N|N].
    + assert (fexp f = f - 52) as -> by (unfold fexp; lia).
      destruct (Z.le_gt_cases 52 f) as [F|F].
      * destruct (max0_pos (f - 52) ltac:(lia)) as [-> ->].
        destruct (max0_pos (f + 1) ltac:(lia)) as [E1 E2].
        rewrite E1, E2, Z.pow_0_r in U.
        assert (2 ^ (f + 1) = 2 ^ 53 * 2 ^ (f - 52)) as E
            by (rewrite <- pow2_split by lia; f_equal; lia).
        rewrite Z.pow_0_r. nia.
      * destruct (max0_neg (f - 52) ltac:(lia)) as [-> ->].
        rewrite Z.pow_0_r.
        destruct (Z.le_gt_cases 0 (f + 1)) as [G|G].
        -- destruct (max0_pos (f + 1) G) as [E1 E2].
           rewrite E1, E2, Z.pow_0_r in U.
           assert (2 ^ 53 = 2 ^ (f + 1) * 2 ^ (- (f - 52))) as E
               by (rewrite <- pow2_split by lia; f_equal; lia).
           pose proof (pow2_gt0 (- (f - 52)) ltac:(lia)). nia.
        -- destruct (max0_neg (f + 1) ltac:(lia)) as [E1 E2].
           rewrite E1, E2, Z.pow_0_r in U.
           assert (2 ^ (- (f - 52)) = 2 ^ 53 * 2 ^ (- (f + 1))) as E
               by (rewrite <- pow2_split by lia; f_equal; lia).
           nia.
    + assert (fexp f = -1074) as -> by (unfold fexp; lia).
      destruct (max0_neg (f + 1) ltac:(lia)) as [E1 E2].
      rewrite E1, E2, Z.pow_0_r in U.
      change (Z.max 0 (- -1074)) with 1074. change (Z.max 0 (-1074)) with 0.
      rewrite Z.pow_0_r.
      pose proof (pow2_mono 1022 (- (f + 1)) ltac:(lia)) as Mo.
      assert (2 ^ 1074 = 2 ^ 52 * 2 ^ 1022) as E
          by (rewrite <- pow2_split by lia; f_equal; lia).
      pose proof (pow2_gt0 1022 ltac:(lia)).
      assert (2 ^ 52 < 2 ^ 53) by (apply Z.pow_lt_mono_r; lia). nia.
  - intros N. subst m. apply rne_lower; [nia|].
    assert (fexp f = f - 52) as -> by (unfold fexp; lia).
    destruct (Z.le_gt_cases 52 f) as [F|F].
    + destruct (max0_pos (f - 52) ltac:(lia)) as [-> ->].
      destruct (max0_pos f ltac:(lia)) as [E1 E2].
      rewrite E1, E2, Z.pow_0_r in L.
      assert (2 ^ f = 2 ^ 52 * 2 ^ (f - 52)) as E
          by (rewrite <- pow2_split by lia; f_equal; lia).
      rewrite Z.pow_0_r. nia.
    + destruct (max0_neg (f - 52) ltac:(lia)) as [-> ->].
      rewrite Z.pow_0_r.
      destruct (Z.le_gt_cases 0 f) as [G|G].
      * destruct (max0_pos f G) as [E1 E2].
        rewrite E1, E2, Z.pow_0_r in L.
        assert (2 ^ 52 = 2 ^ f * 2 ^ (- (f - 52))) as E
            by (rewrite <- pow2_split by lia; f_equal; lia).
        pose proof (pow2_gt0 (- (f - 52)) ltac:(lia)). nia.
      * destruct (max0_neg f ltac:(lia)) as [E1 E2].
        rewrite E1, E2, Z.pow_0_r in L.
        assert (2 ^ (- (f - 52)) = 2 ^ 52 * 2 ^ (- f)) as E
            by (rewrite <- pow2_split by lia; f_equal; lia).
        nia.
Qed.

Lemma lit_0_3_value : lit_0_3 = FFin M_0_3 (-54).
Proof. vm_compute. reflexivity. Qed.

(** a positive quotient reaches the float 0.3 exactly when it lies above the
    midpoint between that float and the one before it *)
Lemma round_pos_reaches_0_3 d p m e :
  0 < d -> 0 < p -> round_pos d p = (m, e) ->
  geb (FFin m e) (FFin M_0_3 (-54)) = true <-> (2 * M_0_3 - 1) * p < d * 2 ^ 55.
Proof.
  intros Hd Hp R.
  pose proof (round_pos_mantissa d p m e Hd Hp R) as (He & Hm & Hn).
  pose proof (flog2_spec d p Hd Hp) as [L U].
  set (f := flog2 d p) in *.
  unfold geb. rewrite Z.leb_le. unfold M_0_3.
  destruct (Z.le_gt_cases (-1) f) as [F1|F1].
  - (* at least one half *)
    assert (e = f - 52) as Ee by (unfold fexp in He; lia).
    specialize (Hn ltac:(lia)).
    replace (Z.min e (-54)) with (-54) by lia.
    replace (-54 - -54) with 0 by lia. rewrite Z.pow_0_r.
    pose proof (pow2_mono 1 (e - -54) ltac:(lia)) as Mo. rewrite Z.pow_1_r in Mo.
    assert (p <= 2 * d) as Half.
    { destruct (Z.le_gt_cases 0 f) as [G|G].
      - destruct (max0_pos f G) as [E1 E2]. rewrite E1, E2, Z.pow_0_r in L.
        pose proof (pow2_gt0 f G). nia.
      - destruct (max0_neg f ltac:(lia)) as [E1 E2]. rewrite E1, E2, Z.pow_0_r in L.
        replace (- f) with 1 in L by lia. rewrite Z.pow_1_r in L. lia. }
    split; intros _; [lia | nia].
  - destruct (Z.eq_dec f (-2)) as [F2|F2].
    + (* the binade of 0.3 *)
      assert (e = -54) as -> by (unfold fexp in He; lia).
      replace (Z.min (-54) (-54)) with (-54) by lia.
      replace (-54 - -54) with 0 by lia. rewrite Z.pow_0_r, !Z.mul_1_r.
      unfold round_pos in R. fold f in R. rewrite F2 in R.
      injection R as Rm. subst m.
      change (fexp (-2)) with (-54). change (Z.max 0 (- -54)) with 54.
      change (Z.max 0 (-54)) with 0. rewrite Z.pow_0_r, Z.mul_1_r.
      rewrite rne_ge_odd by (auto; lia).
      replace (2 ^ 55) with (2 * 2 ^ 54) by reflexivity. lia.
    + (* below one quarter *)
      assert (e <= -55) as Ee by (unfold fexp in He; lia).
      replace (Z.min e (-54)) with e by lia.
      replace (e - e) with 0 by lia. rewrite Z.pow_0_r, Z.mul_1_r.
      pose proof (pow2_mono 1 (-54 - e) ltac:(lia)) as Mo. rewrite Z.pow_1_r in Mo.
      destruct (max0_neg (f + 1) ltac:(lia)) as [E1 E2].
      rewrite E1, E2, Z.pow_0_r in U.
      pose proof (pow2_mono 2 (- (f + 1)) ltac:(lia)) as Mo2.
      change (2 ^ 2) with 4 in Mo2.
      assert (4 * d < p) as Quarter by nia.
      split; intros H; exfalso.
      * assert (2 ^ 53 < 5404319552844595 * 2) by reflexivity. nia.
      * change (2 ^ 55) with 36028797018963968 in H. lia.
Qed.

(** [(prev - current) / prev >= 0.3] as Python evaluates it, in exact
    arithmetic *)
Lemma drop_fires_iff prev current drop :
  0 < prev -> drop_of prev current = Ok drop ->
  drop_fires drop = true <-> (2 * M_0_3 - 1) * prev < (prev - current) * 2 ^ 55.
Proof.
  intros Hp. unfold drop_of, truediv, drop_fires.
  destruct (Z.eqb_spec prev 0) as [|_]; [lia|].
  replace (Z.sgn prev) with 1 by lia. replace (Z.abs prev) with prev by lia.
  rewrite Z.mul_1_r, lit_0_3_value. unfold round_q.
  set (d := prev - current). clearbody d.
  destruct (Z.eqb_spec d 0) as [E0|N0].
  - intros [= <-]. rewrite E0. unfold M_0_3.
    split; intros H; [vm_compute in H; discriminate | exfalso; lia].
  - destruct (round_pos (Z.abs d) prev) as [m e] eqn:R.
    destruct (overflows m e); [discriminate|].
    intros [= <-].
    destruct (Z.lt_trichotomy d 0) as [Neg|[|Pos]]; [|contradiction|].
    + pose proof (round_pos_mantissa (Z.abs d) prev m e ltac:(lia) Hp R) as (_ & Hm & _).
      replace (Z.sgn d) with (-1) by lia.
      unfold geb. rewrite Z.leb_le. unfold M_0_3.
      pose proof (pow2_gt0 (-54 - Z.min e (-54)) ltac:(lia)).
      pose proof (pow2_gt0 (e - Z.min e (-54)) ltac:(lia)).
      split; intros H'; exfalso; nia.
    + replace (Z.sgn d) with 1 by lia. rewrite Z.mul_1_l.
      replace (Z.abs d) with d in R by lia.
      apply round_pos_reaches_0_3; auto.
Qed.

(** ... which is the test of the fractions themselves up to [2^51] *)
Lemma drop_fires_exact prev current drop :
  0 < prev < 2 ^ 51 -> drop_of prev current = Ok drop ->
  drop_fires drop = true <-> 3 * prev <= 10 * (prev - current).
Proof.
  intros Hp Hd. rewrite (drop_fires_iff prev current drop) by (auto; lia).
  unfold M_0_3. change (2 ^ 55) with 36028797018963968.
  change (2 ^ 51) with 2251799813685248 in Hp. lia.
Qed.

(** true division of ints below [2^1023] gives a finite float *)
Lemma truediv_finite a b :
  b <> 0 -> Z.abs a < 2 ^ 1023 -> exists m e, truediv a b = Ok (FFin m e).
Proof.
  intros Hb Ha. unfold truediv.
  destruct (Z.eqb_spec b 0) as [|_]; [contradiction|].
  unfold round_q. destruct (Z.eqb_spec (a * Z.sgn b) 0) as [|N]; [simpl; eauto|].
  destruct (round_pos (Z.abs (a * Z.sgn b)) (Z.abs b)) as [m e] eqn:R.
  assert (Z.abs (a * Z.sgn b) = Z.abs a) as Eabs by nia.
  rewrite Eabs in R.
  pose proof (round_pos_mantissa (Z.abs a) (Z.abs b) m e ltac:(lia) ltac:(lia) R)
    as (He & Hm & _).
  pose proof (flog2_spec (Z.abs a) (Z.abs b) ltac:(lia) ltac:(lia)) as S.
  assert (flog2 (Z.abs a) (Z.abs b) < 1023) as Hf.
  { apply (binade_bound (Z.abs a) (Z.abs b) _ 1023); try lia; auto. }
  assert (overflows m e = false) as ->.
  { unfold overflows. apply Z.leb_gt. unfold fexp in He.
    pose proof (pow2_mono (e + 1074) 2044 ltac:(lia)) as Mo.
    pose proof (pow2_gt0 (e + 1074) ltac:(lia)).
    assert (2 ^ 53 * 2 ^ 2044 < 2 ^ 2098) as B.
    { rewrite <- pow2_split by lia. apply Z.pow_lt_mono_r; lia. }
    nia. }
  simpl. eauto.
Qed.

(** ** Whole amounts convert exactly *)

(** rounding the fraction [z * d / d] of a positive integer below [2^53]
    gives a float of value [z] *)
Lemma round_pos_integer z d m e :
  0 < z < 2 ^ 53 -> 0 < d -> round_pos (z * d) d = (m, e) ->
  -1074 <= e <= 0 /\ m = z * 2 ^ (- e).
Proof.
  intros Hz Hd R.
  pose proof (round_pos_floor (z * d) d m e) as F.
  assert (0 < z * d) as Hn by nia.
  unfold round_pos in R. injection R as Rm Re.
  pose proof (flog2_spec (z * d) d Hn Hd) as S.
  set (f := flog2 (z * d) d) in *.
  assert (f < 53) as Hf.
  { apply (binade_bound (z * d) d f 53); try lia; auto.
    pose proof (pow2_gt0 53 ltac:(lia)). nia. }
  assert (-1074 <= e <= 0) as He by (unfold fexp in Re; lia).
  split; [exact He|].
  destruct (max0_neg (fexp f) ltac:(unfold fexp; lia)) as [M1 M2].
  rewrite M1, M2, Z.pow_0_r, Z.mul_1_r, Re in Rm.
  subst m. replace (z * d * 2 ^ (- e)) with (z * 2 ^ (- e) * d) by ring.
  apply rne_exact, Hd.
Qed.

Lemma round_q_integer z d :
  0 < z < 2 ^ 53 -> 0 < d ->
  exists e, -1074 <= e <= 0 /\ round_q (z * d) d = FFin (z * 2 ^ (- e)) e.
Proof.
  intros Hz Hd. unfold round_q.
  destruct (Z.eqb_spec (z * d) 0) as [|_]; [nia|].
  replace (Z.abs (z * d)) with (z * d) by nia.
  destruct (round_pos (z * d) d) as [m e] eqn:R.
  destruct (round_pos_integer z d m e Hz Hd R) as [He ->].
  exists e. split; [exact He|].
  rewrite (no_overflow_below _ e 53); [|lia|lia|].
  - replace (Z.sgn (z * d)) with 1 by nia. rewrite Z.mul_1_l. reflexivity.
  - pose proof (pow2_gt0 (- e) ltac:(lia)). nia.
Qed.

(** a revenue given as a whole number of major units is stored as 100 times
    that number *)
Lemma cents_of_int z :
  0 <= z -> 100 * z < 2 ^ 53 -> cents_of (PInt z) = Ok (100 * z).
Proof.
  intros Hz Hb. unfold cents_of. simpl Py.float. unfold of_int.
  destruct (Z.eq_dec z 0) as [->|Nz]; [reflexivity|].
  destruct (round_q_integer z 1 ltac:(lia) ltac:(lia)) as (e & He & E).
  rewrite Z.mul_1_r in E. rewrite E. simpl.
  unfold mul, lit_100.
  replace (Z.max 0 (e + 0)) with 0 by lia.
  replace (Z.max 0 (- (e + 0))) with (- e) by lia.
  rewrite Z.pow_0_r, Z.mul_1_r.
  pose proof (pow2_gt0 (- e) ltac:(lia)) as P.
  replace (z * 2 ^ (- e) * 100) with (100 * z * 2 ^ (- e)) by ring.
  destruct (round_q_integer (100 * z) (2 ^ (- e)) ltac:(lia) P) as (e' & He' & ->).
  unfold round. f_equal.
  pose proof (pow2_gt0 (- e') ltac:(lia)) as P'.
  destruct (Z.leb_spec 0 e').
  - assert (e' = 0) as -> by lia. simpl. lia.
  - replace (Z.sgn (100 * z * 2 ^ (- e'))) with 1 by nia.
    replace (Z.abs (100 * z * 2 ^ (- e'))) with (100 * z * 2 ^ (- e')) by nia.
    rewrite rne_exact by exact P'. lia.
Qed.

End Rounding.

(** ** Running a sequence of steps *)

Lemma bind_ok {A B} (m : M A) (f : A -> M B) db db' b :
  (m ≫= f) db = (db', Ok b) ->
  exists a db1, m db = (db1, Ok a) /\ f a db1 = (db', Ok b).
Proof.
  unfold mbind, M_bind. destruct (m db) as [db1 [a|e]]; [eauto|discriminate].
Qed.

Lemma bind_raise {A B} (m : M A) (f : A -> M B) db db' e :
  (m ≫= f) db = (db', Raise e) ->
  m db = (db', Raise e) \/ exists a db1, m db = (db1, Ok a) /\ f a db1 = (db', Raise e).
Proof.
  unfold mbind, M_bind. destruct (m db) as [db1 [a|e']]; [eauto|].
  intros [= -> ->]. auto.
Qed.

Lemma bind_step {A B} (m : M A) (f : A -> M B) db db1 a :
  m db = (db1, Ok a) -> (m ≫= f) db = f a db1.
Proof. unfold mbind, M_bind. intros ->. reflexivity. Qed.

Lemma lift_inv {A} (r : result A) db db' r' :
  lift r db = (db', r') -> db' = db /\ r = r'.
Proof. unfold lift. intros [= <- <-]. auto. Qed.

Lemma write_inv (f : DB -> DB) db db' r :
  write f db = (db', r) -> db' = f db /\ r = Ok tt.
Proof. unfold write. intros [= <- <-]. auto. Qed.

Lemma ret_inv {A} (a : A) db db' r :
  (mret a : M A) db = (db', r) -> db' = db /\ r = Ok a.
Proof. unfold mret, M_ret. intros [= <- <-]. auto. Qed.

Lemma keeps_bind {A B X} (π : DB -> X) (m : M A) (f : A -> M B) :
  keeps π m -> (forall a, keeps π (f a)) -> keeps π (m ≫= f).
Proof.
  intros Hm Hf db db' r. unfold mbind, M_bind.
  destruct (m db) as [db1 [a|e]] eqn:E.
  - intros H. rewrite (Hf a _ _ _ H). eauto.
  - intros [= <- <-]. eauto.
Qed.

Lemma keeps_lift {A X} (π : DB -> X) (r : result A) : keeps π (lift r).
Proof. intros db db' r' [-> _]%lift_inv. reflexivity. Qed.

Lemma keeps_ret {A X} (π : DB -> X) (a : A) : keeps π (mret a : M A).
Proof. intros db db' r' [-> _]%ret_inv. reflexivity. Qed.

Lemma keeps_write {X} (π : DB -> X) (f : DB -> DB) :
  (forall db, π (f db) = π db) -> keeps π (write f).
Proof. intros H db db' r' [-> _]%write_inv. apply H. Qed.

Lemma keeps_for_each {A X} (π : DB -> X) (l : list A) (body : A -> M unit) :
  (forall x, keeps π (body x)) -> keeps π (for_each l body).
Proof.
  intros H. induction l as [|x l IH]; simpl.
  - apply keeps_ret.
  - apply keeps_bind; auto.
Qed.

Lemma keeps_try_except {A X} (π : DB -> X) (m h : M A) caught :
  keeps π m -> keeps π h -> keeps π (try_except m caught h).
Proof.
  intros Hm Hh db db' r. unfold try_except.
  destruct (m db) as [db1 [a|e]] eqn:E.
  - intros [= <- <-]. eauto.
  - destruct (caught e).
    + intros H. rewrite (Hh _ _ _ H). eauto.
    + intros [= <- <-]. eauto.
Qed.

Lemma keeps_if {A X} (π : DB -> X) (b : bool) (m1 m2 : M A) :
  keeps π m1 -> keeps π m2 -> keeps π (if b then m1 else m2).
Proof. destruct b; auto. Qed.

Create HintDb keeps.
#[export] Hint Resolve keeps_lift keeps_ret keeps_for_each keeps_if : keeps.

Ltac keeps_tac :=
  repeat first
    [ apply keeps_lift | apply keeps_ret
    | apply keeps_write; reflexivity
    | apply keeps_bind; [|intros ?]
    | apply keeps_for_each; intros ?
    | apply keeps_try_except
    | apply keeps_if
    | match goal with |- keeps _ (match ?x with _ => _ end) => destruct x end ].

Lemma sync_spot_keeps {X} (π : DB -> X) row :
  (forall f db, π (set_spots f db) = π db) -> keeps π (sync_spot row).
Proof.
  intros H. unfold sync_spot. keeps_tac. apply keeps_write. intros; apply H.
Qed.

Lemma upsert_transaction_keeps {X} (π : DB -> X) item :
  (forall f db, π (set_transactions f db) = π db) -> keeps π (upsert_transaction item).
Proof.
  intros H. unfold upsert_transaction. keeps_tac. apply keeps_write. intros; apply H.
Qed.

(** ** The steps of an import *)

Lemma sync_spots_list_keeps {X} (π : DB -> X) get :
  (forall f db, π (set_spots f db) = π db) -> keeps π (sync_spots_list get).
Proof.
  intros H. unfold sync_spots_list.
  apply keeps_try_except; [|apply keeps_ret].
  apply keeps_bind; [apply keeps_lift|]. intros v.
  destruct v; try apply keeps_ret.
  destruct (Py.lookup_default kvs "response" PNone); try apply keeps_ret.
  apply keeps_for_each. intros row. apply sync_spot_keeps, H.
Qed.

Lemma import_daily_ok get d inc db db' n :
  import_daily_with get d inc db = (db', Ok n) ->
  exists t, import_run get d db db' n t.
Proof.
  unfold import_daily_with. intros H.
  apply bind_ok in H as (transactions & db1 & [-> Etx]%lift_inv & H).
  apply bind_ok in H as (payments & db1 & [-> Epay]%lift_inv & H).
  apply bind_ok in H as (products & db1 & Eprod & H).
  assert (db1 = db) as ->.
  { destruct inc; [apply lift_inv in Eprod | apply ret_inv in Eprod]; tauto. }
  clear Eprod.
  apply bind_ok in H as (spots & db1 & [-> Espots]%lift_inv & H).
  apply bind_ok in H as ([] & db0 & Esync & H).
  apply bind_ok in H as (rev0 & db1 & [-> Erev]%lift_inv & H).
  apply bind_ok in H as (avg0 & db1 & [-> Eavg]%lift_inv & H).
  apply bind_ok in H as ([] & db2 & Eloop & H).
  apply bind_ok in H as ([] & db3 & [-> _]%write_inv & H).
  apply bind_ok in H as ([] & db4 & E4 & H).
  apply bind_ok in H as ([] & db5 & E5 & H).
  apply bind_ok in H as (fig & db6 & [-> Erec]%lift_inv & H).
  destruct fig as [[rev cnt] avg].
  apply bind_ok in H as ([] & db7 & [-> _]%write_inv & H).
  apply ret_inv in H as [-> [= ->]].
  eexists {| it_transactions := transactions; it_payments := payments;
             it_products_sales := products; it_spots_sales := spots;
             it_raw := (rev0, Z.of_nat (List.length (_extract_transactions transactions)), avg0);
             it_report := {| dr_date := d; dr_transactions_count := cnt;
                             dr_revenue := rev; dr_avg_check := avg;
                             dr_raw_transactions := transactions;
                             dr_raw_payments := payments;
                             dr_raw_products_sales := products |};
             it_after_sync := db0; it_after_upserts := db2;
             it_before_report := db5 |}.
  unfold import_run; simpl. repeat split; auto.
  - unfold raw_figures. cbv zeta. rewrite Erev. simpl. rewrite Eavg. reflexivity.
  - assert (db_transactions db4 = db_transactions db2) as E.
    { destruct (Py.truthy products);
        [apply write_inv in E4 as [-> _] | apply ret_inv in E4 as [-> _]]; reflexivity. }
    rewrite <- E.
    destruct (Py.truthy spots);
      [apply write_inv in E5 as [-> _] | apply ret_inv in E5 as [-> _]]; reflexivity.
Qed.

(** ** Upserts *)

Lemma update_or_create_first {R} (key : R -> Z) (r : R) (tbl : list R) :
  Orm.first (Orm.filter_rows (fun x => key x =? key r)
               (Orm.update_or_create key r tbl)) = Some r.
Proof.
  unfold Orm.first, Orm.filter_rows.
  induction tbl as [|r0 tbl IH]; simpl.
  - rewrite Z.eqb_refl. reflexivity.
  - destruct (decide (key r0 = key r)) as [E|N]; simpl.
    + rewrite Z.eqb_refl. reflexivity.
    + destruct (Z.eqb_spec (key r0) (key r)); [contradiction|exact IH].
Qed.

Lemma import_run_report get d db db' n t :
  import_run get d db db' n t -> current_report d db' = Some (it_report t).
Proof.
  intros (_ & _ & _ & _ & _ & Ed & _ & _ & _ & _ & _ & _ & _ & ->).
  unfold current_report. simpl. rewrite <- Ed. apply update_or_create_first.
Qed.

(** ** Reconciliation *)

Lemma bind_result_ok {A B} (m : result A) (f : A -> result B) b :
  m ≫= f = Ok b -> exists a, m = Ok a /\ f a = Ok b.
Proof. destruct m as [a|e]; simpl; [eauto|discriminate]. Qed.

Lemma spots_rows_totals_sums rows a b a' b' :
  spots_rows_totals rows a b = Ok (a', b') ->
  exists revenues counts,
    Forall2 (fun row v => row_revenue row = Ok v) rows revenues /\
    Forall2 (fun row v => row_count row = Ok v) rows counts /\
    a' = a + sum_Z revenues /\ b' = b + sum_Z counts.
Proof.
  revert a b. induction rows as [|row rows IH]; simpl; intros a b H.
  - injection H as <- <-. exists [], []. simpl. repeat split; auto; lia.
  - apply bind_result_ok in H as (r1 & E1 & H).
    apply bind_result_ok in H as (r2 & E2 & H).
    apply bind_result_ok in H as (dr & E3 & H).
    apply bind_result_ok in H as (t1 & E4 & H).
    apply bind_result_ok in H as (t2 & E5 & H).
    apply bind_result_ok in H as (t3 & E6 & H).
    apply bind_result_ok in H as (dt & E7 & H).
    apply IH in H as (revenues & counts & F1 & F2 & -> & ->).
    exists (dr :: revenues), (dt :: counts). simpl. repeat split; try lia.
    + constructor; auto. unfold row_revenue. rewrite E1, E2. exact E3.
    + constructor; auto. unfold row_count. rewrite E4, E5, E6. exact E7.
Qed.

Lemma is_none_spec v : Py.is_none v = true <-> v = PNone.
Proof. destruct v; simpl; split; congruence. Qed.

Lemma is_none_false v : Py.is_none v = false <-> v <> PNone.
Proof. destruct v; simpl; split; congruence. Qed.

Lemma catch_ok {A} (m h : result A) caught a :
  catch m caught h = Ok a ->
  m = Ok a \/ (exists e, m = Raise e /\ caught e = true) /\ h = Ok a.
Proof.
  destruct m as [a'|e]; simpl; [auto|].
  destruct (caught e) eqn:C; [|discriminate]. eauto.
Qed.

(** what [reconcile] returns, case by case *)
Lemma reconcile_reconciled spots_sales raw out :
  reconcile spots_sales raw = Ok out -> reconciled spots_sales raw out.
Proof.
  unfold reconcile. intros H.
  destruct spots_sales as [| | | | |l|kvs];
    try (injection H as <-; apply by_neither; intros; congruence).
  destruct (Py.lookup_default kvs "response" PNone) as [| | | | |rows|response] eqn:Er;
    try (injection H as <-; apply by_neither; intros ? ? [= <-]; congruence).
  - (* a list of rows *)
    destruct raw as [[r0 c0] a0].
    apply bind_result_ok in H as ([tr tt] & Et & H).
    apply spots_rows_totals_sums in Et as (revenues & counts & F1 & F2 & -> & ->).
    cbn beta iota in H. rewrite !Z.add_0_l in H.
    destruct (Z.leb_spec 0 (sum_Z revenues)) as [P|N].
    + apply bind_result_ok in H as (avg & Ea & [= <-]).
      eapply by_rows; eauto.
    + injection H as <-. eapply by_rows_negative; eauto.
  - (* a dict of totals *)
    destruct (Py.is_none (Py.lookup_default response "revenue" PNone)) eqn:En.
    + injection H as <-. apply is_none_spec in En.
      apply by_neither; intros ? ? [= <-]; congruence.
    + apply is_none_false in En.
      apply bind_result_ok in H as (x & Ex & H).
      apply bind_result_ok in H as (cnt & Ec & H).
      destruct (PyFloat.geb x (PyFloat.FFin 0 0)) eqn:Eg.
      * apply bind_result_ok in H as (rev & Erev & H).
        apply bind_result_ok in H as (avg & Ea & [= <-]).
        eapply by_total; eauto.
        unfold avg_from_total.
        destruct (Py.is_none (Py.lookup_default response "middle_invoice" PNone)) eqn:Em.
        -- apply is_none_spec in Em. auto.
        -- apply is_none_false in Em. right.
           apply catch_ok in Ea as [Ea|[He Ea]]; [left|right]; auto.
      * injection H as <-. eapply by_total_negative; eauto.
Qed.

(** the average check stored is the [middle_invoice] of a dict-shaped
    aggregate or is derived from the revenue and the count stored *)
Lemma reconcile_avg_check spots_sales r0 c0 a0 rev cnt avg :
  avg_check_of r0 c0 = Ok a0 ->
  reconcile spots_sales (r0, c0, a0) = Ok (rev, cnt, avg) ->
  from_middle_invoice spots_sales avg \/ avg_check_of rev cnt = Ok avg.
Proof.
  intros Ha H. apply reconcile_reconciled in H.
  inversion H; subst; auto.
  match goal with A : avg_from_total _ _ _ _ |- _ =>
    destruct A as [[_ A]|[[Nm A]|(_ & _ & A)]] end; auto.
  left. unfold from_middle_invoice. eauto 10.
Qed.

Lemma raw_figures_inv transactions r0 c0 a0 :
  raw_figures transactions = Ok (r0, c0, a0) ->
  sum_of_sums (_extract_transactions transactions) = Ok r0 /\
  c0 = Z.of_nat (List.length (_extract_transactions transactions)) /\
  avg_check_of r0 c0 = Ok a0.
Proof.
  unfold raw_figures. intros H.
  apply bind_result_ok in H as (r & Er & H).
  apply bind_result_ok in H as (a & Ea & [= <- <- <-]). auto.
Qed.

(** ** Which steps can raise [PosterAPIError] *)

Lemma quiet_ok {A} (a : A) : quiet (Ok a).
Proof. intros e [=]. Qed.

Lemma quiet_raise {A} e : is_api_error e = false -> quiet (@Raise A e).
Proof. intros H e' [= <-]. exact H. Qed.

Lemma quiet_bind {A B} (m : result A) (f : A -> result B) :
  quiet m -> (forall a, quiet (f a)) -> quiet (m ≫= f).
Proof.
  intros Hm Hf e. destruct m as [a|e']; simpl.
  - apply Hf.
  - intros [= <-]. apply Hm. reflexivity.
Qed.

Lemma quiet_catch {A} (m h : result A) caught :
  quiet m -> quiet h -> quiet (catch m caught h).
Proof.
  intros Hm Hh e. destruct m as [a|e']; simpl; [intros [=]|].
  destruct (caught e'); [apply Hh|]. intros [= <-]. apply Hm. reflexivity.
Qed.

Lemma quiet_catch_api {A} (m h : result A) :
  quiet h -> quiet (catch m is_api_error h).
Proof.
  intros Hh e. destruct m as [a|e']; simpl; [intros [=]|].
  destruct (is_api_error e') eqn:E; [apply Hh|]. intros [= <-]. exact E.
Qed.

Lemma quiet_if {A} (b : bool) (x y : result A) :
  quiet x -> quiet y -> quiet (if b then x else y).
Proof. destruct b; auto. Qed.

Ltac quiet_base :=
  solve [ apply quiet_ok
        | apply quiet_raise; reflexivity
        | match goal with
          | |- quiet (match ?x with _ => _ end) => destruct x; quiet_base
          | |- quiet (if ?b then _ else _) => destruct b; quiet_base
          end ].

Lemma quiet_get v k : quiet (Py.get v k).
Proof. unfold Py.get. quiet_base. Qed.

Lemma quiet_to_int x : quiet (PyFloat.to_int x).
Proof. unfold PyFloat.to_int. quiet_base. Qed.

Lemma quiet_round x : quiet (PyFloat.round x).
Proof. unfold PyFloat.round. quiet_base. Qed.

Lemma quiet_finite x : quiet (PyFloat.finite_or_overflow x).
Proof. unfold PyFloat.finite_or_overflow. quiet_base. Qed.

Lemma quiet_truediv a b : quiet (PyFloat.truediv a b).
Proof. unfold PyFloat.truediv. destruct (b =? 0); [quiet_base|apply quiet_finite]. Qed.

Lemma quiet_int v : quiet (Py.int v).
Proof. destruct v; simpl; try quiet_base. apply quiet_to_int. Qed.

Lemma quiet_float v : quiet (Py.float v).
Proof. destruct v; simpl; try quiet_base. apply quiet_finite. Qed.

Lemma quiet_safe_int v : quiet (_safe_int v).
Proof. apply quiet_catch; [apply quiet_int|apply quiet_ok]. Qed.

Create HintDb quiet.
#[local] Hint Resolve quiet_ok quiet_get quiet_to_int quiet_round quiet_finite
  quiet_truediv quiet_int quiet_float quiet_safe_int : quiet.

Ltac quiet_tac :=
  repeat first
    [ solve [auto with quiet]
    | apply quiet_raise; reflexivity
    | apply quiet_bind; [|intros ?]
    | apply quiet_catch
    | apply quiet_if ].

Lemma quiet_fromtimestamp x : quiet (PyDate.fromtimestamp x).
Proof.
  destruct x; simpl; try quiet_base.
  apply quiet_bind; [apply quiet_round|]. intros us.
  destruct (1000000 <=? us); quiet_base.
Qed.

Lemma quiet_parse_ms v : quiet (_parse_ms v).
Proof.
  unfold _parse_ms. destruct (Py.int v) as [ms|e] eqn:E.
  - destruct (ms <=? 0); [apply quiet_ok|].
    apply quiet_bind; [apply quiet_truediv|]. intros x.
    apply quiet_bind; [apply quiet_fromtimestamp|]. intros; apply quiet_ok.
  - destruct (is_type_or_value_error e); [apply quiet_ok|].
    apply quiet_raise. exact (quiet_int v e E).
Qed.

Lemma quiet_avg_check_of a b : quiet (avg_check_of a b).
Proof. unfold avg_check_of. quiet_tac. Qed.

Lemma quiet_sum_of_sums items : quiet (sum_of_sums items).
Proof. induction items; simpl; quiet_tac. Qed.

Lemma quiet_spots_rows_totals rows a b : quiet (spots_rows_totals rows a b).
Proof. revert a b. induction rows; simpl; intros; quiet_tac; try apply IHrows. Qed.

Lemma quiet_str_field row k : quiet (str_field row k).
Proof. unfold str_field. quiet_tac. Qed.

Lemma quiet_int_field row k : quiet (int_field row k).
Proof. unfold int_field. quiet_tac. Qed.

Lemma quiet_transaction_row id item : quiet (transaction_row id item).
Proof.
  unfold transaction_row.
  repeat first [ apply quiet_ok
               | apply quiet_bind; [|intros ?]
               | apply quiet_parse_ms | apply quiet_int_field | apply quiet_str_field
               | apply quiet_get | apply quiet_safe_int ].
Qed.

Lemma quiet_reconcile spots_sales figures : quiet (reconcile spots_sales figures).
Proof.
  unfold reconcile.
  destruct spots_sales; try apply quiet_ok.
  destruct (Py.lookup_default kvs "response" PNone); try apply quiet_ok.
  - apply quiet_bind; [apply quiet_spots_rows_totals|]. intros [tr tt].
    destruct (0 <=? tr); [|apply quiet_ok].
    apply quiet_bind; [apply quiet_avg_check_of|]. intros; apply quiet_ok.
  - destruct (Py.is_none _); [apply quiet_ok|].
    apply quiet_bind; [apply quiet_float|]. intros x.
    apply quiet_bind; [apply quiet_safe_int|]. intros c.
    destruct (PyFloat.geb _ _); [|apply quiet_ok].
    apply quiet_bind; [apply quiet_round|]. intros r.
    apply quiet_bind; [|intros; apply quiet_ok].
    destruct (Py.is_none _); [apply quiet_avg_check_of|].
    apply quiet_catch; [|apply quiet_avg_check_of].
    apply quiet_bind; [apply quiet_float|]. intros; apply quiet_round.
Qed.

Lemma quietM_lift {A} (r : result A) : quiet r -> quietM (lift r).
Proof. intros H db db' e [_ E]%lift_inv. apply H. exact E. Qed.

Lemma quietM_ret {A} (a : A) : quietM (mret a : M A).
Proof. intros db db' e [_ [=]]%ret_inv. Qed.

Lemma quietM_write f : quietM (write f).
Proof. intros db db' e [_ [=]]%write_inv. Qed.

Lemma quietM_bind {A B} (m : M A) (f : A -> M B) :
  quietM m -> (forall a, quietM (f a)) -> quietM (m ≫= f).
Proof.
  intros Hm Hf db db' e [H|(a & db1 & _ & H)]%bind_raise.
  - exact (Hm _ _ _ H).
  - exact (Hf _ _ _ _ H).
Qed.

Lemma quietM_for_each {A} (l : list A) (body : A -> M unit) :
  (forall x, quietM (body x)) -> quietM (for_each l body).
Proof.
  intros H. induction l; simpl; [apply quietM_ret|].
  apply quietM_bind; auto.
Qed.

Lemma quietM_if {A} (b : bool) (x y : M A) :
  quietM x -> quietM y -> quietM (if b then x else y).
Proof. destruct b; auto. Qed.

Lemma quietM_try_api {A} (m h : M A) :
  quietM h -> quietM (try_except m is_api_error h).
Proof.
  intros Hh db db' e. unfold try_except.
  destruct (m db) as [db1 [a|e']]; [intros [=]|].
  destruct (is_api_error e') eqn:E; [apply Hh|]. intros [= _ <-]. exact E.
Qed.

Lemma quietM_upsert_transaction item : quietM (upsert_transaction item).
Proof.
  unfold upsert_transaction.
  apply quietM_bind; [apply quietM_lift, quiet_str_field|]. intros id.
  apply quietM_if; [apply quietM_ret|].
  apply quietM_bind; [apply quietM_lift, quiet_transaction_row|].
  intros; apply quietM_write.
Qed.

Lemma quietM_sync_spots_list get : quietM (sync_spots_list get).
Proof. apply quietM_try_api, quietM_ret. Qed.

(** ** Claims on [import_daily]: the figures of the daily report *)

(** C2, as stated, fails: with the two sums -7 and 0 and no aggregate the
    report holds the average check -3, which is the quotient truncated toward
    zero, while the floor of -7/2 is -4. *)
Lemma C2_floor_fails_on_negative_revenue :
  exists r,
    current_report demo_day
      (fst (import_daily negative_day demo_client demo_day false empty_db)) = Some r /\
    0 < dr_transactions_count r /\
    dr_avg_check r = -3 /\
    dr_revenue r / dr_transactions_count r = -4.
Proof.
  eexists. split; [vm_compute; reflexivity|]. vm_compute. repeat split; congruence.
Qed.

(** C2 (amended): whenever an import stores a daily report, its average check
    either is the [middle_invoice] of a dict-shaped aggregate or is
    [int(revenue / transactions_count)] of the revenue and count stored: 0 for
    a count of 0, else the quotient truncated toward zero (the floor when the
    revenue is not negative and the count positive), as long as the revenue
    is below [2^53] in absolute value.  This holds on the raw-sum path and on
    both reconciliation paths. *)
Theorem C2_avg_check_is_truncated_quotient net client d inc db db' n :
  import_daily net client d inc db = (db', Ok n) ->
  exists r spots_sales,
    current_report d db' = Some r /\
    spots_sales_payload (PosterClient.get net client) d = Ok spots_sales /\
    (from_middle_invoice spots_sales (dr_avg_check r) \/
     (avg_check_of (dr_revenue r) (dr_transactions_count r) = Ok (dr_avg_check r) /\
      (Z.abs (dr_revenue r) < 2 ^ 53 ->
       dr_avg_check r =
         if dr_transactions_count r =? 0 then 0
         else Z.quot (dr_revenue r) (dr_transactions_count r)) /\
      (0 <= dr_revenue r < 2 ^ 53 -> 0 < dr_transactions_count r ->
       dr_avg_check r = dr_revenue r / dr_transactions_count r))).
Proof.
  intros H. apply import_daily_ok in H as [t R].
  pose proof (import_run_report _ _ _ _ _ _ R) as Hr.
  destruct R as (_ & _ & Es & Eraw & Erec & _).
  exists (it_report t), (it_spots_sales t). repeat split; auto.
  destruct (it_raw t) as [[r0 c0] a0].
  apply raw_figures_inv in Eraw as (_ & _ & Ea0).
  destruct (reconcile_avg_check _ _ _ _ _ _ _ Ea0 Erec) as [M|A]; [left; exact M|right].
  split; [exact A|]. split.
  - intros B. destruct (Z.eqb_spec (dr_transactions_count (it_report t)) 0) as [E|N].
    + rewrite E in A. rewrite avg_check_of_zero in A. congruence.
    + rewrite avg_check_of_quot in A by auto. congruence.
  - intros B P. rewrite avg_check_of_floor in A by auto. congruence.
Qed.

Lemma C2_witness :
  exists r spots_sales,
    current_report demo_day
      (fst (import_daily two_sales demo_client demo_day false empty_db)) = Some r /\
    spots_sales_payload (PosterClient.get two_sales demo_client) demo_day
      = Ok spots_sales /\
    (from_middle_invoice spots_sales (dr_avg_check r) \/
     (avg_check_of (dr_revenue r) (dr_transactions_count r) = Ok (dr_avg_check r) /\
      (Z.abs (dr_revenue r) < 2 ^ 53 ->
       dr_avg_check r =
         if dr_transactions_count r =? 0 then 0
         else Z.quot (dr_revenue r) (dr_transactions_count r)) /\
      (0 <= dr_revenue r < 2 ^ 53 -> 0 < dr_transactions_count r ->
       dr_avg_check r = dr_revenue r / dr_transactions_count r))).
Proof.
  apply (C2_avg_check_is_truncated_quotient two_sales demo_client demo_day false
           empty_db _ 2).
  vm_compute. reflexivity.
Defined.

(** C3, as stated, fails: a dict-shaped aggregate with the revenue "-5" leaves
    the raw sum 1000 in the report, not -5 times 100. *)
Lemma C3_negative_total_is_not_preferred :
  exists r,
    current_report demo_day
      (fst (import_daily negative_total demo_client demo_day false empty_db)) = Some r /\
    cents_of (PStr "-5") = Ok (-500) /\
    dr_revenue r = 1000 /\ dr_transactions_count r = 1.
Proof.
  eexists. split; [vm_compute; reflexivity|]. vm_compute. repeat split; congruence.
Qed.

(** C3 (amended): the figures stored by an import are those of [reconciled]:
    a dict-shaped aggregate with a revenue that is not negative gives the
    revenue times 100 rounded half-even (in binary64), the count of [clients]
    or [transactions_count], and the average check of [middle_invoice] times
    100 when that field is a number, re-derived otherwise; a list of rows
    with a total that is not negative gives the sums of [revenue|sum] and of
    [transactions_count|count|clients] and a re-derived average check; in
    every other case the figures of the raw sum stand. *)
Theorem C3_figures_are_reconciled net client d inc db db' n :
  import_daily net client d inc db = (db', Ok n) ->
  exists r transactions spots_sales raw,
    current_report d db' = Some r /\
    n = dr_transactions_count r /\
    fetch_transactions (PosterClient.get net client) d = Ok transactions /\
    spots_sales_payload (PosterClient.get net client) d = Ok spots_sales /\
    raw_figures transactions = Ok raw /\
    reconciled spots_sales raw (figures_of r).
Proof.
  intros H. apply import_daily_ok in H as [t R].
  pose proof (import_run_report _ _ _ _ _ _ R) as Hr.
  destruct R as (Et & _ & Es & Eraw & Erec & _ & _ & _ & _ & En & _).
  exists (it_report t), (it_transactions t), (it_spots_sales t), (it_raw t).
  repeat split; auto. apply reconcile_reconciled, Erec.
Qed.

Lemma C3_witness :
  exists r transactions spots_sales raw,
    current_report demo_day
      (fst (import_daily total_day demo_client demo_day false empty_db)) = Some r /\
    3 = dr_transactions_count r /\
    fetch_transactions (PosterClient.get total_day demo_client) demo_day
      = Ok transactions /\
    spots_sales_payload (PosterClient.get total_day demo_client) demo_day
      = Ok spots_sales /\
    raw_figures transactions = Ok raw /\
    reconciled spots_sales raw (figures_of r).
Proof.
  apply (C3_figures_are_reconciled total_day demo_client demo_day false empty_db).
  vm_compute. reflexivity.
Defined.

(** the reconciled figures of that day: 12.34 gives 1234, 4.125 gives 412 *)
Example total_day_figures :
  option_map figures_of
    (current_report demo_day
       (fst (import_daily total_day demo_client demo_day false empty_db)))
  = Some (1234, 3, 412).
Proof. vm_compute. reflexivity. Qed.

(** C9: when the spots-sales answer is a dict whose [response] is an empty
    list, the report stored has revenue 0, count 0 and average check 0, and 0
    is returned, whatever the transactions were. *)
Theorem C9_empty_rows_zero_the_report net client d inc db db' n kvs :
  fetch_spots_sales (PosterClient.get net client) d = Ok (PDict kvs) ->
  Py.lookup_default kvs "response" PNone = PList [] ->
  import_daily net client d inc db = (db', Ok n) ->
  exists r,
    current_report d db' = Some r /\
    dr_revenue r = 0 /\ dr_transactions_count r = 0 /\ dr_avg_check r = 0 /\ n = 0.
Proof.
  intros Ef Er H. apply import_daily_ok in H as [t R].
  pose proof (import_run_report _ _ _ _ _ _ R) as Hr.
  destruct R as (_ & _ & Es & _ & Erec & _ & _ & _ & _ & En & _).
  unfold spots_sales_payload in Es. rewrite Ef in Es. injection Es as Es.
  rewrite <- Es in Erec. unfold reconcile in Erec. rewrite Er in Erec.
  destruct (it_raw t) as [[r0 c0] a0]. simpl in Erec.
  exists (it_report t). split; [exact Hr|].
  unfold figures_of in Erec. injection Erec as E1 E2 E3.
  rewrite En. auto.
Qed.

Lemma C9_witness :
  raw_figures (PDict [("response", PList [demo_item "1" 1000; demo_item "2" 500])])
    = Ok (1500, 2, 750) /\
  exists r,
    current_report demo_day
      (fst (import_daily empty_rows_day demo_client demo_day false empty_db)) = Some r /\
    dr_revenue r = 0 /\ dr_transactions_count r = 0 /\ dr_avg_check r = 0 /\ 0 = 0.
Proof.
  split; [vm_compute; reflexivity|].
  apply (C9_empty_rows_zero_the_report empty_rows_day demo_client demo_day false
           empty_db _ 0 [("response", PList [])]).
  - vm_compute. reflexivity.
  - reflexivity.
  - vm_compute. reflexivity.
Defined.

(** ** Claim on [import_daily]: which fetch failures abort it *)

Lemma import_daily_api_error get d inc db db' e :
  import_daily_with get d inc db = (db', Raise e) -> is_api_error e = true ->
  db' = db /\
  (fetch_transactions get d = Raise e \/
   exists v, fetch_transactions get d = Ok v /\ fetch_payments get d = Raise e).
Proof.
  unfold import_daily_with. intros H Ee.
  apply bind_raise in H as [[-> H]%lift_inv | (t & db1 & [-> Ht]%lift_inv & H)];
    [auto|].
  apply bind_raise in H as [[-> H]%lift_inv | (p & db1 & [-> Hp]%lift_inv & H)];
    [eauto|].
  exfalso.
  assert (forall (m : M Z), quietM m -> m = m -> forall db0, m db0 = (db', Raise e) -> False)
    as Q by (intros m Hm _ db0 Hr; rewrite (Hm _ _ _ Hr) in Ee; discriminate).
  revert H. generalize db at 1. intros db0 H. revert db0 H.
  apply Q; [|reflexivity].
  apply quietM_bind.
  { destruct inc; [apply quietM_lift, quiet_catch_api, quiet_ok | apply quietM_ret]. }
  intros products. apply quietM_bind.
  { apply quietM_lift, quiet_catch_api, quiet_ok. }
  intros spots. apply quietM_bind; [apply quietM_sync_spots_list|]. intros _.
  apply quietM_bind; [apply quietM_lift, quiet_sum_of_sums|]. intros rev.
  apply quietM_bind; [apply quietM_lift, quiet_avg_check_of|]. intros avg.
  apply quietM_bind; [apply quietM_for_each, quietM_upsert_transaction|]. intros _.
  apply quietM_bind; [apply quietM_write|]. intros _.
  apply quietM_bind; [apply quietM_if; [apply quietM_write|apply quietM_ret]|]. intros _.
  apply quietM_bind; [apply quietM_if; [apply quietM_write|apply quietM_ret]|]. intros _.
  apply quietM_bind; [apply quietM_lift, quiet_reconcile|]. intros [[r c] a].
  apply quietM_bind; [apply quietM_write|]. intros _.
  apply quietM_ret.
Qed.

Lemma import_daily_transactions_fail get d inc db e :
  fetch_transactions get d = Raise e ->
  import_daily_with get d inc db = (db, Raise e).
Proof.
  unfold fetch_transactions, day_range, import_daily_with, mbind, M_bind, lift.
  intros ->. reflexivity.
Qed.

Lemma import_daily_payments_fail get d inc db v e :
  fetch_transactions get d = Ok v -> fetch_payments get d = Raise e ->
  import_daily_with get d inc db = (db, Raise e).
Proof.
  unfold fetch_transactions, fetch_payments, day_range, import_daily_with,
    mbind, M_bind, lift.
  intros -> ->. reflexivity.
Qed.

Lemma sync_spots_list_degraded get :
  sync_spots_list (degraded get) = sync_spots_list get.
Proof.
  unfold sync_spots_list.
  change (degraded get "spots.getSpots" None)
    with (catch (get "spots.getSpots" None) is_api_error (Ok (PDict []))).
  destruct (get "spots.getSpots" None) as [v|e]; [reflexivity|].
  destruct e; reflexivity.
Qed.

Lemma import_daily_degraded get d inc :
  import_daily_with (degraded get) d inc = import_daily_with get d inc.
Proof.
  unfold import_daily_with. rewrite sync_spots_list_degraded.
  change (degraded get "dash.getTransactions") with (get "dash.getTransactions").
  change (degraded get "dash.getPaymentsReport") with (get "dash.getPaymentsReport").
  set (p := date_params "dateFrom" "dateTo" (_yyyymmdd d) (_yyyymmdd d)).
  change (degraded get "dash.getProductsSales" p)
    with (catch (get "dash.getProductsSales" p) is_api_error (Ok (PDict []))).
  change (degraded get "dash.getSpotsSales" p)
    with (catch (get "dash.getSpotsSales" p) is_api_error (Ok (PDict []))).
  destruct (get "dash.getProductsSales" p) as [v1|e1],
           (get "dash.getSpotsSales" p) as [v2|e2];
    try destruct e1; try destruct e2; reflexivity.
Qed.

(** C4: an import raises [PosterAPIError] exactly when the transactions fetch
    raises it, or that fetch succeeds and the payments fetch raises it, and
    then no table is written (no daily report); a [PosterAPIError] of the
    products-sales, spots-sales or directory fetch changes nothing else: the
    import runs as with a client whose optional endpoints answer [{}]. *)
Theorem C4_only_required_fetches_abort net client d inc db :
  (snd (import_daily net client d inc db) = Raise PosterAPIError <->
     fetch_transactions (PosterClient.get net client) d = Raise PosterAPIError \/
     exists v, fetch_transactions (PosterClient.get net client) d = Ok v /\
               fetch_payments (PosterClient.get net client) d = Raise PosterAPIError) /\
  (snd (import_daily net client d inc db) = Raise PosterAPIError ->
   fst (import_daily net client d inc db) = db) /\
  import_daily_with (degraded (PosterClient.get net client)) d inc db
  = import_daily net client d inc db.
Proof.
  unfold import_daily. set (get := PosterClient.get net client).
  split; [split|split].
  - intros H. destruct (import_daily_with get d inc db) as [db' r] eqn:E.
    simpl in H. subst r. apply import_daily_api_error in E; tauto.
  - intros [H|(v & Hv & H)].
    + rewrite (import_daily_transactions_fail _ _ _ _ _ H). reflexivity.
    + rewrite (import_daily_payments_fail _ _ _ _ _ _ Hv H). reflexivity.
  - intros H. destruct (import_daily_with get d inc db) as [db' r] eqn:E.
    simpl in H. subst r. apply import_daily_api_error in E; simpl; tauto.
  - rewrite import_daily_degraded. reflexivity.
Qed.

(** ** Upserts keyed by a unique column *)

Section UpdateOrCreate.
Context {R K : Type} `{EqDecision K} (key : R -> K).




End UpdateOrCreate.

(** ** The transaction upserts of an import *)

Lemma nonempty_spec s : PyStr.nonempty s = true <-> s <> "".
Proof. destruct s; simpl; split; congruence. Qed.










(** that day: the entry without identifier leaves no row, the two entries
    "8" leave one row, and the timestamps 0 and "soon" are stored as absent *)
Example ragged_day_rows :
  map (fun r => (tx_transaction_id r, tx_date_start r, tx_date_close r, tx_sum r))
    (db_transactions
       (fst (import_daily ragged_day demo_client demo_day false empty_db)))
  = [("7", None, None, 0); ("8", Some (demo_ms * 1000), None, 500)].
Proof. vm_compute. reflexivity. Qed.

(** ** Claim on the requests of the client *)

Lemma apply_auth_config_error self params headers :
  PosterClient._apply_auth self params headers = Raise PosterConfigError <->
  recognized_auth_style (PosterClient.auth_style self) = false.
Proof.
  unfold PosterClient._apply_auth, recognized_auth_style. simpl.
  destruct (String.eqb _ "query_token"); [split; discriminate|].
  destruct (String.eqb _ "query_access_token"); [split; discriminate|].
  destruct (String.eqb _ "bearer"); [split; discriminate|].
  split; reflexivity.
Qed.

Lemma apply_auth_outcome self params headers :
  (exists ph, PosterClient._apply_auth self params headers = Ok ph /\
              recognized_auth_style (PosterClient.auth_style self) = true) \/
  (PosterClient._apply_auth self params headers = Raise PosterConfigError /\
   recognized_auth_style (PosterClient.auth_style self) = false).
Proof.
  unfold PosterClient._apply_auth, recognized_auth_style. simpl.
  destruct (String.eqb _ "query_token"); [left; eauto|].
  destruct (String.eqb _ "query_access_token"); [left; eauto|].
  destruct (String.eqb _ "bearer"); [left; eauto|]. right; auto.
Qed.

Lemma prepare_outcome self method path params json_body form_body :
  (exists rq, PosterClient.prepare self method path params json_body form_body = Ok rq /\
              recognized_auth_style (PosterClient.auth_style self) = true) \/
  (PosterClient.prepare self method path params json_body form_body
     = Raise PosterConfigError /\
   recognized_auth_style (PosterClient.auth_style self) = false).
Proof.
  unfold PosterClient.prepare.
  destruct (apply_auth_outcome self (default [] params) [])
    as [([p h] & -> & R)|[-> R]]; simpl; eauto.
Qed.

Lemma receive_outcome outcome :
  (PosterClient.receive outcome = Raise PosterAPIError /\
   (outcome = RequestException \/
    exists status json, outcome = Response status json /\
                        (is_http_error status = true \/ json = None))) \/
  (exists status v, outcome = Response status (Some v) /\
                    is_http_error status = false /\
                    PosterClient.receive outcome = Ok v).
Proof.
  destruct outcome as [|status json]; simpl; [left; auto|].
  destruct (is_http_error status) eqn:E; [left; eauto 10|].
  destruct json as [v|]; [right; eauto 10|left; eauto 10].
Qed.

Lemma request_config_error net self method path params json_body form_body :
  PosterClient.request net self method path params json_body form_body
    = Raise PosterConfigError <->
  recognized_auth_style (PosterClient.auth_style self) = false.
Proof.
  unfold PosterClient.request.
  destruct (prepare_outcome self method path params json_body form_body)
    as [(rq & -> & R)|[-> R]]; simpl; [|tauto].
  destruct (receive_outcome (net rq)) as [[-> _]|(? & ? & _ & _ & ->)];
    split; congruence.
Qed.

Lemma request_api_error net self method path params json_body form_body :
  PosterClient.request net self method path params json_body form_body
    = Raise PosterAPIError <->
  exists rq,
    PosterClient.prepare self method path params json_body form_body = Ok rq /\
    (net rq = RequestException \/
     exists status json, net rq = Response status json /\
                         (is_http_error status = true \/ json = None)).
Proof.
  unfold PosterClient.request.
  destruct (prepare_outcome self method path params json_body form_body)
    as [(rq & -> & R)|[-> R]]; simpl.
  - destruct (receive_outcome (net rq)) as [[-> C]|(status & v & E & S & ->)].
    + split; [eauto|reflexivity].
    + split; [discriminate|].
      intros (rq' & [= <-] & [C|(s' & j & C & [C'|C'])]); congruence.
  - split; [discriminate|]. intros (rq & [=] & _).
Qed.

Lemma request_ok net self method path params json_body form_body v :
  PosterClient.request net self method path params json_body form_body = Ok v <->
  exists rq status,
    PosterClient.prepare self method path params json_body form_body = Ok rq /\
    net rq = Response status (Some v) /\ is_http_error status = false.
Proof.
  unfold PosterClient.request.
  destruct (prepare_outcome self method path params json_body form_body)
    as [(rq & -> & R)|[-> R]]; simpl.
  - destruct (receive_outcome (net rq)) as [[-> C]|(status & v' & E & S & ->)].
    + split; [discriminate|].
      intros (rq' & status & [= <-] & E & S).
      destruct C as [C|(s' & j & C & [C'|C'])]; congruence.
    + split.
      * intros [= <-]. eauto.
      * intros (rq' & s' & [= <-] & E' & _). congruence.
  - split; [discriminate|]. intros (rq & s & [=] & _).
Qed.

Lemma from_settings_config_error settings :
  PosterClient.from_settings settings = Raise PosterConfigError <->
  PosterClient.unset (POSTER_API_BASE_URL settings) = true \/
  PosterClient.unset (POSTER_API_TOKEN settings) = true \/
  PosterClient.unset (POSTER_AUTH_STYLE settings) = true.
Proof.
  unfold PosterClient.from_settings. simpl.
  destruct (PosterClient.unset (POSTER_API_BASE_URL settings)),
           (PosterClient.unset (POSTER_API_TOKEN settings)),
           (PosterClient.unset (POSTER_AUTH_STYLE settings)); simpl;
    intuition discriminate.
Qed.

(** C6, as stated, fails: a client without a credential gets no
    [PosterConfigError] from [request]; the call goes out and its answer is
    returned. *)
Lemma C6_request_does_not_check_credentials :
  lacks_setting tokenless_client /\
  PosterClient.request (canned [demo_payments]) tokenless_client
    "get" "dash.getPaymentsReport" None None None = Ok (PDict []).
Proof. split; [right; reflexivity | vm_compute; reflexivity]. Qed.

(** C6 (amended): [request] raises [PosterConfigError] exactly when the auth
    style is none of the three recognized ones; with a recognized style it
    raises [PosterAPIError] exactly when the transport fails, the status is a
    4xx or 5xx code, or the body is not valid JSON, and returns the parsed
    body otherwise.  Absent settings are rejected by [from_settings], where
    the client is built. *)
Theorem C6_request_outcomes net self method path params json_body form_body :
  (PosterClient.request net self method path params json_body form_body
     = Raise PosterConfigError <->
   recognized_auth_style (PosterClient.auth_style self) = false) /\
  (PosterClient.request net self method path params json_body form_body
     = Raise PosterAPIError <->
   exists rq,
     PosterClient.prepare self method path params json_body form_body = Ok rq /\
     (net rq = RequestException \/
      exists status json, net rq = Response status json /\
                          (is_http_error status = true \/ json = None))) /\
  (forall v,
     PosterClient.request net self method path params json_body form_body = Ok v <->
     exists rq status,
       PosterClient.prepare self method path params json_body form_body = Ok rq /\
       net rq = Response status (Some v) /\ is_http_error status = false) /\
  (forall settings,
     PosterClient.from_settings settings = Raise PosterConfigError <->
     PosterClient.unset (POSTER_API_BASE_URL settings) = true \/
     PosterClient.unset (POSTER_API_TOKEN settings) = true \/
     PosterClient.unset (POSTER_AUTH_STYLE settings) = true).
Proof.
  split; [apply request_config_error|].
  split; [apply request_api_error|].
  split; [intros v; apply request_ok | intros s; apply from_settings_config_error].
Qed.

(** ** Filters *)

Lemma filter_none {A} (p : A -> bool) l :
  (forall x, In x l -> p x = false) -> List.filter p l = [].
Proof.
  induction l as [|x l IH]; simpl; intros H; [reflexivity|].
  rewrite (H x) by auto. apply IH. auto.
Qed.

Lemma filter_all {A} (p : A -> bool) l :
  (forall x, In x l -> p x = true) -> List.filter p l = l.
Proof.
  induction l as [|x l IH]; simpl; intros H; [reflexivity|].
  rewrite (H x) by auto. f_equal. apply IH. auto.
Qed.

Lemma filter_filter_implied {A} (p q : A -> bool) l :
  (forall x, p x = true -> q x = true) ->
  List.filter p (List.filter q l) = List.filter p l.
Proof.
  intros H. induction l as [|x l IH]; simpl; [reflexivity|].
  destruct (q x) eqn:Q; simpl.
  - destruct (p x); congruence.
  - destruct (p x) eqn:P; [|exact IH]. rewrite (H x P) in Q. discriminate.
Qed.

Lemma filter_filter_excluded {A} (p q : A -> bool) l :
  (forall x, p x = true -> q x = false) ->
  List.filter p (List.filter q l) = [].
Proof.
  intros H. apply filter_none. intros x [_ Q]%filter_In.
  destruct (p x) eqn:P; [|reflexivity]. rewrite (H x P) in Q. discriminate.
Qed.

(** ** The issues of a scan *)

Lemma string_eqb_refl s : String.eqb s s = true.
Proof. apply String.eqb_refl. Qed.

Lemma in_ignored_false t k ex :
  in_ignored t k ex = false -> Py.eqb k k = true -> ~ In (t, k) ex.
Proof.
  unfold in_ignored. intros H E I.
  assert (existsb (fun p => String.eqb (fst p) t && Py.eqb (snd p) k) ex = true);
    [|congruence].
  apply existsb_exists. exists (t, k). simpl. rewrite string_eqb_refl, E. auto.
Qed.

Lemma ignored_keys_all rows ex g :
  ignored_keys rows = Ok ex -> In g rows ->
  exists kg, ignored_key g = Ok kg /\ In kg ex.
Proof.
  revert ex. induction rows as [|r rows IH]; simpl; intros ex H I; [contradiction|].
  apply bind_result_ok in H as (k & Hk & H).
  apply bind_result_ok in H as (ks & Hks & [= <-]).
  destruct I as [<-|I].
  - exists k. simpl. auto.
  - destruct (IH ks Hks I) as (kg & ? & ?). exists kg. simpl. auto.
Qed.

Lemma str_eqb_self s : Py.eqb (PStr s) (PStr s) = true.
Proof. simpl. apply string_eqb_refl. Qed.

Lemma tx_issues_accepted tz d ex tx issues :
  tx_issues tz d ex tx = Ok issues -> Forall (accepted d ex) issues.
Proof.
  unfold tx_issues. intros H.
  apply bind_result_ok in H as (moves & Hm & [= <-]).
  repeat apply Forall_app_2.
  - destruct (_ && negb (in_ignored "zero_or_negative_sum" _ _)) eqn:E;
      [|constructor].
    apply andb_true_iff in E as [_ E]. apply negb_true_iff in E.
    repeat constructor. exists (PStr (tx_transaction_id tx)).
    split; [reflexivity|]. split; [apply str_eqb_self|exact E].
  - destruct (_ && negb (in_ignored "payment_mismatch" _ _)) eqn:E;
      [|constructor].
    apply andb_true_iff in E as [_ E]. apply negb_true_iff in E.
    repeat constructor. exists (PStr (tx_transaction_id tx)).
    split; [reflexivity|]. split; [apply str_eqb_self|exact E].
  - destruct (match tx_raw tx with PDict raw => _ | _ => PNone end);
      try (injection Hm as <-; constructor).
    apply bind_result_ok in Hm as (moved & _ & Hm).
    destruct (moved && negb (in_ignored "table_move" _ _)) eqn:E;
      [|injection Hm as <-; constructor].
    apply andb_true_iff in E as [_ E]. apply negb_true_iff in E.
    apply bind_result_ok in Hm as (i & Hi & [= <-]).
    unfold table_move_issue in Hi.
    apply bind_result_ok in Hi as (x & _ & [= <-]).
    repeat constructor. exists (PStr (tx_transaction_id tx)).
    split; [reflexivity|]. split; [apply str_eqb_self|exact E].
Qed.

Lemma txs_issues_accepted tz d ex txs issues :
  txs_issues tz d ex txs = Ok issues -> Forall (accepted d ex) issues.
Proof.
  revert issues. induction txs as [|tx txs IH]; simpl; intros issues H.
  - injection H as <-. constructor.
  - apply bind_result_ok in H as (here & Hh & H).
    apply bind_result_ok in H as (rest & Hr & [= <-]).
    apply Forall_app_2; [eapply tx_issues_accepted; eauto | auto].
Qed.

Lemma fresh_issues_accepted tz d db issues :
  fresh_issues tz d db = Ok issues ->
  exists ex,
    ignored_keys (List.filter (ignored_on d) (db_data_issues db)) = Ok ex /\
    Forall (accepted d ex) issues.
Proof.
  unfold fresh_issues. intros H.
  apply bind_result_ok in H as (ex & Hex & H).
  apply bind_result_ok in H as (issues' & Hi & [= <-]).
  exists ex. split; [exact Hex|].
  apply Forall_app_2; [eapply txs_issues_accepted; eauto|].
  destruct (Orm.first _) as [r|]; [|constructor].
  destruct (_ && negb (in_ignored "no_transactions" _ _)) eqn:E; [|constructor].
  apply andb_true_iff in E as [_ E]. apply negb_true_iff in E.
  repeat constructor. exists PNone. repeat split; auto.
Qed.

(** the two writes of [scan_anomalies] *)
Lemma scan_anomalies_eq tz d db :
  scan_anomalies tz d db =
  match fresh_issues tz d db with
  | Ok issues =>
      (set_data_issues
         (fun tbl => Orm.bulk_create issues (Orm.delete_rows (open_on d) tbl)) db,
       Ok issues)
  | Raise e => (db, Raise e)
  end.
Proof.
  unfold scan_anomalies, mbind, M_bind, write, mret, M_ret.
  destruct (fresh_issues tz d db); reflexivity.
Qed.

Lemma accepted_open d ex i : accepted d ex i -> open_on d i = true.
Proof.
  intros (Hd & Hi & _). unfold open_on. rewrite Hd, Hi, Z.eqb_refl. reflexivity.
Qed.

Lemma open_not_ignored d i : ignored_on d i = true -> open_on d i = false.
Proof.
  unfold ignored_on, open_on. destruct (di_date i =? d), (di_ignored i); auto.
Qed.

(** C1: when [scan_anomalies] returns, the ignored rows of the day are
    unchanged, no issue it inserted has the (issue_type, transaction id) pair
    of an ignored row of the day, and the rows of the day that are not
    ignored are exactly the issues it computed and returned, the old ones
    being deleted. *)
Theorem C1_rescan_keeps_ignored_and_replaces_open tz d db db' issues :
  scan_anomalies tz d db = (db', Ok issues) ->
  List.filter (ignored_on d) (db_data_issues db')
    = List.filter (ignored_on d) (db_data_issues db) /\
  (forall n g, In n issues -> In g (db_data_issues db) -> ignored_on d g = true ->
     exists kn kg, ignored_key n = Ok kn /\ ignored_key g = Ok kg /\ kn <> kg) /\
  db_data_issues db'
    = (List.filter (fun i => negb (open_on d i)) (db_data_issues db) ++ issues)%list /\
  List.filter (open_on d) (db_data_issues db') = issues /\
  fresh_issues tz d db = Ok issues.
Proof.
  rewrite scan_anomalies_eq. destruct (fresh_issues tz d db) as [fresh|e] eqn:F;
    [|discriminate].
  intros [= <- <-].
  destruct (fresh_issues_accepted _ _ _ _ F) as (ex & Hex & Ha).
  rewrite Forall_forall in Ha.
  simpl. unfold Orm.bulk_create, Orm.delete_rows.
  rewrite !List.filter_app.
  repeat split.
  - rewrite filter_filter_implied.
    + rewrite (filter_none (ignored_on d) fresh); [apply app_nil_r|].
      intros x Ix. destruct (Ha x) as (_ & Hi & _).
      { apply list_elem_of_In, Ix. }
      unfold ignored_on. rewrite Hi. apply andb_false_r.
    + intros x Hx. rewrite (open_not_ignored d x Hx). reflexivity.
  - intros n g In_ Ig Hg.
    destruct (Ha n) as (_ & _ & k & Hk & Ek & Hn).
    { apply list_elem_of_In, In_. }
    destruct (ignored_keys_all _ ex g Hex) as (kg & Hkg & Ikg).
    { apply filter_In. auto. }
    exists (di_issue_type n, k), kg. repeat split; auto.
    intros <-. exact (in_ignored_false _ _ _ Hn Ek Ikg).
  - rewrite filter_filter_excluded.
    + simpl. apply filter_all. intros x Ix. eapply accepted_open, Ha.
      apply list_elem_of_In, Ix.
    + intros x Hx. rewrite Hx. reflexivity.
Qed.

(** C10: whatever its outcome, [scan_anomalies] leaves every other table as
    it was, and in the DataIssue table every row of another day and every
    ignored row of the day. *)
Theorem C10_scan_frame tz d db :
  db_daily_reports (fst (scan_anomalies tz d db)) = db_daily_reports db /\
  db_transactions (fst (scan_anomalies tz d db)) = db_transactions db /\
  db_spots (fst (scan_anomalies tz d db)) = db_spots db /\
  db_payments_reports (fst (scan_anomalies tz d db)) = db_payments_reports db /\
  db_products_sales_reports (fst (scan_anomalies tz d db))
    = db_products_sales_reports db /\
  db_spots_sales_reports (fst (scan_anomalies tz d db)) = db_spots_sales_reports db /\
  db_insights (fst (scan_anomalies tz d db)) = db_insights db /\
  List.filter (fun i => negb (open_on d i))
    (db_data_issues (fst (scan_anomalies tz d db)))
    = List.filter (fun i => negb (open_on d i)) (db_data_issues db) /\
  (forall i, In i (db_data_issues db) -> open_on d i = false ->
             In i (db_data_issues (fst (scan_anomalies tz d db)))).
Proof.
  rewrite scan_anomalies_eq. destruct (fresh_issues tz d db) as [fresh|e] eqn:F;
    simpl; [|repeat split; auto].
  destruct (fresh_issues_accepted _ _ _ _ F) as (ex & Hex & Ha).
  rewrite Forall_forall in Ha.
  unfold Orm.bulk_create, Orm.delete_rows. repeat split.
  - rewrite List.filter_app, filter_filter_implied by auto.
    rewrite (filter_none _ fresh); [apply app_nil_r|].
    intros x Ix. rewrite (accepted_open d ex x); [reflexivity|].
    apply Ha, list_elem_of_In, Ix.
  - intros i Ii Hi. apply in_or_app. left. apply filter_In. rewrite Hi. auto.
Qed.

(** ** When a scan returns *)

Lemma ignored_keys_total rows :
  (forall g, In g rows -> exists k, ignored_key g = Ok k) ->
  exists ks, ignored_keys rows = Ok ks.
Proof.
  induction rows as [|r rows IH]; simpl; intros H; [eauto|].
  destruct (H r) as (k & ->); [auto|].
  destruct IH as (ks & ->); [auto|]. simpl. eauto.
Qed.

Lemma history_moved_total h :
  Forall (fun x => Py.is_dict x = true) h -> exists b, history_moved h = Ok b.
Proof.
  induction 1 as [|x h Hx _ IH]; simpl; [eauto|].
  destruct x; try discriminate. cbn [history_moved Py.get mbind result_bind].
  match goal with |- context [if ?c then _ else _] => destruct c end; eauto.
Qed.

Lemma tx_issues_total tz d ex tx :
  Z.abs (tx_sum tx) < 2 ^ 1023 ->
  (forall raw h, tx_raw tx = PDict raw ->
                 Py.lookup_default raw "history" PNone = PList h ->
                 Forall (fun x => Py.is_dict x = true) h) ->
  exists issues, tx_issues tz d ex tx = Ok issues.
Proof.
  intros Hs Hh. unfold tx_issues.
  destruct (tx_raw tx) as [| | | | | |raw] eqn:Er; simpl; eauto.
  destruct (Py.lookup_default raw "history" PNone) as [| | | | |h|] eqn:El;
    simpl; eauto.
  destruct (history_moved_total h (Hh raw h eq_refl El)) as (b & ->). simpl.
  destruct (b && _); simpl; eauto.
  unfold table_move_issue.
  destruct (truediv_finite (tx_sum tx) 100 ltac:(lia) Hs) as (m & e & ->).
  simpl. eauto.
Qed.

Lemma txs_issues_total tz d ex txs :
  (forall tx, In tx txs -> exists issues, tx_issues tz d ex tx = Ok issues) ->
  exists issues, txs_issues tz d ex txs = Ok issues.
Proof.
  induction txs as [|tx txs IH]; simpl; intros H; [eauto|].
  destruct (H tx) as (i & ->); [auto|].
  destruct IH as (is' & ->); [auto|]. simpl. eauto.
Qed.

(** on such data [scan_anomalies] returns *)
Lemma scan_anomalies_returns tz d db :
  scannable tz d db ->
  exists db' issues, scan_anomalies tz d db = (db', Ok issues).
Proof.
  intros [Hi Ht]. rewrite scan_anomalies_eq.
  assert (exists issues, fresh_issues tz d db = Ok issues) as (issues & ->);
    [|eauto].
  unfold fresh_issues, Orm.filter_rows.
  destruct (ignored_keys_total
              (List.filter (fun i => (di_date i =? d) && di_ignored i)
                 (db_data_issues db))) as (ks & ->).
  { intros g [Ig Hg]%filter_In. apply Hi; auto. }
  simpl.
  destruct (txs_issues_total tz d ks
              (List.filter (on_date tz d) (db_transactions db))) as (is' & ->).
  { intros tx [Itx Hon]%filter_In. destruct (Ht tx Itx Hon) as [Hs Hh].
    apply tx_issues_total; auto. }
  simpl. eauto.
Qed.

(** ** A rescan with an ignored issue *)

(** the rescan of that day: the ignored mismatch of T1 stays and is not
    created again, the stale issue of the day goes, the one of the next day
    stays, and the mismatch of T2 is created *)
Example triaged_db_rescan :
  map (fun i => (di_date i, di_issue_type i, di_context i, di_ignored i))
    (db_data_issues (fst (scan_anomalies PyDate.utc demo_day triaged_db)))
  = [(demo_day, "payment_mismatch", PDict [("transaction_id", PStr "T1")], true);
     (demo_day + 1, "zero_or_negative_sum", PDict [("transaction_id", PStr "T0")],
      false);
     (demo_day, "payment_mismatch",
      PDict [("transaction_id", PStr "T2"); ("payed_sum", PInt 500);
             ("payed_parts", PInt 400)], false)].
Proof. vm_compute. reflexivity. Qed.

(** ** The summary computed from the transactions *)

Lemma extended_cons item tx txs :
  extended
    {| ss_transactions := ss_transactions item + 1;
       ss_revenue := ss_revenue item + tx_sum tx;
       ss_returns := if is_return tx then ss_returns item + 1 else ss_returns item;
       ss_returns_sum := if is_return tx then ss_returns_sum item + tx_sum tx
                         else ss_returns_sum item |} txs
  = extended item (tx :: txs).
Proof.
  unfold extended, summary_of. simpl List.filter.
  destruct (is_return tx); simpl List.length; simpl map; simpl sum_Z;
    f_equal; simpl; lia.
Qed.

Lemma extended_nil item : extended item [] = item.
Proof.
  destruct item. unfold extended. simpl. f_equal; lia.
Qed.

Lemma extended_empty txs : extended empty_summary txs = summary_of txs.
Proof.
  unfold extended, empty_summary. cbn [ss_transactions ss_revenue ss_returns
    ss_returns_sum]. rewrite !Z.add_0_l. destruct (summary_of txs); reflexivity.
Qed.

Lemma fold_add_transaction txs (m : gmap string SpotSummary) spot :
  fold_left add_transaction txs m !! spot =
  match List.filter (fun tx => String.eqb (spot_key tx) spot) txs with
  | [] => m !! spot
  | here => Some (extended (default empty_summary (m !! spot)) here)
  end.
Proof.
  revert m. induction txs as [|tx txs IH]; intros m; simpl; [reflexivity|].
  rewrite IH. unfold add_transaction.
  destruct (String.eqb_spec (spot_key tx) spot) as [E|N].
  - rewrite E, lookup_insert_eq. simpl default.
    destruct (List.filter _ txs) eqn:F.
    + rewrite <- extended_cons, extended_nil. reflexivity.
    + rewrite extended_cons. reflexivity.
  - rewrite lookup_insert_ne by exact N. reflexivity.
Qed.

Lemma fallback_summary_lookup tz d db spot :
  fallback_summary tz d db !! spot =
  match spot_transactions tz d db spot with
  | [] => None
  | txs => Some (summary_of txs)
  end.
Proof.
  unfold fallback_summary, spot_transactions, Orm.filter_rows.
  rewrite fold_add_transaction, lookup_empty. simpl default.
  destruct (List.filter _ _); [reflexivity|]. rewrite extended_empty. reflexivity.
Qed.

Lemma daily_summary_fallback tz d db :
  no_official_rows d db ->
  daily_summary_by_spot tz d db = Ok (fallback_summary tz d db).
Proof.
  unfold no_official_rows, daily_summary_by_spot.
  destruct (stored_spots_report d db) as [[date raw]|]; [|reflexivity].
  simpl. destruct raw; try reflexivity.
  intros ->. simpl. rewrite bool_decide_eq_true_2 by reflexivity. reflexivity.
Qed.






(** the summary of that day: the transaction with status 3 is a return of
    "unknown", the negative one and the one with status 3 are returns of "5" *)
Example returns_db_summary :
  (s ← daily_summary_by_spot PyDate.utc demo_day returns_db;
   Ok (s !! "5", s !! "unknown", s !! "1"))
  = Ok (Some {| ss_transactions := 3; ss_revenue := 750;
                ss_returns := 2; ss_returns_sum := -250 |},
        Some {| ss_transactions := 1; ss_revenue := 400;
                ss_returns := 1; ss_returns_sum := 400 |},
        None).
Proof. vm_compute. reflexivity. Qed.

(** ** Insights *)

Lemma first_desc_max {R} (key : R -> Z) rows r :
  Orm.first_desc key rows = Some r ->
  In r rows /\ forall x, In x rows -> key x <= key r.
Proof.
  revert r. induction rows as [|r0 rows IH]; simpl; intros r H; [discriminate|].
  destruct (Orm.first_desc key rows) as [r'|] eqn:E.
  - destruct (IH r' eq_refl) as [I M].
    destruct (Z.ltb_spec (key r0) (key r')); injection H as <-.
    + split; [auto|]. intros x [<-|Ix]; [lia|auto].
    + split; [auto|]. intros x [<-|Ix]; [lia|]. specialize (M x Ix). lia.
  - injection H as <-. destruct rows; [|simpl in E; destruct (Orm.first_desc key rows);
      [destruct (_ <? _)|]; discriminate].
    split; [auto|]. intros x [<-|[]]. lia.
Qed.

(** the report compared with is the latest one strictly before the date *)
Lemma previous_report_latest d db p :
  previous_report d db = Some p ->
  In p (db_daily_reports db) /\ dr_date p < d /\
  forall r, In r (db_daily_reports db) -> dr_date r < d -> dr_date r <= dr_date p.
Proof.
  unfold previous_report, Orm.filter_rows. intros H.
  apply first_desc_max in H as [[I L]%filter_In M]. apply Z.ltb_lt in L.
  repeat split; auto. intros r Ir Lr. apply M, filter_In. split; [auto|].
  apply Z.ltb_lt, Lr.
Qed.

Lemma drop_insights_cases p c mk l :
  drop_insights p c mk = Ok l ->
  (l = [] /\ forall drop, 0 < p -> drop_of p c = Ok drop -> drop_fires drop = false) \/
  (exists pct drop, l = [mk pct] /\ 0 < p /\ drop_of p c = Ok drop /\
                    drop_fires drop = true).
Proof.
  unfold drop_insights. destruct (Z.ltb_spec 0 p) as [P|P].
  - intros H. apply bind_result_ok in H as (drop & Hd & H).
    destruct (drop_fires drop) eqn:F.
    + apply bind_result_ok in H as (pct & _ & [= <-]). right. eauto 10.
    + injection H as <-. left. split; [auto|]. intros drop' _ E. congruence.
  - intros [= <-]. left. split; [auto|]. intros; lia.
Qed.

Lemma insights_for_drops d cur prev l :
  insights_for d cur prev = Ok l ->
  Forall (fun i => in_date i = d) l /\
  (reports_drop revenue_drop_title l = true <->
   exists p drop, prev = Some p /\ 0 < dr_revenue p /\
                  drop_of (dr_revenue p) (dr_revenue cur) = Ok drop /\
                  drop_fires drop = true) /\
  (reports_drop avg_check_drop_title l = true <->
   exists p drop, prev = Some p /\ 0 < dr_avg_check p /\
                  drop_of (dr_avg_check p) (dr_avg_check cur) = Ok drop /\
                  drop_fires drop = true).
Proof.
  unfold insights_for. intros H.
  apply bind_result_ok in H as (rev & Hr & H).
  apply bind_result_ok in H as (avg & Ha & [= <-]).
  unfold reports_drop. rewrite !existsb_app.
  assert (forall t, existsb (has_title t)
            (if dr_transactions_count cur =? 0 then [no_sales_insight d] else [])
          = has_title t (no_sales_insight d) && (dr_transactions_count cur =? 0)) as E0.
  { intros t. destruct (_ =? 0); simpl; [rewrite orb_false_r|]; 
      destruct (has_title t _); reflexivity. }
  rewrite !E0. clear E0.
  change (has_title revenue_drop_title (no_sales_insight d)) with false.
  change (has_title avg_check_drop_title (no_sales_insight d)) with false.
  simpl andb. simpl orb.
  destruct prev as [p|].
  - apply drop_insights_cases in Hr as [[-> Nr]|(pr & dr & -> & Pr & Dr & Fr)];
    apply drop_insights_cases in Ha as [[-> Na]|(pa & da & -> & Pa & Da & Fa)];
    (split; [destruct (dr_transactions_count cur =? 0); repeat constructor|]);
    simpl; split; split;
      try discriminate; try reflexivity;
      try (intros (p' & drop & [= <-] & P & D & F);
           first [ rewrite (Nr drop P D) in F | rewrite (Na drop P D) in F ];
           discriminate);
      try (intros _; eauto 10).
  - injection Hr as <-. injection Ha as <-.
    split; [destruct (dr_transactions_count cur =? 0); repeat constructor|].
    simpl. split; split; try discriminate; intros (? & ? & [=] & _).
Qed.

Lemma generate_insights_ok d db db' n cur :
  current_report d db = Some cur ->
  generate_insights d db = (db', Ok n) ->
  insights_for d cur (previous_report d db) = Ok (insights_on d db').
Proof.
  unfold generate_insights, mbind, M_bind, read, lift, write, mret, M_ret.
  intros ->. destruct (insights_for d cur (previous_report d db)) as [l|e] eqn:E;
    [|discriminate].
  intros [= <- _]. f_equal. unfold insights_on, Orm.bulk_create, Orm.delete_rows.
  simpl. rewrite List.filter_app, filter_filter_excluded.
  - simpl. symmetry. apply filter_all. intros i Ii.
    destruct (insights_for_drops _ _ _ _ E) as [F _].
    rewrite Forall_forall in F. rewrite (F i); [apply Z.eqb_refl|].
    apply list_elem_of_In, Ii.
  - intros i ->. reflexivity.
Qed.

(** C5, as stated, fails: for a prior revenue of 3000000000000007 and a
    current revenue of 2100000000000005 the quotient is below 3/10, yet its
    nearest float is the float 0.3 and the insight is emitted. *)
Lemma C5_float_threshold_differs_on_huge_revenue :
  reports_drop revenue_drop_title
    (insights_on demo_day (fst (generate_insights demo_day huge_db))) = true /\
  10 * (3000000000000007 - 2100000000000005) < 3 * 3000000000000007.
Proof. split; [vm_compute; reflexivity | lia]. Qed.

(** C5 (amended): when [generate_insights] finds the report of the date and
    returns, a revenue-drop insight is among the insights of the date
    exactly when there is an earlier report, its revenue is positive and the
    binary64 quotient [(prior - current) / prior] is at least the float 0.3;
    for a prior revenue below [2^51] that is exactly when
    [(prior - current) / prior >= 3/10], the boundary included.  The same
    holds for the average-check insight with the average checks. *)
Theorem C5_drop_insights_at_thirty_percent d db db' n cur :
  current_report d db = Some cur ->
  generate_insights d db = (db', Ok n) ->
  (reports_drop revenue_drop_title (insights_on d db') = true <->
   exists prev drop,
     previous_report d db = Some prev /\ 0 < dr_revenue prev /\
     drop_of (dr_revenue prev) (dr_revenue cur) = Ok drop /\
     drop_fires drop = true) /\
  (reports_drop avg_check_drop_title (insights_on d db') = true <->
   exists prev drop,
     previous_report d db = Some prev /\ 0 < dr_avg_check prev /\
     drop_of (dr_avg_check prev) (dr_avg_check cur) = Ok drop /\
     drop_fires drop = true) /\
  (forall prev, previous_report d db = Some prev -> dr_revenue prev < 2 ^ 51 ->
     (reports_drop revenue_drop_title (insights_on d db') = true <->
      0 < dr_revenue prev /\
      3 * dr_revenue prev <= 10 * (dr_revenue prev - dr_revenue cur))) /\
  (forall prev, previous_report d db = Some prev -> dr_avg_check prev < 2 ^ 51 ->
     (reports_drop avg_check_drop_title (insights_on d db') = true <->
      0 < dr_avg_check prev /\
      3 * dr_avg_check prev <= 10 * (dr_avg_check prev - dr_avg_check cur))) /\
  (previous_report d db = None ->
   reports_drop revenue_drop_title (insights_on d db') = false /\
   reports_drop avg_check_drop_title (insights_on d db') = false).
Proof.
  intros Hc Hg. pose proof (generate_insights_ok _ _ _ _ _ Hc Hg) as E.
  pose proof E as E'.
  apply insights_for_drops in E as (_ & Hr & Ha).
  split; [exact Hr|]. split; [exact Ha|].
  split; [|split].
  - intros prev Hp B. rewrite Hr, Hp. split.
    + intros (p & drop & [= <-] & P & D & F). split; [exact P|].
      apply (drop_fires_exact _ _ drop); auto.
    + intros [P L]. unfold insights_for in E'. rewrite Hp in E'.
      apply bind_result_ok in E' as (rev & Hrev & _).
      unfold drop_insights in Hrev.
      destruct (Z.ltb_spec 0 (dr_revenue prev)); [|lia].
      apply bind_result_ok in Hrev as (drop & D & _).
      exists prev, drop. repeat split; auto.
      apply (drop_fires_exact (dr_revenue prev) (dr_revenue cur)); auto.
  - intros prev Hp B. rewrite Ha, Hp. split.
    + intros (p & drop & [= <-] & P & D & F). split; [exact P|].
      apply (drop_fires_exact _ _ drop); auto.
    + intros [P L]. unfold insights_for in E'. rewrite Hp in E'.
      apply bind_result_ok in E' as (rev & _ & E').
      apply bind_result_ok in E' as (avg & Havg & _).
      unfold drop_insights in Havg.
      destruct (Z.ltb_spec 0 (dr_avg_check prev)); [|lia].
      apply bind_result_ok in Havg as (drop & D & _).
      exists prev, drop. repeat split; auto.
      apply (drop_fires_exact (dr_avg_check prev) (dr_avg_check cur)); auto.
  - intros Hn. rewrite Hn in Hr, Ha.
    split; apply not_true_is_false; [rewrite Hr|rewrite Ha];
      intros (? & ? & [=] & _).
Qed.

(** the boundary of the specification: from 1000 to 700 the insight is
    emitted, from 1000 to 701 it is not *)
Example drop_to_700_fires :
  reports_drop revenue_drop_title
    (insights_on demo_day (fst (generate_insights demo_day (drop_db 700)))) = true.
Proof. vm_compute. reflexivity. Qed.

Example drop_to_701_is_silent :
  reports_drop revenue_drop_title
    (insights_on demo_day (fst (generate_insights demo_day (drop_db 701)))) = false.
Proof. vm_compute. reflexivity. Qed.

Lemma C5_witness :
  reports_drop revenue_drop_title
    (insights_on demo_day (fst (generate_insights demo_day (drop_db 700)))) = true <->
  0 < 1000 /\ 3 * 1000 <= 10 * (1000 - 700).
Proof.
  pose proof (C5_drop_insights_at_thirty_percent demo_day (drop_db 700)
                (fst (generate_insights demo_day (drop_db 700))) 2
                (demo_report demo_day 10 700 70)) as H.
  destruct H as (_ & _ & H & _); [reflexivity | vm_compute; reflexivity|].
  apply (H (demo_report (demo_day - 3) 10 1000 100)); [reflexivity | reflexivity].
Defined.

(** ** The statements at the sample days *)

Lemma C1_witness :
  List.filter (ignored_on demo_day)
    (db_data_issues (fst (scan_anomalies PyDate.utc demo_day triaged_db)))
    = List.filter (ignored_on demo_day) (db_data_issues triaged_db) /\
  (forall n g,
     In n [mismatch_issue demo_day (mismatch_tx "T2") 400] ->
     In g (db_data_issues triaged_db) -> ignored_on demo_day g = true ->
     exists kn kg, ignored_key n = Ok kn /\ ignored_key g = Ok kg /\ kn <> kg) /\
  db_data_issues (fst (scan_anomalies PyDate.utc demo_day triaged_db))
    = (List.filter (fun i => negb (open_on demo_day i)) (db_data_issues triaged_db)
         ++ [mismatch_issue demo_day (mismatch_tx "T2") 400])%list /\
  List.filter (open_on demo_day)
    (db_data_issues (fst (scan_anomalies PyDate.utc demo_day triaged_db)))
    = [mismatch_issue demo_day (mismatch_tx "T2") 400] /\
  fresh_issues PyDate.utc demo_day triaged_db
    = Ok [mismatch_issue demo_day (mismatch_tx "T2") 400].
Proof.
  apply (C1_rescan_keeps_ignored_and_replaces_open PyDate.utc demo_day triaged_db).
  vm_compute. reflexivity.
Defined.

Lemma C4_witness :
  (snd (import_daily two_sales demo_client demo_day false empty_db)
     = Raise PosterAPIError <->
   fetch_transactions (PosterClient.get two_sales demo_client) demo_day
     = Raise PosterAPIError \/
   exists v, fetch_transactions (PosterClient.get two_sales demo_client) demo_day
               = Ok v /\
             fetch_payments (PosterClient.get two_sales demo_client) demo_day
               = Raise PosterAPIError) /\
  (snd (import_daily two_sales demo_client demo_day false empty_db)
     = Raise PosterAPIError ->
   fst (import_daily two_sales demo_client demo_day false empty_db) = empty_db) /\
  import_daily_with (degraded (PosterClient.get two_sales demo_client))
    demo_day false empty_db
  = import_daily two_sales demo_client demo_day false empty_db.
Proof.
  exact (C4_only_required_fetches_abort two_sales demo_client demo_day false empty_db).
Defined.

(** on that day the three optional fetches fail and the import completes *)
Example two_sales_completes :
  map (fun path => PosterClient.get two_sales demo_client path None) optional_paths
    = [Raise PosterAPIError; Raise PosterAPIError; Raise PosterAPIError] /\
  snd (import_daily two_sales demo_client demo_day true empty_db) = Ok 2.
Proof. split; vm_compute; reflexivity. Qed.

(** without the payments report nothing is written *)
Example payments_failure_aborts :
  import_daily (canned [demo_transactions [demo_item "1" 1000]]) demo_client
    demo_day false empty_db
  = (empty_db, Raise PosterAPIError).
Proof. vm_compute. reflexivity. Qed.

Lemma C10_witness :
  db_transactions (fst (scan_anomalies PyDate.utc demo_day triaged_db))
    = db_transactions triaged_db /\
  In (stale_issue (demo_day + 1))
    (db_data_issues (fst (scan_anomalies PyDate.utc demo_day triaged_db))).
Proof.
  destruct (C10_scan_frame PyDate.utc demo_day triaged_db)
    as (_ & Ht & _ & _ & _ & _ & _ & _ & Hi).
  split; [exact Ht|]. apply Hi; [simpl; auto | reflexivity].
Defined.

Lemma C6_witness :
  PosterClient.request (canned [demo_payments]) demo_client "get"
    "dash.getTransactions" None None None = Raise PosterAPIError.
Proof.
  apply (C6_request_outcomes (canned [demo_payments]) demo_client "get"
           "dash.getTransactions" None None None).
  eexists. split; [reflexivity|]. left. reflexivity.
Defined.


(** that day: the stored row "2" is rewritten from the last entry "2", its
    start and close now absent; the entry without identifier leaves no row;
    the stored row "9" stays; the new row "1" comes last *)
Example relisted_day_rows :
  map (fun r => (tx_transaction_id r, tx_date_start r, tx_date_close r, tx_sum r))
    (db_transactions after_relisting)
  = [("2", None, None, 500); ("9", Some (demo_ms * 1000), None, 900);
     ("1", Some (demo_ms * 1000), None, 1000)].
Proof. vm_compute. reflexivity. Qed.

(** * Further facts *)

(** ** Upserts applied twice *)

Section Slots.
Context {R K : Type} `{EqDecision K} (key : R -> K).

Lemma row_of_update_or_create r tbl :
  row_of key r (Orm.update_or_create key r tbl) = Some r.
Proof.
  unfold row_of. induction tbl as [|r0 tbl IH]; simpl.
  - rewrite bool_decide_eq_true_2; auto.
  - destruct (decide (key r0 = key r)) as [E|N]; simpl.
    + rewrite bool_decide_eq_true_2; auto.
    + rewrite bool_decide_eq_false_2; auto.
Qed.

Lemma row_of_update_or_create_other r r' tbl :
  key r' <> key r ->
  row_of key r (Orm.update_or_create key r' tbl) = row_of key r tbl.
Proof.
  intros N. unfold row_of. induction tbl as [|r0 tbl IH]; simpl.
  - rewrite bool_decide_eq_false_2; auto.
  - destruct (decide (key r0 = key r')) as [E|N']; simpl.
    + rewrite !bool_decide_eq_false_2; congruence.
    + rewrite IH. reflexivity.
Qed.

Lemma row_of_same_key r r' tbl :
  key r = key r' -> row_of key r tbl = row_of key r' tbl.
Proof. intros E. unfold row_of. rewrite E. reflexivity. Qed.

Lemma update_or_create_stored r tbl :
  row_of key r tbl = Some r -> Orm.update_or_create key r tbl = tbl.
Proof.
  unfold row_of. induction tbl as [|r0 tbl IH]; simpl; [discriminate|].
  destruct (decide (key r0 = key r)) as [E|N].
  - rewrite bool_decide_eq_true_2 by auto. congruence.
  - rewrite bool_decide_eq_false_2 by auto. intros H. rewrite IH; auto.
Qed.

Lemma update_or_create_absorb r r' tbl :
  key r = key r' ->
  Orm.update_or_create key r' (Orm.update_or_create key r tbl)
  = Orm.update_or_create key r' tbl.
Proof.
  intros E. induction tbl as [|r0 tbl IH]; simpl.
  - destruct (decide (key r = key r')); [reflexivity|contradiction].
  - destruct (decide (key r0 = key r)) as [E0|N];
      destruct (decide (key r0 = key r')) as [E1|N1]; try congruence; simpl.
    + destruct (decide (key r = key r')); [reflexivity|contradiction].
    + destruct (decide (key r0 = key r')); [contradiction|].
      rewrite IH. reflexivity.
Qed.

Lemma update_or_create_commute r r' tbl :
  key r <> key r' -> is_Some (row_of key r tbl) ->
  Orm.update_or_create key r' (Orm.update_or_create key r tbl)
  = Orm.update_or_create key r (Orm.update_or_create key r' tbl).
Proof.
  intros N. unfold row_of. induction tbl as [|r0 tbl IH]; simpl.
  - intros [x Hx]; discriminate.
  - destruct (decide (key r0 = key r)) as [E|N0]; simpl.
    + intros _. destruct (decide (key r = key r')); [contradiction|].
      destruct (decide (key r0 = key r')) as [E'|N']; [congruence|]. simpl.
      destruct (decide (key r0 = key r)); [|contradiction]. reflexivity.
    + rewrite bool_decide_eq_false_2 by auto. intros S.
      destruct (decide (key r0 = key r')) as [E'|N']; simpl.
      * destruct (decide (key r' = key r)); [congruence|].
        destruct (decide (key r0 = key r')); [|contradiction].
        (* the row of [r'] comes first: nothing behind it is touched by it *)
        f_equal.
      * destruct (decide (key r0 = key r)); [contradiction|].
        destruct (decide (key r0 = key r')); [contradiction|].
        rewrite IH; auto.
Qed.

End Slots.

Lemma same_slot_sym u u' : same_slot u u' = same_slot u' u.
Proof.
  destruct u, u'; simpl; try reflexivity;
    apply bool_decide_ext; split; congruence.
Qed.

Lemma stored_apply u db : stored u (apply_upsert u db) = Some u.
Proof.
  destruct u; simpl; rewrite row_of_update_or_create; reflexivity.
Qed.

Lemma stored_apply_other u u' db :
  same_slot u u' = false -> stored u (apply_upsert u' db) = stored u db.
Proof.
  destruct u, u'; simpl; try reflexivity; intros N%bool_decide_eq_false;
    rewrite row_of_update_or_create_other; auto.
Qed.

Lemma stored_apply_some u u' db :
  is_Some (stored u db) -> is_Some (stored u (apply_upsert u' db)).
Proof.
  intros S. destruct (same_slot u u') eqn:E.
  - destruct u, u'; simpl in *; try discriminate; apply bool_decide_eq_true in E;
      rewrite (row_of_same_key _ _ _ _ E), row_of_update_or_create; simpl; eauto.
  - rewrite stored_apply_other; auto.
Qed.

Lemma apply_upsert_stored u db : stored u db = Some u -> apply_upsert u db = db.
Proof.
  destruct db, u; simpl; intros H;
    (destruct (row_of _ _ _) eqn:E; [|discriminate]); simpl in H;
    injection H as ->; unfold set_spots, set_transactions, set_payments_reports,
      set_products_sales_reports, set_spots_sales_reports, set_daily_reports; simpl;
    rewrite update_or_create_stored; auto.
Qed.

Lemma apply_upsert_absorb u u' db :
  same_slot u u' = true ->
  apply_upsert u' (apply_upsert u db) = apply_upsert u' db.
Proof.
  destruct db, u, u'; simpl; try discriminate; intros E%bool_decide_eq_true;
    unfold set_spots, set_transactions, set_payments_reports,
      set_products_sales_reports, set_spots_sales_reports, set_daily_reports; simpl;
    rewrite update_or_create_absorb; auto.
Qed.

Lemma apply_upsert_commute u u' db :
  same_slot u u' = false -> is_Some (stored u db) ->
  apply_upsert u' (apply_upsert u db) = apply_upsert u (apply_upsert u' db).
Proof.
  destruct db, u, u'; simpl; try reflexivity; intros N%bool_decide_eq_false S;
    unfold set_spots, set_transactions, set_payments_reports,
      set_products_sales_reports, set_spots_sales_reports, set_daily_reports; simpl;
    rewrite update_or_create_commute; auto;
    destruct (row_of _ _ _); simpl in S; eauto; destruct S; discriminate.
Qed.

Lemma apply_upserts_app log1 log2 db :
  apply_upserts (log1 ++ log2) db = apply_upserts log2 (apply_upserts log1 db).
Proof. apply fold_left_app. Qed.

(** an upsert whose slot is written again later leaves no trace *)
Lemma apply_upserts_overwritten log u db :
  is_Some (stored u db) -> existsb (same_slot u) log = true ->
  apply_upserts log (apply_upsert u db) = apply_upserts log db.
Proof.
  revert db. induction log as [|u' log IH]; simpl; intros db S E; [discriminate|].
  destruct (same_slot u u') eqn:Es.
  - rewrite apply_upsert_absorb; auto.
  - simpl in E. rewrite apply_upsert_commute by auto.
    apply IH; auto. apply stored_apply_some, S.
Qed.

(** a stored row stays as it is when no later upsert writes its slot *)
Lemma stored_apply_upserts log u db v :
  stored u db = v -> existsb (same_slot u) log = false ->
  stored u (apply_upserts log db) = v.
Proof.
  revert db. induction log as [|u' log IH]; simpl; intros db S E; auto.
  apply orb_false_elim in E as [E1 E2].
  apply IH; auto. rewrite stored_apply_other; auto.
Qed.

Lemma stored_apply_upserts_some log u db :
  is_Some (stored u db) -> is_Some (stored u (apply_upserts log db)).
Proof.
  revert db. induction log as [|u' log IH]; simpl; intros db S; auto.
  apply IH, stored_apply_some, S.
Qed.

Lemma apply_upserts_twice log db :
  apply_upserts log (apply_upserts log db) = apply_upserts log db.
Proof.
  revert db. induction log as [|u log IH]; intros db; [reflexivity|].
  change (apply_upserts (u :: log) db) with (apply_upserts log (apply_upsert u db)).
  set (db1 := apply_upsert u db).
  change (apply_upserts (u :: log) (apply_upserts log db1))
    with (apply_upserts log (apply_upsert u (apply_upserts log db1))).
  destruct (existsb (same_slot u) log) eqn:E.
  - rewrite apply_upserts_overwritten; auto.
    apply stored_apply_upserts_some. unfold db1. rewrite stored_apply. eauto.
  - rewrite apply_upsert_stored; auto.
    apply stored_apply_upserts; auto. apply stored_apply.
Qed.

(** ** An import reads nothing from the tables *)

Lemma upserts_only_lift {A} (r : result A) : upserts_only (lift r).
Proof. exists [], r. reflexivity. Qed.

Lemma upserts_only_ret {A} (a : A) : upserts_only (mret a : M A).
Proof. exists [], (Ok a). reflexivity. Qed.

Lemma upserts_only_write u : upserts_only (write (apply_upsert u)).
Proof. exists [u], (Ok tt). reflexivity. Qed.

Lemma upserts_only_bind {A B} (m : M A) (f : A -> M B) :
  upserts_only m -> (forall a, upserts_only (f a)) -> upserts_only (m ≫= f).
Proof.
  intros (log1 & r1 & H1) Hf. destruct r1 as [a|e].
  - destruct (Hf a) as (log2 & r2 & H2). exists (log1 ++ log2)%list, r2. intros db.
    unfold mbind, M_bind. rewrite H1, H2, apply_upserts_app. reflexivity.
  - exists log1, (Raise e). intros db. unfold mbind, M_bind. rewrite H1. reflexivity.
Qed.

Lemma upserts_only_for_each {A} (l : list A) (body : A -> M unit) :
  (forall x, upserts_only (body x)) -> upserts_only (for_each l body).
Proof.
  intros H. induction l as [|x l IH]; simpl.
  - apply upserts_only_ret.
  - apply upserts_only_bind; auto.
Qed.

Lemma upserts_only_try_except {A} (m h : M A) caught :
  upserts_only m -> upserts_only h -> upserts_only (try_except m caught h).
Proof.
  intros (log1 & r1 & H1) (log2 & r2 & H2). destruct r1 as [a|e].
  - exists log1, (Ok a). intros db. unfold try_except. rewrite H1. reflexivity.
  - destruct (caught e) eqn:C.
    + exists (log1 ++ log2)%list, r2. intros db. unfold try_except.
      rewrite H1, C, H2, apply_upserts_app. reflexivity.
    + exists log1, (Raise e). intros db. unfold try_except. rewrite H1, C. reflexivity.
Qed.

Lemma upserts_only_if {A} (b : bool) (m1 m2 : M A) :
  upserts_only m1 -> upserts_only m2 -> upserts_only (if b then m1 else m2).
Proof. destruct b; auto. Qed.

Ltac upserts_tac :=
  repeat first
    [ apply upserts_only_lift | apply upserts_only_ret
    | apply upserts_only_bind; [|intros ?]
    | apply upserts_only_for_each; intros ?
    | apply upserts_only_try_except
    | apply upserts_only_if
    | match goal with
      | |- upserts_only (write (set_spots (Orm.update_or_create _ ?r))) =>
          apply (upserts_only_write (UpSpot r))
      | |- upserts_only (write (set_transactions (Orm.update_or_create _ ?r))) =>
          apply (upserts_only_write (UpTransaction r))
      | |- upserts_only (write (set_payments_reports (Orm.update_or_create _ ?r))) =>
          apply (upserts_only_write (UpPaymentsReport r))
      | |- upserts_only (write (set_products_sales_reports
                                  (Orm.update_or_create _ ?r))) =>
          apply (upserts_only_write (UpProductsSalesReport r))
      | |- upserts_only (write (set_spots_sales_reports (Orm.update_or_create _ ?r))) =>
          apply (upserts_only_write (UpSpotsSalesReport r))
      | |- upserts_only (write (set_daily_reports (Orm.update_or_create _ ?r))) =>
          apply (upserts_only_write (UpDailyReport r))
      | |- upserts_only (match ?x with _ => _ end) => destruct x
      end ].

Lemma import_daily_upserts_only get d inc : upserts_only (import_daily_with get d inc).
Proof. unfold import_daily_with, sync_spots_list, sync_spot, upsert_transaction. upserts_tac. Qed.

Lemma import_daily_again get d inc db db1 r :
  import_daily_with get d inc db = (db1, r) ->
  import_daily_with get d inc db1 = (db1, r).
Proof.
  destruct (import_daily_upserts_only get d inc) as (log & r0 & H).
  rewrite !H. intros [= <- <-]. rewrite apply_upserts_twice. reflexivity.
Qed.

(** ** What an import leaves in place *)

Lemma update_or_create_prefix {R K} `{EqDecision K} (key : R -> K) r tbl :
  map key tbl `prefix_of` map key (Orm.update_or_create key r tbl).
Proof.
  induction tbl as [|r0 tbl IH]; simpl.
  - apply prefix_nil.
  - destruct (decide (key r0 = key r)) as [E|N]; simpl.
    + rewrite E. reflexivity.
    + apply prefix_cons, IH.
Qed.

Lemma update_or_create_other_days {R} (date : R -> Z) r d tbl :
  date r = d ->
  other_days date d (Orm.update_or_create date r tbl) = other_days date d tbl.
Proof.
  intros <-. unfold other_days. induction tbl as [|r0 tbl IH]; simpl.
  - rewrite Z.eqb_refl. reflexivity.
  - destruct (decide (date r0 = date r)) as [E|N]; simpl.
    + rewrite E, Z.eqb_refl. reflexivity.
    + rewrite IH. reflexivity.
Qed.

Lemma grows_keeps {A X} (π : DB -> list X) (m : M A) : keeps π m -> grows π m.
Proof. intros H db db' r E. rewrite (H _ _ _ E). reflexivity. Qed.

Lemma grows_bind {A B X} (π : DB -> list X) (m : M A) (f : A -> M B) :
  grows π m -> (forall a, grows π (f a)) -> grows π (m ≫= f).
Proof.
  intros Hm Hf db db' r E. unfold mbind, M_bind in E.
  destruct (m db) as [db1 [a|e]] eqn:Em.
  - etransitivity; [eapply Hm, Em | eapply Hf, E].
  - injection E as <- <-. eapply Hm, Em.
Qed.

Lemma grows_for_each {A X} (π : DB -> list X) (l : list A) (body : A -> M unit) :
  (forall x, grows π (body x)) -> grows π (for_each l body).
Proof.
  intros H. induction l as [|x l IH]; simpl.
  - apply grows_keeps, keeps_ret.
  - apply grows_bind; auto.
Qed.

Lemma grows_try_except {A X} (π : DB -> list X) (m h : M A) caught :
  grows π m -> grows π h -> grows π (try_except m caught h).
Proof.
  intros Hm Hh db db' r E. unfold try_except in E.
  destruct (m db) as [db1 [a|e]] eqn:Em.
  - injection E as <- <-. eapply Hm, Em.
  - destruct (caught e).
    + etransitivity; [eapply Hm, Em | eapply Hh, E].
    + injection E as <- <-. eapply Hm, Em.
Qed.

Lemma grows_write {X} (π : DB -> list X) (f : DB -> DB) :
  (forall db, π db `prefix_of` π (f db)) -> grows π (write f).
Proof. intros H db db' r [-> _]%write_inv. apply H. Qed.

Lemma grows_if {A X} (π : DB -> list X) (b : bool) (m1 m2 : M A) :
  grows π m1 -> grows π m2 -> grows π (if b then m1 else m2).
Proof. destruct b; auto. Qed.

Ltac grows_tac :=
  repeat first
    [ apply grows_keeps, keeps_lift | apply grows_keeps, keeps_ret
    | apply grows_write; intros ?; simpl;
        first [reflexivity | apply update_or_create_prefix]
    | apply grows_bind; [|intros ?]
    | apply grows_for_each; intros ?
    | apply grows_try_except
    | apply grows_if
    | match goal with |- grows _ (match ?x with _ => _ end) => destruct x end ].

Lemma import_daily_grows get d inc :
  grows (fun db => transaction_ids (db_transactions db)) (import_daily_with get d inc) /\
  grows (fun db => map sp_spot_id (db_spots db)) (import_daily_with get d inc) /\
  grows (fun db => map dr_date (db_daily_reports db)) (import_daily_with get d inc) /\
  grows (fun db => map rr_date (db_payments_reports db)) (import_daily_with get d inc) /\
  grows (fun db => map rr_date (db_products_sales_reports db))
    (import_daily_with get d inc) /\
  grows (fun db => map rr_date (db_spots_sales_reports db))
    (import_daily_with get d inc).
Proof.
  unfold import_daily_with, sync_spots_list, sync_spot, upsert_transaction,
    transaction_ids.
  repeat split; grows_tac.
Qed.

Ltac frame_tac :=
  repeat first
    [ apply keeps_lift | apply keeps_ret
    | apply keeps_write; intros ?;
        first [reflexivity | apply update_or_create_other_days; reflexivity]
    | apply keeps_bind; [|intros ?]
    | apply keeps_for_each; intros ?
    | apply keeps_try_except
    | apply keeps_if
    | match goal with |- keeps _ (match ?x with _ => _ end) => destruct x end ].

Lemma import_daily_keeps get d inc :
  keeps db_data_issues (import_daily_with get d inc) /\
  keeps db_insights (import_daily_with get d inc) /\
  keeps (fun db => other_days dr_date d (db_daily_reports db))
    (import_daily_with get d inc) /\
  keeps (fun db => other_days rr_date d (db_payments_reports db))
    (import_daily_with get d inc) /\
  keeps (fun db => other_days rr_date d (db_products_sales_reports db))
    (import_daily_with get d inc) /\
  keeps (fun db => other_days rr_date d (db_spots_sales_reports db))
    (import_daily_with get d inc).
Proof.
  unfold import_daily_with, sync_spots_list, sync_spot, upsert_transaction.
  repeat split; frame_tac.
Qed.

(** X1: [import_daily] writes only the rows of its own day.  Whatever the
    outcome of the call (a count returned or an exception raised half-way):
    the [DataIssue] and [Insight] tables are the ones before the call, and in
    the four tables keyed by a date ([DailyReport], [PaymentsReport],
    [ProductsSalesReport], [SpotsSalesReport]) the rows of every other date
    are unchanged and in the same order. *)
Theorem X1_import_touches_only_its_day net client d inc db db' r :
  import_daily net client d inc db = (db', r) ->
  db_data_issues db' = db_data_issues db /\
  db_insights db' = db_insights db /\
  other_days dr_date d (db_daily_reports db')
    = other_days dr_date d (db_daily_reports db) /\
  other_days rr_date d (db_payments_reports db')
    = other_days rr_date d (db_payments_reports db) /\
  other_days rr_date d (db_products_sales_reports db')
    = other_days rr_date d (db_products_sales_reports db) /\
  other_days rr_date d (db_spots_sales_reports db')
    = other_days rr_date d (db_spots_sales_reports db).
Proof.
  intros H.
  destruct (import_daily_keeps (PosterClient.get net client) d inc)
    as (K1 & K2 & K3 & K4 & K5 & K6).
  repeat split;
    [ apply (K1 _ _ _ H) | apply (K2 _ _ _ H) | apply (K3 _ _ _ H)
    | apply (K4 _ _ _ H) | apply (K5 _ _ _ H) | apply (K6 _ _ _ H) ].
Qed.

Lemma X1_witness :
  db_data_issues (fst (import_daily two_sales demo_client demo_day false later_db))
    = db_data_issues later_db /\
  db_insights (fst (import_daily two_sales demo_client demo_day false later_db))
    = db_insights later_db /\
  other_days dr_date demo_day
    (db_daily_reports (fst (import_daily two_sales demo_client demo_day false later_db)))
    = other_days dr_date demo_day (db_daily_reports later_db) /\
  other_days rr_date demo_day
    (db_payments_reports
       (fst (import_daily two_sales demo_client demo_day false later_db)))
    = other_days rr_date demo_day (db_payments_reports later_db) /\
  other_days rr_date demo_day
    (db_products_sales_reports
       (fst (import_daily two_sales demo_client demo_day false later_db)))
    = other_days rr_date demo_day (db_products_sales_reports later_db) /\
  other_days rr_date demo_day
    (db_spots_sales_reports
       (fst (import_daily two_sales demo_client demo_day false later_db)))
    = other_days rr_date demo_day (db_spots_sales_reports later_db).
Proof.
  apply (X1_import_touches_only_its_day two_sales demo_client demo_day false later_db
           _ (Ok 2)).
  vm_compute. reflexivity.
Defined.

(** X2: [import_daily] never deletes and never reorders.  Whatever the
    outcome of the call, the identifiers of the stored transactions, the
    identifiers of the stored spots and the dates of the stored reports are,
    in the same order, an initial segment of those after the call: rows are
    rewritten in place or appended. *)
Theorem X2_import_never_deletes net client d inc db db' r :
  import_daily net client d inc db = (db', r) ->
  transaction_ids (db_transactions db) `prefix_of` transaction_ids (db_transactions db') /\
  map sp_spot_id (db_spots db) `prefix_of` map sp_spot_id (db_spots db') /\
  map dr_date (db_daily_reports db) `prefix_of` map dr_date (db_daily_reports db') /\
  map rr_date (db_payments_reports db)
    `prefix_of` map rr_date (db_payments_reports db') /\
  map rr_date (db_products_sales_reports db)
    `prefix_of` map rr_date (db_products_sales_reports db') /\
  map rr_date (db_spots_sales_reports db)
    `prefix_of` map rr_date (db_spots_sales_reports db').
Proof.
  intros H.
  destruct (import_daily_grows (PosterClient.get net client) d inc)
    as (K1 & K2 & K3 & K4 & K5 & K6).
  repeat split;
    [ apply (K1 _ _ _ H) | apply (K2 _ _ _ H) | apply (K3 _ _ _ H)
    | apply (K4 _ _ _ H) | apply (K5 _ _ _ H) | apply (K6 _ _ _ H) ].
Qed.

Lemma X2_witness :
  transaction_ids (db_transactions later_db)
    `prefix_of` transaction_ids
                  (db_transactions
                     (fst (import_daily two_sales demo_client demo_day false later_db))) /\
  map dr_date (db_daily_reports later_db)
    `prefix_of` map dr_date
                  (db_daily_reports
                     (fst (import_daily two_sales demo_client demo_day false later_db))).
Proof.
  destruct (X2_import_never_deletes two_sales demo_client demo_day false later_db
              (fst (import_daily two_sales demo_client demo_day false later_db))
              (Ok 2)) as (H1 & _ & H3 & _).
  - vm_compute. reflexivity.
  - split; [exact H1 | exact H3].
Defined.

(** X3: [import_daily] reads nothing from the tables and can be run again.
    Its outcome (the count returned or the exception raised) is the same from
    every state of the tables, and running it a second time with the same
    answers of the API, from the state the first run left, changes nothing:
    same state, same outcome.  This holds for a run that raised, too. *)
Theorem X3_import_can_be_rerun net client d inc db db1 r :
  import_daily net client d inc db = (db1, r) ->
  import_daily net client d inc db1 = (db1, r) /\
  forall db2, snd (import_daily net client d inc db2) = r.
Proof.
  intros H. split.
  - eapply import_daily_again, H.
  - intros db2. unfold import_daily in *.
    destruct (import_daily_upserts_only (PosterClient.get net client) d inc)
      as (log & r0 & E).
    rewrite E in H. rewrite E. injection H as _ <-. reflexivity.
Qed.

Lemma X3_witness :
  import_daily ragged_day demo_client demo_day false
    (fst (import_daily ragged_day demo_client demo_day false later_db))
  = (fst (import_daily ragged_day demo_client demo_day false later_db), Ok 4) /\
  forall db2, snd (import_daily ragged_day demo_client demo_day false db2) = Ok 4.
Proof.
  apply (X3_import_can_be_rerun ragged_day demo_client demo_day false later_db).
  vm_compute. reflexivity.
Defined.

(** ** The raw reports an import stores *)

Lemma import_daily_raw_reports get d inc db db' n :
  import_daily_with get d inc db = (db', Ok n) ->
  exists payments spots_sales,
    fetch_payments get d = Ok payments /\
    spots_sales_payload get d = Ok spots_sales /\
    db_payments_reports db'
      = Orm.update_or_create rr_date {| rr_date := d; rr_raw := payments |}
          (db_payments_reports db) /\
    db_spots_sales_reports db'
      = (if Py.truthy spots_sales
         then Orm.update_or_create rr_date {| rr_date := d; rr_raw := spots_sales |}
                (db_spots_sales_reports db)
         else db_spots_sales_reports db) /\
    (inc = false -> db_products_sales_reports db' = db_products_sales_reports db).
Proof.
  unfold import_daily_with. intros H.
  apply bind_ok in H as (transactions & db1 & [-> Etx]%lift_inv & H).
  apply bind_ok in H as (payments & db1 & [-> Epay]%lift_inv & H).
  apply bind_ok in H as (products & db1 & Eprod & H).
  assert (db1 = db /\ (inc = false -> products = PDict [])) as [-> Hprod].
  { destruct inc; [apply lift_inv in Eprod | apply ret_inv in Eprod].
    - split; [tauto | discriminate].
    - destruct Eprod as [-> [= ->]]. auto. }
  clear Eprod.
  apply bind_ok in H as (spots & db1 & [-> Espots]%lift_inv & H).
  apply bind_ok in H as ([] & db0 & Esync & H).
  apply bind_ok in H as (rev0 & db1 & [-> Erev]%lift_inv & H).
  apply bind_ok in H as (avg0 & db1 & [-> Eavg]%lift_inv & H).
  apply bind_ok in H as ([] & db2 & Eloop & H).
  apply bind_ok in H as ([] & db3 & [-> _]%write_inv & H).
  apply bind_ok in H as ([] & db4 & E4 & H).
  apply bind_ok in H as ([] & db5 & E5 & H).
  apply bind_ok in H as (fig & db6 & [-> Erec]%lift_inv & H).
  destruct fig as [[rev cnt] avg].
  apply bind_ok in H as ([] & db7 & [-> _]%write_inv & H).
  apply ret_inv in H as [-> _].
  assert (forall {X} (π : DB -> X),
            (forall f x, π (set_spots f x) = π x) ->
            (forall f x, π (set_transactions f x) = π x) -> π db2 = π db) as K.
  { intros X π H1 H2.
    rewrite (keeps_for_each π _ _ (fun item => upsert_transaction_keeps π item H2)
               _ _ _ Eloop).
    apply (sync_spots_list_keeps π get H1 _ _ _ Esync). }
  exists payments, spots. split; [exact Epay|]. split; [exact Espots|].
  split; [|split].
  - simpl.
    assert (db_payments_reports db5 = db_payments_reports db4) as ->.
    { destruct (Py.truthy spots);
        [apply write_inv in E5 as [-> _] | apply ret_inv in E5 as [-> _]]; reflexivity. }
    assert (db_payments_reports db4
            = Orm.update_or_create rr_date {| rr_date := d; rr_raw := payments |}
                (db_payments_reports db2)) as ->.
    { destruct (Py.truthy products);
        [apply write_inv in E4 as [-> _] | apply ret_inv in E4 as [-> _]]; reflexivity. }
    rewrite (K _ db_payments_reports); auto.
  - simpl.
    assert (db_spots_sales_reports db4 = db_spots_sales_reports db2) as E.
    { destruct (Py.truthy products);
        [apply write_inv in E4 as [-> _] | apply ret_inv in E4 as [-> _]]; reflexivity. }
    rewrite (K _ db_spots_sales_reports) in E by auto.
    destruct (Py.truthy spots);
      [apply write_inv in E5 as [-> _] | apply ret_inv in E5 as [-> _]];
      simpl; rewrite E; reflexivity.
  - intros Hinc. rewrite (Hprod Hinc) in E4. simpl in E4.
    apply ret_inv in E4 as [-> _]. simpl.
    assert (db_products_sales_reports db5 = db_products_sales_reports db2) as ->.
    { destruct (Py.truthy spots);
        [apply write_inv in E5 as [-> _] | apply ret_inv in E5 as [-> _]]; reflexivity. }
    apply (K _ db_products_sales_reports); auto.
Qed.

(** X4: The spots-sales report of a day is overwritten only by a non-empty
    answer.  After an import that returned, the stored [PaymentsReport] of
    the day is the payments answer of this run.  The stored
    [SpotsSalesReport] of the day is the spots-sales answer of this run when
    that answer is truthy; when the fetch failed with [PosterAPIError] (the
    payload is then [{}]) or the answer was empty, the report stored by an
    earlier run, if any, stays.  Without [include_products_sales] the
    [ProductsSalesReport] table is not written at all. *)
Theorem X4_import_keeps_stale_spots_report net client d inc db db' n :
  import_daily net client d inc db = (db', Ok n) ->
  exists payments spots_sales,
    fetch_payments (PosterClient.get net client) d = Ok payments /\
    spots_sales_payload (PosterClient.get net client) d = Ok spots_sales /\
    Orm.first (Orm.filter_rows (fun r => rr_date r =? d) (db_payments_reports db'))
      = Some {| rr_date := d; rr_raw := payments |} /\
    stored_spots_report d db'
      = (if Py.truthy spots_sales
         then Some {| rr_date := d; rr_raw := spots_sales |}
         else stored_spots_report d db) /\
    (inc = false -> db_products_sales_reports db' = db_products_sales_reports db).
Proof.
  intros H. apply import_daily_raw_reports in H
    as (payments & spots & Epay & Espots & E1 & E2 & E3).
  exists payments, spots. repeat split; auto.
  - rewrite E1.
    apply (update_or_create_first rr_date {| rr_date := d; rr_raw := payments |}).
  - unfold stored_spots_report. rewrite E2. destruct (Py.truthy spots); [|reflexivity].
    apply (update_or_create_first rr_date {| rr_date := d; rr_raw := spots |}).
Qed.

Lemma X4_witness :
  exists payments spots_sales,
    fetch_payments (PosterClient.get two_sales demo_client) demo_day = Ok payments /\
    spots_sales_payload (PosterClient.get two_sales demo_client) demo_day
      = Ok spots_sales /\
    Orm.first (Orm.filter_rows (fun r => rr_date r =? demo_day)
                 (db_payments_reports
                    (fst (import_daily two_sales demo_client demo_day false later_db))))
      = Some {| rr_date := demo_day; rr_raw := payments |} /\
    stored_spots_report demo_day
      (fst (import_daily two_sales demo_client demo_day false later_db))
      = (if Py.truthy spots_sales
         then Some {| rr_date := demo_day; rr_raw := spots_sales |}
         else stored_spots_report demo_day later_db) /\
    (false = false ->
     db_products_sales_reports
       (fst (import_daily two_sales demo_client demo_day false later_db))
     = db_products_sales_reports later_db).
Proof.
  apply (X4_import_keeps_stale_spots_report two_sales demo_client demo_day false
           later_db _ 2).
  vm_compute. reflexivity.
Defined.

(** ** A scan run twice *)

Lemma accepted_all_open d ex issues :
  Forall (accepted d ex) issues ->
  List.filter (ignored_on d) issues = [] /\
  List.filter (fun i => negb (open_on d i)) issues = [].
Proof.
  intros H. rewrite Forall_forall in H.
  split; apply filter_none; intros i Hi; apply list_elem_of_In, H in Hi;
    destruct Hi as (Hd & Hi & _); unfold ignored_on, open_on;
    rewrite Hd, Hi, Z.eqb_refl; reflexivity.
Qed.

Lemma fresh_issues_after_scan tz d db issues :
  fresh_issues tz d db = Ok issues ->
  fresh_issues tz d
    (set_data_issues
       (fun tbl => Orm.bulk_create issues (Orm.delete_rows (open_on d) tbl)) db)
  = Ok issues.
Proof.
  intros H. rewrite <- H.
  destruct (fresh_issues_accepted _ _ _ _ H) as (ex & _ & Hacc).
  apply accepted_all_open in Hacc as [Hign _].
  unfold fresh_issues. simpl.
  unfold Orm.bulk_create, Orm.delete_rows, Orm.filter_rows.
  rewrite List.filter_app.
  change (fun i => (di_date i =? d) && di_ignored i) with (ignored_on d).
  rewrite Hign, app_nil_r.
  rewrite filter_filter_implied; [reflexivity|].
  intros x Hx. apply open_not_ignored in Hx. change (negb (open_on d x) = true).
  rewrite Hx. reflexivity.
Qed.

(** X5: A scan run twice gives what it gave the first time.  When
    [scan_anomalies] returns, a second call for the same date from the state
    the first call left returns the same issues and leaves every table,
    [DataIssue] included, exactly as it found it. *)
Theorem X5_rescan_is_idempotent tz d db db1 issues :
  scan_anomalies tz d db = (db1, Ok issues) ->
  scan_anomalies tz d db1 = (db1, Ok issues).
Proof.
  rewrite scan_anomalies_eq.
  destruct (fresh_issues tz d db) as [fresh|e] eqn:E; [|discriminate].
  intros [= <- <-].
  rewrite scan_anomalies_eq, (fresh_issues_after_scan _ _ _ _ E).
  f_equal. destruct db. unfold set_data_issues. simpl. f_equal.
  destruct (fresh_issues_accepted _ _ _ _ E) as (ex & _ & Hacc).
  apply accepted_all_open in Hacc as [_ Hopen].
  unfold Orm.bulk_create, Orm.delete_rows.
  rewrite List.filter_app, Hopen, app_nil_r.
  rewrite filter_filter_implied; auto.
Qed.

Lemma X5_witness :
  scan_anomalies PyDate.utc demo_day
    (fst (scan_anomalies PyDate.utc demo_day triaged_db))
  = (fst (scan_anomalies PyDate.utc demo_day triaged_db),
     Ok [mismatch_issue demo_day (mismatch_tx "T2") 400]).
Proof.
  apply (X5_rescan_is_idempotent PyDate.utc demo_day triaged_db).
  vm_compute. reflexivity.
Defined.

(** ** Which issues a scan raises *)

Lemma tx_issues_sound tz d ex tx l :
  tx_issues tz d ex tx = Ok l -> forall i, In i l -> raised_on tz d ex tx i.
Proof.
  unfold tx_issues. cbv zeta. intros H.
  apply bind_result_ok in H as (moves & Hm & [= <-]).
  intros i Hi. apply in_app_or in Hi as [Hi|Hi]; [|apply in_app_or in Hi as [Hi|Hi]].
  - left.
    destruct (bool_decide (tx_status tx = Some 2)) eqn:E1; [|destruct Hi].
    destruct (tx_sum tx <=? 0) eqn:E2; [|destruct Hi].
    destruct (in_ignored "zero_or_negative_sum" _ ex) eqn:E3; [destruct Hi|].
    destruct Hi as [<-|[]]. apply bool_decide_eq_true in E1.
    repeat split; auto. lia.
  - right; left. fold (payed_parts tx) in Hi.
    destruct (0 <? tx_payed_sum tx) eqn:E1; [|destruct Hi].
    destruct (payed_parts tx =? tx_payed_sum tx) eqn:E2; [destruct Hi|].
    destruct (in_ignored "payment_mismatch" _ ex) eqn:E3; [destruct Hi|].
    destruct Hi as [<-|[]]. repeat split; auto; lia.
  - right; right.
    destruct (tx_raw tx) as [| | | | | |raw] eqn:Er;
      try (injection Hm as <-; destruct Hi).
    destruct (Py.lookup_default raw "history" PNone) as [| | | | |h|] eqn:Eh;
      try (injection Hm as <-; destruct Hi).
    apply bind_result_ok in Hm as (moved & Hmoved & Hm).
    destruct moved; [|injection Hm as <-; destruct Hi].
    destruct (in_ignored "table_move" _ ex) eqn:E3; [injection Hm as <-; destruct Hi|].
    simpl in Hm. apply bind_result_ok in Hm as (i' & Hi' & [= <-]).
    destruct Hi as [<-|[]]. split; [exact Hi'|]. split; [|exact E3].
    exists raw, h. auto.
Qed.

Lemma tx_issues_complete tz d ex tx l :
  tx_issues tz d ex tx = Ok l ->
  (closed_at_zero tx -> not_ignored ex "zero_or_negative_sum" tx ->
   In (zero_sum_issue d tx) l) /\
  (parts_mismatch tx -> not_ignored ex "payment_mismatch" tx ->
   In (mismatch_issue d tx (payed_parts tx)) l) /\
  (moved_tables tx -> not_ignored ex "table_move" tx ->
   exists i, table_move_issue tz d tx = Ok i /\ In i l).
Proof.
  unfold tx_issues. cbv zeta. intros H.
  apply bind_result_ok in H as (moves & Hm & [= <-]).
  fold (payed_parts tx). split; [|split].
  - intros [H1 H2] H3. apply in_or_app. left.
    unfold not_ignored in H3. rewrite H3, bool_decide_eq_true_2 by auto.
    replace (tx_sum tx <=? 0) with true by (symmetry; apply Z.leb_le; lia).
    simpl. auto.
  - intros [H1 H2] H3. apply in_or_app. right. apply in_or_app. left.
    unfold not_ignored in H3. rewrite H3.
    replace (0 <? tx_payed_sum tx) with true by (symmetry; apply Z.ltb_lt; lia).
    replace (payed_parts tx =? tx_payed_sum tx) with false
      by (symmetry; apply Z.eqb_neq; lia).
    simpl. auto.
  - intros (raw & h & Er & Eh & Emoved) H3. unfold not_ignored in H3.
    rewrite Er, Eh in Hm. rewrite Emoved in Hm. simpl in Hm. rewrite H3 in Hm.
    simpl in Hm. apply bind_result_ok in Hm as (i & Hi & [= <-]).
    exists i. split; [exact Hi|]. apply in_or_app. right. apply in_or_app. right.
    simpl. auto.
Qed.

Lemma txs_issues_inv tz d ex txs issues :
  txs_issues tz d ex txs = Ok issues ->
  (forall i, In i issues ->
     exists tx l, In tx txs /\ tx_issues tz d ex tx = Ok l /\ In i l) /\
  (forall tx, In tx txs ->
     exists l, tx_issues tz d ex tx = Ok l /\ forall i, In i l -> In i issues).
Proof.
  revert issues. induction txs as [|tx txs IH]; simpl; intros issues H.
  - injection H as <-. split; [intros i []|intros tx []].
  - apply bind_result_ok in H as (here & Hh & H).
    apply bind_result_ok in H as (rest & Hr & [= <-]).
    destruct (IH _ Hr) as [IH1 IH2]. split.
    + intros i Hi. apply in_app_or in Hi as [Hi|Hi].
      * exists tx, here. auto.
      * destruct (IH1 _ Hi) as (tx' & l & ? & ? & ?). exists tx', l. auto.
    + intros tx' [<-|Hin].
      * exists here. split; auto. intros i Hi. apply in_or_app. auto.
      * destruct (IH2 _ Hin) as (l & ? & Hl). exists l. split; auto.
        intros i Hi. apply in_or_app. auto.
Qed.

(** X6: The issues of a scan are exactly those its four checks raise.  When
    [scan_anomalies] returns, every issue in its result was raised on a
    transaction that started on the date (a closed transaction with sum <= 0;
    a paid transaction whose payment parts do not add up to the amount paid;
    a transaction whose history names a move to another table), or is the
    one issue of a day whose report counts no transaction; the pair of the
    issue is in no case among the ignored ones of the date.  Conversely each
    transaction of the date that fails a check and is not ignored has its
    issue in the result, and so has the empty day. *)
Theorem X6_scan_issues_are_the_failed_checks tz d db db' issues :
  scan_anomalies tz d db = (db', Ok issues) ->
  exists existing_ignored,
    ignored_keys (List.filter (ignored_on d) (db_data_issues db)) = Ok existing_ignored /\
    (forall i, In i issues ->
       (exists tx, In tx (db_transactions db) /\ on_date tz d tx = true /\
                   raised_on tz d existing_ignored tx i) \/
       raised_on_empty_day d existing_ignored db i) /\
    (forall tx, In tx (db_transactions db) -> on_date tz d tx = true ->
       (closed_at_zero tx -> not_ignored existing_ignored "zero_or_negative_sum" tx ->
        In (zero_sum_issue d tx) issues) /\
       (parts_mismatch tx -> not_ignored existing_ignored "payment_mismatch" tx ->
        In (mismatch_issue d tx (payed_parts tx)) issues) /\
       (moved_tables tx -> not_ignored existing_ignored "table_move" tx ->
        exists i, table_move_issue tz d tx = Ok i /\ In i issues)) /\
    (forall i, raised_on_empty_day d existing_ignored db i -> In i issues).
Proof.
  rewrite scan_anomalies_eq.
  destruct (fresh_issues tz d db) as [fresh|e] eqn:E; [|discriminate].
  intros [= _ <-]. unfold fresh_issues in E. cbv zeta in E.
  apply bind_result_ok in E as (ex & Hex & E).
  apply bind_result_ok in E as (l & Hl & [= <-]).
  exists ex. split; [exact Hex|].
  destruct (txs_issues_inv _ _ _ _ _ Hl) as [Hs Hc].
  fold (current_report d db).
  split; [|split].
  - intros i Hi. apply in_app_or in Hi as [Hi|Hi].
    + left. destruct (Hs _ Hi) as (tx & here & Htx & Hhere & Hin).
      apply filter_In in Htx as [Htx Hon].
      exists tx. repeat split; auto. eapply tx_issues_sound; eauto.
    + right. destruct (current_report d db) as [r|] eqn:Er; [|destruct Hi].
      destruct (dr_transactions_count r =? 0) eqn:E0; [|destruct Hi].
      destruct (in_ignored "no_transactions" PNone ex) eqn:E1; [destruct Hi|].
      destruct Hi as [<-|[]]. split; [reflexivity|]. split; [|exact E1].
      exists r. split; auto. lia.
  - intros tx Htx Hon.
    destruct (Hc tx) as (here & Hhere & Hin).
    { apply filter_In. auto. }
    destruct (tx_issues_complete _ _ _ _ _ Hhere) as (C1 & C2 & C3).
    split; [|split].
    + intros. apply in_or_app. left. apply Hin. auto.
    + intros. apply in_or_app. left. apply Hin. auto.
    + intros Hm Hn. destruct (C3 Hm Hn) as (i & Hi & Hil).
      exists i. split; auto. apply in_or_app. left. apply Hin. auto.
  - intros i (-> & (r & Er & E0) & E1). apply in_or_app. right.
    rewrite Er, E0, E1. simpl. auto.
Qed.

Lemma X6_witness :
  exists existing_ignored,
    ignored_keys (List.filter (ignored_on demo_day) (db_data_issues triaged_db))
      = Ok existing_ignored /\
    (forall i, In i [mismatch_issue demo_day (mismatch_tx "T2") 400] ->
       (exists tx, In tx (db_transactions triaged_db) /\
                   on_date PyDate.utc demo_day tx = true /\
                   raised_on PyDate.utc demo_day existing_ignored tx i) \/
       raised_on_empty_day demo_day existing_ignored triaged_db i) /\
    (forall tx, In tx (db_transactions triaged_db) ->
       on_date PyDate.utc demo_day tx = true ->
       (closed_at_zero tx -> not_ignored existing_ignored "zero_or_negative_sum" tx ->
        In (zero_sum_issue demo_day tx) [mismatch_issue demo_day (mismatch_tx "T2") 400]) /\
       (parts_mismatch tx -> not_ignored existing_ignored "payment_mismatch" tx ->
        In (mismatch_issue demo_day tx (payed_parts tx))
          [mismatch_issue demo_day (mismatch_tx "T2") 400]) /\
       (moved_tables tx -> not_ignored existing_ignored "table_move" tx ->
        exists i, table_move_issue PyDate.utc demo_day tx = Ok i /\
                  In i [mismatch_issue demo_day (mismatch_tx "T2") 400])) /\
    (forall i, raised_on_empty_day demo_day existing_ignored triaged_db i ->
               In i [mismatch_issue demo_day (mismatch_tx "T2") 400]).
Proof.
  apply (X6_scan_issues_are_the_failed_checks PyDate.utc demo_day triaged_db
           (fst (scan_anomalies PyDate.utc demo_day triaged_db))).
  vm_compute. reflexivity.
Defined.

(** ** When a scan returns, and what it leaves when it does not *)

(** X7: A scan computes before it writes.  On stored data it can read (the
    context of each ignored issue of the date is a dict, or empty, whose
    transaction id can be hashed; each history entry of a transaction of the
    date is a dict; the sums are below 2^1023) [scan_anomalies] returns.
    When it raises instead, the tables are the ones before the call: the
    open issues of the date are deleted only after every check has run. *)
Theorem X7_scan_returns_or_leaves_the_tables tz d db :
  (scannable tz d db -> exists db' issues, scan_anomalies tz d db = (db', Ok issues)) /\
  (forall db' e, scan_anomalies tz d db = (db', Raise e) -> db' = db).
Proof.
  split.
  - apply scan_anomalies_returns.
  - intros db' e. rewrite scan_anomalies_eq.
    destruct (fresh_issues tz d db); [discriminate|]. intros [= <- _]. reflexivity.
Qed.

Lemma X7_witness :
  exists db' issues, scan_anomalies PyDate.utc demo_day triaged_db = (db', Ok issues).
Proof.
  apply (X7_scan_returns_or_leaves_the_tables PyDate.utc demo_day triaged_db).
  split.
  - intros g Hg Hon. simpl in Hg.
    destruct Hg as [<-|[<-|[<-|[]]]]; vm_compute in Hon;
      first [discriminate Hon | eexists; reflexivity].
  - intros tx Htx Hon. simpl in Htx.
    destruct Htx as [<-|[<-|[]]]; (split; [vm_compute; reflexivity|]);
      intros raw h [= <-] Hh; discriminate Hh.
Defined.

(** ** The insights of a day *)

Lemma drop_insights_length p c mk l :
  drop_insights p c mk = Ok l -> (List.length l <= 1)%nat /\ forall i, In i l -> exists pct, i = mk pct.
Proof.
  intros H. apply drop_insights_cases in H as [[-> _]|(pct & drop & -> & _)].
  - split; [simpl; lia | intros i []].
  - split; [simpl; lia | intros i [<-|[]]; eauto].
Qed.

Lemma insights_for_shape d cur prev l :
  insights_for d cur prev = Ok l ->
  (List.length l <= 3)%nat /\
  (In (no_sales_insight d) l <-> dr_transactions_count cur = 0).
Proof.
  unfold insights_for. cbv zeta. intros H.
  apply bind_result_ok in H as (rev & Hrev & H).
  apply bind_result_ok in H as (avg & Havg & [= <-]).
  assert ((List.length rev <= 1)%nat /\
          forall i, In i rev -> exists pct, i = revenue_drop_insight d pct) as [Lr Ir].
  { destruct prev; [eapply drop_insights_length, Hrev|].
    injection Hrev as <-. split; [simpl; lia | intros i []]. }
  assert ((List.length avg <= 1)%nat /\
          forall i, In i avg -> exists pct, i = avg_check_drop_insight d pct) as [La Ia].
  { destruct prev; [eapply drop_insights_length, Havg|].
    injection Havg as <-. split; [simpl; lia | intros i []]. }
  split.
  - rewrite !length_app. destruct (dr_transactions_count cur =? 0); simpl; lia.
  - split.
    + intros Hi. apply in_app_or in Hi as [Hi|Hi]; [|apply in_app_or in Hi as [Hi|Hi]].
      * destruct (Z.eqb_spec (dr_transactions_count cur) 0); [auto|destruct Hi].
      * apply Ir in Hi as (pct & Hi). discriminate Hi.
      * apply Ia in Hi as (pct & Hi). discriminate Hi.
    + intros ->. simpl. auto.
Qed.

(** X8: [generate_insights] replaces the insights of its date and nothing
    else.  Whatever the outcome, only the [Insight] table can differ after
    the call, and the insights of the other dates are unchanged.  With no
    [DailyReport] for the date the call returns 0 and writes nothing, so that
    insights stored for the date by an earlier run stay.  With a report, a
    call that raises has written nothing; a call that returns [n] has put the
    [n] insights of the date (at most three) behind those of the other dates,
    and "no sales" is among them exactly when the report counts no
    transaction. *)
Theorem X8_insights_of_a_day_replaced d db db' r :
  generate_insights d db = (db', r) ->
  db' = set_insights (fun _ => db_insights db') db /\
  other_days in_date d (db_insights db') = other_days in_date d (db_insights db) /\
  match current_report d db, r with
  | None, _ => db' = db /\ r = Ok 0
  | Some cur, Ok n =>
      db_insights db'
        = (other_days in_date d (db_insights db) ++ insights_on d db')%list /\
      n = Z.of_nat (List.length (insights_on d db')) /\ n <= 3 /\
      (In (no_sales_insight d) (insights_on d db') <-> dr_transactions_count cur = 0)
  | Some _, Raise _ => db' = db
  end.
Proof.
  unfold generate_insights, mbind, M_bind, read, lift, write, mret, M_ret.
  destruct (current_report d db) as [cur|] eqn:Ec.
  - destruct (insights_for d cur (previous_report d db)) as [l|e] eqn:E.
    + intros [= <- <-].
      destruct (insights_for_drops _ _ _ _ E) as [F _].
      destruct (insights_for_shape _ _ _ _ E) as [L N].
      assert (List.filter (fun i => in_date i =? d) l = l) as Hl.
      { apply filter_all. intros i Ii. rewrite Forall_forall in F.
        rewrite (F i); [apply Z.eqb_refl | apply list_elem_of_In, Ii]. }
      assert (other_days in_date d l = []) as Hl'.
      { apply filter_none. intros i Ii. rewrite Forall_forall in F.
        rewrite (F i); [rewrite Z.eqb_refl; reflexivity | apply list_elem_of_In, Ii]. }
      assert (insights_on d
                (set_insights (Orm.bulk_create l)
                   (set_insights (Orm.delete_rows (fun i => in_date i =? d)) db)) = l)
        as Hon.
      { unfold insights_on, Orm.bulk_create, Orm.delete_rows. simpl.
        rewrite List.filter_app, filter_filter_excluded, Hl; [reflexivity|].
        intros i ->. reflexivity. }
      rewrite Hon. split; [destruct db; reflexivity|].
      unfold other_days at 1. simpl. unfold Orm.bulk_create, Orm.delete_rows.
      rewrite List.filter_app. fold (other_days in_date d l). rewrite Hl', app_nil_r.
      rewrite filter_filter_implied by auto.
      repeat split; auto; try lia; apply N.
    + intros [= <- <-]. split; [destruct db; reflexivity|]. auto.
  - intros [= <- <-]. split; [destruct db; reflexivity|]. auto.
Qed.

Lemma X8_witness :
  db_insights (fst (generate_insights demo_day (drop_db 700)))
    = (other_days in_date demo_day (db_insights (drop_db 700))
         ++ insights_on demo_day (fst (generate_insights demo_day (drop_db 700))))%list /\
  2 = Z.of_nat (List.length
                  (insights_on demo_day (fst (generate_insights demo_day (drop_db 700))))).
Proof.
  destruct (X8_insights_of_a_day_replaced demo_day (drop_db 700)
              (fst (generate_insights demo_day (drop_db 700))) (Ok 2))
    as (_ & _ & H).
  - vm_compute. reflexivity.
  - change (current_report demo_day (drop_db 700))
      with (Some (demo_report demo_day 10 700 70)) in H.
    destruct H as (H1 & H2 & _). split; [exact H1 | exact H2].
Defined.

(** X9: The report [generate_insights] compares with is the latest one
    strictly before the date, however many days lie between the two: there
    is none exactly when no stored report is dated before the date;
    otherwise it is a stored report dated before the date and no stored
    report dated before the date is more recent. *)
Theorem X9_previous_report_is_the_latest_earlier_one d db :
  (previous_report d db = None <->
   forall r, In r (db_daily_reports db) -> d <= dr_date r) /\
  (forall p, previous_report d db = Some p ->
     In p (db_daily_reports db) /\ dr_date p < d /\
     forall r, In r (db_daily_reports db) -> dr_date r < d -> dr_date r <= dr_date p).
Proof.
  split; [|apply previous_report_latest].
  unfold previous_report, Orm.filter_rows. split.
  - intros H r Hr. destruct (Z.ltb_spec (dr_date r) d) as [L|]; [|lia].
    assert (In r (List.filter (fun r => dr_date r <? d) (db_daily_reports db))) as Hin.
    { apply filter_In. split; auto. apply Z.ltb_lt, L. }
    destruct (List.filter _ _) as [|r0 l]; [destruct Hin|].
    simpl in H. destruct (Orm.first_desc dr_date l); [destruct (_ <? _)|]; discriminate.
  - intros H.
    destruct (Orm.first_desc dr_date _) as [p|] eqn:E; [|reflexivity].
    apply first_desc_max in E as [Hin _]. apply filter_In in Hin as [Hin L].
    apply Z.ltb_lt in L. specialize (H p Hin). lia.
Qed.

(** ** Totals of the summary computed from the transactions *)

Lemma total_of_insert f k v (m : gmap string SpotSummary) :
  total_of f (<[k:=v]> m) = f v + total_of f (delete k m).
Proof.
  rewrite <- insert_delete_eq. unfold total_of.
  apply (map_fold_insert_L (fun _ item acc => f item + acc)).
  - intros; lia.
  - apply lookup_delete_eq.
Qed.

Lemma total_of_delete f k (m : gmap string SpotSummary) :
  total_of f m
  = match m !! k with Some v => f v | None => 0 end + total_of f (delete k m).
Proof.
  destruct (m !! k) as [v|] eqn:E.
  - unfold total_of. apply (map_fold_delete_L (fun _ item acc => f item + acc)); auto.
    intros; lia.
  - rewrite delete_id by auto. lia.
Qed.

Lemma add_transaction_totals m tx :
  total_of ss_transactions (add_transaction m tx) = total_of ss_transactions m + 1 /\
  total_of ss_revenue (add_transaction m tx) = total_of ss_revenue m + tx_sum tx /\
  total_of ss_returns (add_transaction m tx)
    = total_of ss_returns m + (if is_return tx then 1 else 0) /\
  total_of ss_returns_sum (add_transaction m tx)
    = total_of ss_returns_sum m + (if is_return tx then tx_sum tx else 0).
Proof.
  unfold add_transaction. cbv zeta.
  rewrite !total_of_insert.
  rewrite (total_of_delete ss_transactions (spot_key tx) m),
    (total_of_delete ss_revenue (spot_key tx) m),
    (total_of_delete ss_returns (spot_key tx) m),
    (total_of_delete ss_returns_sum (spot_key tx) m).
  destruct (m !! spot_key tx) as [v|]; simpl; destruct (is_return tx); simpl;
    repeat split; lia.
Qed.

Lemma fold_add_transaction_totals txs m :
  total_of ss_transactions (fold_left add_transaction txs m)
    = total_of ss_transactions m + Z.of_nat (List.length txs) /\
  total_of ss_revenue (fold_left add_transaction txs m)
    = total_of ss_revenue m + sum_Z (map tx_sum txs) /\
  total_of ss_returns (fold_left add_transaction txs m)
    = total_of ss_returns m + Z.of_nat (List.length (List.filter is_return txs)) /\
  total_of ss_returns_sum (fold_left add_transaction txs m)
    = total_of ss_returns_sum m + sum_Z (map tx_sum (List.filter is_return txs)).
Proof.
  revert m. induction txs as [|tx txs IH]; intros m.
  - simpl. repeat split; lia.
  - change (fold_left add_transaction (tx :: txs) m)
      with (fold_left add_transaction txs (add_transaction m tx)).
    destruct (IH (add_transaction m tx)) as (-> & -> & -> & ->).
    destruct (add_transaction_totals m tx) as (-> & -> & -> & ->).
    cbn [List.filter]. destruct (is_return tx); cbn [map List.length];
      change (sum_Z (?x :: ?l)) with (x + sum_Z l); repeat split; lia.
Qed.

(** X10: The summary computed from the transactions loses and invents
    nothing.  When the stored spots-sales report gives no row per spot,
    the entries of [daily_summary_by_spot] add up, over the spots, to the
    transactions that started on the date: as many transactions, the sum of
    their sums, as many returns (status 3 or negative sum) and the sum of the
    sums of the returns. *)
Theorem X10_fallback_summary_adds_up tz d db :
  no_official_rows d db ->
  exists summary,
    daily_summary_by_spot tz d db = Ok summary /\
    total_of ss_transactions summary
      = Z.of_nat (List.length (day_transactions tz d db)) /\
    total_of ss_revenue summary = sum_Z (map tx_sum (day_transactions tz d db)) /\
    total_of ss_returns summary
      = Z.of_nat (List.length (List.filter is_return (day_transactions tz d db))) /\
    total_of ss_returns_sum summary
      = sum_Z (map tx_sum (List.filter is_return (day_transactions tz d db))).
Proof.
  intros H. exists (fallback_summary tz d db).
  split; [apply daily_summary_fallback, H|].
  unfold fallback_summary, Orm.filter_rows. fold (day_transactions tz d db).
  destruct (fold_add_transaction_totals (day_transactions tz d db) ∅)
    as (-> & -> & -> & ->).
  unfold total_of. rewrite map_fold_empty. repeat split; lia.
Qed.

Lemma X10_witness :
  exists summary,
    daily_summary_by_spot PyDate.utc demo_day returns_db = Ok summary /\
    total_of ss_transactions summary
      = Z.of_nat (List.length (day_transactions PyDate.utc demo_day returns_db)) /\
    total_of ss_revenue summary
      = sum_Z (map tx_sum (day_transactions PyDate.utc demo_day returns_db)) /\
    total_of ss_returns summary
      = Z.of_nat (List.length
                    (List.filter is_return
                       (day_transactions PyDate.utc demo_day returns_db))) /\
    total_of ss_returns_sum summary
      = sum_Z (map tx_sum (List.filter is_return
                             (day_transactions PyDate.utc demo_day returns_db))).
Proof.
  apply (X10_fallback_summary_adds_up PyDate.utc demo_day returns_db).
  exact I.
Defined.

(** ** The keys of a summary *)

Lemma official_rows_no_empty_key rows (m m' : gmap string SpotSummary) :
  official_rows m rows = Ok m' -> m !! "" = None -> m' !! "" = None.
Proof.
  revert m. induction rows as [|row rows IH]; simpl; intros m H Hm.
  - injection H as <-. exact Hm.
  - apply bind_result_ok in H as (m1 & H1 & H). apply (IH _ H).
    unfold official_row in H1. destruct row; try (injection H1 as <-; exact Hm).
    destruct (PyStr.nonempty _) eqn:En; simpl in H1; [|injection H1 as <-; exact Hm].
    apply bind_result_ok in H1 as (a & _ & H1).
    apply bind_result_ok in H1 as (b & _ & H1).
    apply bind_result_ok in H1 as (c & _ & H1).
    apply bind_result_ok in H1 as (e & _ & [= <-]).
    apply nonempty_spec in En. rewrite lookup_insert_ne; auto.
Qed.

Lemma spot_key_nonempty tx : spot_key tx <> "".
Proof.
  unfold spot_key. destruct (PyStr.nonempty (tx_spot_id tx)) eqn:E.
  - apply nonempty_spec, E.
  - discriminate.
Qed.

Lemma fallback_no_empty_key tz d db : fallback_summary tz d db !! "" = None.
Proof.
  rewrite fallback_summary_lookup. unfold spot_transactions.
  rewrite filter_none; [reflexivity|].
  intros tx _. apply String.eqb_neq, spot_key_nonempty.
Qed.

(** X11: A summary by spot never mixes its two sources and never has an
    empty key.  Whatever [daily_summary_by_spot] returns is either the
    summary computed from the transactions of the date, or the non-empty
    summary read from the stored spots-sales report of the date, and then no
    transaction is looked at; in both cases no entry is filed under the empty
    spot id (rows of the report without an id are skipped, transactions
    without one are filed under "unknown"). *)
Theorem X11_summary_sources tz d db summary :
  daily_summary_by_spot tz d db = Ok summary ->
  summary !! "" = None /\
  (summary = fallback_summary tz d db \/
   exists raw,
     stored_spots_report d db = Some {| rr_date := d; rr_raw := PDict raw |} /\
     official_summary raw = Ok summary /\ summary <> ∅ /\
     forall db2, db_spots_sales_reports db2 = db_spots_sales_reports db ->
                 daily_summary_by_spot tz d db2 = Ok summary).
Proof.
  unfold daily_summary_by_spot.
  destruct (stored_spots_report d db) as [[date raw]|] eqn:Es;
    [|intros [= <-]; split; [apply fallback_no_empty_key|auto]].
  destruct raw as [| | | | | |raw];
    try (intros [= <-]; split; [apply fallback_no_empty_key|auto]).
  intros H. apply bind_result_ok in H as (s & Hs & H).
  destruct (bool_decide (s = ∅)) eqn:Ee.
  - injection H as <-. split; [apply fallback_no_empty_key|auto].
  - injection H as <-. apply bool_decide_eq_false in Ee. split.
    + unfold official_summary in Hs. cbv zeta in Hs.
      apply bind_result_ok in Hs as (elems & _ & Hs).
      apply (official_rows_no_empty_key _ _ _ Hs). apply lookup_empty.
    + right. exists raw.
      assert (date = d) as ->.
      { unfold stored_spots_report, Orm.first, Orm.filter_rows in Es.
        destruct (List.filter _ _) as [|r0 l] eqn:Ef; [discriminate|].
        injection Es as ->.
        assert (In {| rr_date := date; rr_raw := PDict raw |}
                  (List.filter (fun r => rr_date r =? d) (db_spots_sales_reports db)))
          as Hin by (rewrite Ef; simpl; auto).
        apply filter_In in Hin as [_ Hd]. simpl in Hd. lia. }
      repeat split; auto.
      intros db2 E2. unfold stored_spots_report in *. rewrite E2, Es.
      rewrite Hs. simpl. rewrite bool_decide_eq_false_2; auto.
Qed.

Lemma X11_witness :
  (official_db_summary : gmap string SpotSummary) !! "" = None /\
  (official_db_summary = fallback_summary PyDate.utc demo_day official_db \/
   exists raw,
     stored_spots_report demo_day official_db
       = Some {| rr_date := demo_day; rr_raw := PDict raw |} /\
     official_summary raw = Ok official_db_summary /\ official_db_summary <> ∅ /\
     forall db2, db_spots_sales_reports db2 = db_spots_sales_reports official_db ->
                 daily_summary_by_spot PyDate.utc demo_day db2 = Ok official_db_summary).
Proof.
  apply (X11_summary_sources PyDate.utc demo_day official_db).
  vm_compute. reflexivity.
Defined.

(** ** The name of a spot *)

Lemma first_spot_update_or_create id r tbl :
  Orm.first (Orm.filter_rows (fun s => String.eqb (sp_spot_id s) id)
               (Orm.update_or_create sp_spot_id r tbl))
  = if String.eqb (sp_spot_id r) id then Some r
    else Orm.first (Orm.filter_rows (fun s => String.eqb (sp_spot_id s) id) tbl).
Proof.
  unfold Orm.first, Orm.filter_rows. induction tbl as [|r0 tbl IH]; simpl.
  - destruct (String.eqb (sp_spot_id r) id); reflexivity.
  - destruct (decide (sp_spot_id r0 = sp_spot_id r)) as [E|N]; simpl.
    + rewrite E. destruct (String.eqb (sp_spot_id r) id); reflexivity.
    + destruct (String.eqb (sp_spot_id r0) id) eqn:E0; simpl.
      * apply String.eqb_eq in E0.
        destruct (String.eqb_spec (sp_spot_id r) id); [congruence|reflexivity].
      * exact IH.
Qed.

Lemma sync_spot_name row db db' id :
  sync_spot row db = (db', Ok tt) -> id <> "" ->
  get_spot_name id db'
  = default (get_spot_name id db) (listed_name [row] id).
Proof.
  unfold sync_spot. intros H Hid.
  apply bind_ok in H as (sid & db1 & [-> Esid]%lift_inv & H).
  apply bind_ok in H as (name & db1 & [-> Ename]%lift_inv & H).
  simpl. rewrite Esid, Ename.
  unfold get_spot_name. apply nonempty_spec in Hid. rewrite Hid. simpl.
  destruct (PyStr.nonempty sid) eqn:Es; simpl in H.
  - destruct (PyStr.nonempty name) eqn:En.
    + apply write_inv in H as [-> _]. simpl. rewrite first_spot_update_or_create. simpl.
      rewrite andb_true_r. destruct (String.eqb sid id); reflexivity.
    + apply ret_inv in H as [-> _]. rewrite andb_false_r. reflexivity.
  - apply ret_inv in H as [-> _].
    destruct (String.eqb_spec sid id) as [->|]; [congruence|]. reflexivity.
Qed.

Lemma sync_spots_names rows db db' id :
  for_each rows sync_spot db = (db', Ok tt) -> id <> "" ->
  get_spot_name id db' = default (get_spot_name id db) (listed_name rows id).
Proof.
  revert db. induction rows as [|row rows IH]; intros db H Hid.
  - apply ret_inv in H as [-> _]. reflexivity.
  - simpl in H. apply bind_ok in H as ([] & db1 & H1 & H).
    rewrite (IH _ H Hid). cbn [listed_name].
    destruct (listed_name rows id) as [n|]; [reflexivity|]. simpl.
    rewrite (sync_spot_name _ _ _ _ H1 Hid). reflexivity.
Qed.

Lemma quietM_sync_spot row : quietM (sync_spot row).
Proof.
  unfold sync_spot.
  apply quietM_bind; [apply quietM_lift, quiet_str_field|]. intros id.
  apply quietM_bind; [apply quietM_lift, quiet_str_field|]. intros name.
  apply quietM_if; [apply quietM_write|apply quietM_ret].
Qed.

(** X12: The names [get_spot_name] gives are those of the last spots list
    synchronised.  When the block "Sync spots list" of [import_daily] has run
    over a list of rows, the name of a non-empty spot id is the name of the
    last row of the list that has this id and a non-empty name; for an id the
    list does not name it is what it was before.  The empty id is always
    "Неизвестная точка", and an id with no stored spot is "Точка " followed
    by the id. *)
Theorem X12_spot_names_follow_the_spots_list get kvs rows db db' id :
  get "spots.getSpots" None = Ok (PDict kvs) ->
  Py.lookup_default kvs "response" PNone = PList rows ->
  sync_spots_list get db = (db', Ok tt) ->
  get_spot_name "" db' = "Неизвестная точка" /\
  (id <> "" ->
   get_spot_name id db' = default (get_spot_name id db) (listed_name rows id)) /\
  (id <> "" -> (forall s, In s (db_spots db') -> sp_spot_id s <> id) ->
   get_spot_name id db' = ("Точка " ++ id)%string).
Proof.
  intros Hget Hresp H. split; [reflexivity|]. split.
  - intros Hid. unfold sync_spots_list, try_except in H.
    unfold mbind at 1, M_bind at 1, lift at 1 in H. rewrite Hget in H.
    rewrite Hresp in H.
    destruct (for_each rows sync_spot db) as [db1 [[]|e]] eqn:E.
    + injection H as <-. eapply sync_spots_names; eauto.
    + rewrite (quietM_for_each _ _ quietM_sync_spot _ _ _ E) in H. discriminate.
  - intros Hid Hno. unfold get_spot_name. apply nonempty_spec in Hid. rewrite Hid. simpl.
    unfold Orm.first, Orm.filter_rows. rewrite filter_none; [reflexivity|].
    intros s Hs. apply String.eqb_neq, Hno, Hs.
Qed.

Lemma X12_witness :
  get_spot_name "" (fst (sync_spots_list spots_answer later_db)) = "Неизвестная точка" /\
  ("5" <> "" ->
   get_spot_name "5" (fst (sync_spots_list spots_answer later_db))
   = default (get_spot_name "5" later_db) (listed_name spots_rows "5")) /\
  ("5" <> "" ->
   (forall s, In s (db_spots (fst (sync_spots_list spots_answer later_db))) ->
              sp_spot_id s <> "5") ->
   get_spot_name "5" (fst (sync_spots_list spots_answer later_db)) = "Точка 5").
Proof.
  apply (X12_spot_names_follow_the_spots_list spots_answer
           [("response", PList spots_rows)] spots_rows later_db).
  - reflexivity.
  - reflexivity.
  - vm_compute. reflexivity.
Defined.

Example spot_names_after_sync :
  map (fun id => get_spot_name id (fst (sync_spots_list spots_answer later_db)))
    ["5"; "6"; "7"; ""]
  = ["Terrace"; "Hall"; "Точка 7"; "Неизвестная точка"].
Proof. vm_compute. reflexivity. Qed.

(** ** [_safe_int] *)

(** X13: [_safe_int] returns an integer for every JSON value but an infinite
    float.  It gives [int(value)] where that is defined and 0 where [int]
    raises [TypeError] or [ValueError] ([None], a list, a dict, a string that
    is not an integer literal, a NaN); on an infinite float, which the
    handler does not cover, [OverflowError] escapes. *)
Theorem X13_safe_int_total_but_for_infinity v :
  (exists z, _safe_int v = Ok z /\
             (Py.int v = Ok z \/ z = 0 /\ exists e, Py.int v = Raise e)) \/
  (exists neg, v = PFloat (PyFloat.FInf neg) /\ _safe_int v = Raise OverflowError).
Proof.
  unfold _safe_int, catch.
  destruct v as [|b|z|x|s|l|kvs]; simpl;
    try (left; eexists; split; [reflexivity|]; eauto; fail).
  - destruct x as [|neg|m e]; simpl.
    + left. exists 0. split; [reflexivity|]. right. eauto.
    + right. exists neg. auto.
    + left. eexists. split; [reflexivity|]. auto.
  - destruct (PyStr.parse_int s) as [z|]; simpl.
    + left. exists z. auto.
    + left. exists 0. split; [reflexivity|]. right. eauto.
Qed.

(** ** Where a request carries the token *)

Lemma lookup_setitem_eq kvs k v dflt :
  Py.lookup_default (Py.setitem kvs k v) k dflt = v.
Proof.
  induction kvs as [|[k' v'] kvs IH]; simpl.
  - rewrite String.eqb_refl. reflexivity.
  - destruct (String.eqb k' k) eqn:E; simpl.
    + rewrite String.eqb_refl. reflexivity.
    + rewrite E. exact IH.
Qed.

Lemma lookup_setitem_ne kvs k v k0 dflt :
  k0 <> k ->
  Py.lookup_default (Py.setitem kvs k v) k0 dflt = Py.lookup_default kvs k0 dflt.
Proof.
  intros N. induction kvs as [|[k' v'] kvs IH]; simpl.
  - destruct (String.eqb_spec k k0); [congruence|reflexivity].
  - destruct (String.eqb_spec k' k) as [->|N']; simpl.
    + destruct (String.eqb_spec k k0); [congruence|reflexivity].
    + destruct (String.eqb k' k0); [reflexivity|exact IH].
Qed.

(** X14: A request carries the token in exactly one place.  In the call
    handed to [requests.request] the token is either one query parameter,
    ["token"] or ["access_token"] by the auth style, set over a parameter of
    that name the caller may have passed, every other parameter of the caller
    being passed on as it was and no header being sent; or it is the header
    [Authorization: Bearer <token>], the only header, and the parameters are
    the caller's. *)
Theorem X14_token_in_one_place self method path params json_body form_body rq :
  PosterClient.prepare self method path params json_body form_body = Ok rq ->
  (exists name,
     (name = "token" /\ PosterClient.auth_style self = "query_token" \/
      name = "access_token" /\ PosterClient.auth_style self = "query_access_token") /\
     Py.lookup_default (rq_params rq) name PNone = PStr (PosterClient.token self) /\
     (forall k dflt, k <> name ->
        Py.lookup_default (rq_params rq) k dflt
        = Py.lookup_default (default [] params) k dflt) /\
     rq_headers rq = []) \/
  (PosterClient.auth_style self = "bearer" /\
   rq_params rq = default [] params /\
   rq_headers rq
   = [("Authorization", PStr ("Bearer " ++ PosterClient.token self)%string)]).
Proof.
  unfold PosterClient.prepare, PosterClient._apply_auth. cbv zeta.
  destruct (String.eqb_spec (PosterClient.auth_style self) "query_token") as [E1|N1].
  { simpl. intros [= <-]. left. exists "token". simpl.
    split; [auto|]. split; [apply lookup_setitem_eq|].
    split; [|reflexivity]. intros; apply lookup_setitem_ne; auto. }
  destruct (String.eqb_spec (PosterClient.auth_style self) "query_access_token")
    as [E2|N2].
  { simpl. intros [= <-]. left. exists "access_token". simpl.
    split; [auto|]. split; [apply lookup_setitem_eq|].
    split; [|reflexivity]. intros; apply lookup_setitem_ne; auto. }
  destruct (String.eqb_spec (PosterClient.auth_style self) "bearer") as [E3|N3].
  { simpl. intros [= <-]. right. simpl. auto. }
  discriminate.
Qed.

Lemma X14_witness :
  (exists name,
     (name = "token" /\ PosterClient.auth_style demo_client = "query_token" \/
      name = "access_token" /\
      PosterClient.auth_style demo_client = "query_access_token") /\
     Py.lookup_default (rq_params token_request) name PNone
       = PStr (PosterClient.token demo_client) /\
     (forall k dflt, k <> name ->
        Py.lookup_default (rq_params token_request) k dflt
        = Py.lookup_default
            (default [] (Some [("token", PStr "mine"); ("dateFrom", PStr "20231114")]))
            k dflt) /\
     rq_headers token_request = []) \/
  (PosterClient.auth_style demo_client = "bearer" /\
   rq_params token_request
     = default [] (Some [("token", PStr "mine"); ("dateFrom", PStr "20231114")]) /\
   rq_headers token_request
   = [("Authorization", PStr ("Bearer " ++ PosterClient.token demo_client)%string)]).
Proof.
  apply (X14_token_in_one_place demo_client "get" "/dash.getTransactions"
           (Some [("token", PStr "mine"); ("dateFrom", PStr "20231114")]) None None).
  reflexivity.
Defined.

(** ** The URL of a request *)

Lemma take_drop_while p l : (PyStr.take_while p l ++ PyStr.drop_while p l)%list = l.
Proof.
  induction l as [|c l IH]; simpl; [reflexivity|].
  destruct (p c); simpl; [rewrite IH|]; reflexivity.
Qed.

Lemma drop_while_head p l c l' : PyStr.drop_while p l = c :: l' -> p c = false.
Proof.
  induction l as [|c0 l IH]; simpl; [discriminate|].
  destruct (p c0) eqn:E; [exact IH|]. intros [= <- _]. exact E.
Qed.

Lemma is_slash_spec c : PyStr.is_slash c = true -> c = "/"%char.
Proof.
  unfold PyStr.is_slash, PyStr.code. intros H. apply Z.eqb_eq in H.
  rewrite <- (ascii_N_embedding c).
  replace (N_of_ascii c) with 47%N by lia. reflexivity.
Qed.

Lemma take_while_slashes l :
  exists n, PyStr.take_while PyStr.is_slash l = PyStr.repeat_char "/"%char n.
Proof.
  induction l as [|c l [n IH]]; simpl; [exists O; reflexivity|].
  destruct (PyStr.is_slash c) eqn:E; [|exists O; reflexivity].
  exists (S n). simpl. rewrite IH, (is_slash_spec _ E). reflexivity.
Qed.

Lemma rev_repeat_char c n : rev (PyStr.repeat_char c n) = PyStr.repeat_char c n.
Proof.
  induction n as [|n IH]; simpl; [reflexivity|]. rewrite IH.
  clear IH. induction n as [|n IH]; simpl; [reflexivity|]. rewrite IH. reflexivity.
Qed.

Lemma of_chars_app a b :
  PyStr.of_chars (a ++ b) = (PyStr.of_chars a ++ PyStr.of_chars b)%string.
Proof. induction a as [|c a IH]; simpl; [reflexivity|]. rewrite IH. reflexivity. Qed.

Lemma chars_app a b : PyStr.chars (a ++ b)%string = (PyStr.chars a ++ PyStr.chars b)%list.
Proof.
  induction a as [|c a IH]; [reflexivity|].
  change (PyStr.chars (String c a ++ b)) with (c :: PyStr.chars (a ++ b)).
  rewrite IH. reflexivity.
Qed.

Lemma rstrip_slash_spec s :
  exists n, s = (PyStr.rstrip_slash s ++ slashes n)%string /\
            no_trailing_slash (PyStr.rstrip_slash s).
Proof.
  unfold PyStr.rstrip_slash, PyStr.rstrip_chars, slashes.
  destruct (take_while_slashes (rev (PyStr.chars s))) as [n Hn]. exists n. split.
  - rewrite <- of_chars_app, <- (rev_repeat_char _ n), <- Hn, <- rev_app_distr,
      take_drop_while, rev_involutive.
    symmetry. apply string_of_list_ascii_of_string.
  - intros s' E. apply (f_equal PyStr.chars) in E.
    unfold PyStr.chars, PyStr.of_chars in E.
    rewrite list_ascii_of_string_of_list_ascii in E.
    fold (PyStr.chars (s' ++ "/")) in E. rewrite chars_app in E.
    apply (f_equal (@rev ascii)) in E. rewrite rev_involutive, rev_app_distr in E.
    simpl in E. apply drop_while_head in E. discriminate E.
Qed.

Lemma lstrip_slash_spec s :
  exists n, s = (slashes n ++ PyStr.lstrip_slash s)%string /\
            no_leading_slash (PyStr.lstrip_slash s).
Proof.
  unfold PyStr.lstrip_slash, PyStr.lstrip_chars, slashes.
  destruct (take_while_slashes (PyStr.chars s)) as [n Hn]. exists n. split.
  - rewrite <- of_chars_app, <- Hn, take_drop_while.
    symmetry. apply string_of_list_ascii_of_string.
  - intros s' E. apply (f_equal PyStr.chars) in E.
    unfold PyStr.chars, PyStr.of_chars in E.
    rewrite list_ascii_of_string_of_list_ascii in E.
    simpl in E. apply drop_while_head in E. discriminate E.
Qed.

(** X15: The URL of a request joins base and path by one slash.  It is the
    base URL without its trailing slashes, a slash, and the path without its
    leading slashes: however many slashes the two carry where they meet,
    exactly one is sent. *)
Theorem X15_url_joined_by_one_slash self method path params json_body form_body rq :
  PosterClient.prepare self method path params json_body form_body = Ok rq ->
  exists base rest n m,
    rq_url rq = (base ++ "/" ++ rest)%string /\
    PosterClient.base_url self = (base ++ slashes n)%string /\
    path = (slashes m ++ rest)%string /\
    no_trailing_slash base /\ no_leading_slash rest.
Proof.
  unfold PosterClient.prepare. cbv zeta. intros H.
  apply bind_result_ok in H as ([ps hs] & _ & [= <-]). simpl.
  destruct (rstrip_slash_spec (PosterClient.base_url self)) as (n & Hb & Nb).
  destruct (lstrip_slash_spec path) as (m & Hp & Np).
  exists (PyStr.rstrip_slash (PosterClient.base_url self)), (PyStr.lstrip_slash path),
    n, m.
  auto.
Qed.

Lemma X15_witness :
  exists base rest n m,
    rq_url token_request = (base ++ "/" ++ rest)%string /\
    PosterClient.base_url demo_client = (base ++ slashes n)%string /\
    "//dash.getTransactions" = (slashes m ++ rest)%string /\
    no_trailing_slash base /\ no_leading_slash rest.
Proof.
  apply (X15_url_joined_by_one_slash demo_client "get" "//dash.getTransactions"
           (Some [("token", PStr "mine"); ("dateFrom", PStr "20231114")]) None None).
  reflexivity.
Defined.

(** ** Amounts printed with two decimals *)

Section Printing.
Import PyFloat.

Lemma rne_close p q j : 0 < q -> 2 * Z.abs (p - j * q) < q -> rne p q = j.
Proof.
  intros Hq H.
  pose proof (Z.div_mod p q ltac:(lia)) as D.
  pose proof (Z.mod_pos_bound p q Hq) as B.
  destruct (rne_cases p q Hq) as [(-> & H1 & _)|(-> & H1 & _)]; nia.
Qed.

(** a quotient within a quarter of an integer rounds to it, also after it
    was rounded to a float first *)
Lemma round_round_q_near N D t E :
  0 < N -> 0 < D -> 0 <= t < 2 ^ 51 -> Z.abs (N - t * D) <= E -> 4 * E < D ->
  round (round_q N D) = Ok t.
Proof.
  intros HN HD Ht HE H4.
  unfold round_q. replace (N =? 0) with false by (symmetry; apply Z.eqb_neq; lia).
  replace (Z.abs N) with N by lia. replace (Z.sgn N) with 1 by lia.
  destruct (round_pos N D) as [m2 e2] eqn:E2.
  destruct (round_pos_mantissa N D m2 e2 HN HD E2) as (Ee2 & Hm2 & _).
  assert (2 ^ 51 < 2 ^ 52) as P52 by (apply Z.pow_lt_mono_r; lia).
  assert (flog2 N D < 52) as Hf2.
  { apply (binade_bound N D _ 52); first [lia | apply flog2_spec; lia | nia]. }
  assert (-1074 <= e2 <= -1) as He2 by (unfold fexp in Ee2; lia).
  assert (overflows m2 e2 = false) as Ho2.
  { pose proof (pow2_gt0 (- e2) ltac:(lia)).
    assert (2 ^ 53 < 2 ^ 54) by (apply Z.pow_lt_mono_r; lia).
    apply (no_overflow_below m2 e2 54); first [lia | nia]. }
  rewrite Ho2, Z.mul_1_l.
  assert (m2 = rne (N * 2 ^ (- e2)) D) as Em2.
  { unfold round_pos in E2. injection E2 as E3 E4. rewrite E4 in E3.
    destruct (max0_neg e2 ltac:(lia)) as [M3 M4]. rewrite M3, M4 in E3.
    rewrite Z.mul_1_r in E3. auto. }
  pose proof (rne_near (N * 2 ^ (- e2)) D HD) as Near2.
  rewrite <- Em2 in Near2.
  assert (2 ^ 1 <= 2 ^ (- e2)) as Hp2 by (apply pow2_mono; lia).
  change (2 ^ 1) with 2 in Hp2.
  set (P := 2 ^ (- e2)) in *.
  assert (rne m2 P = t) as Hc2.
  { apply rne_close; [lia|].
    assert (2 * Z.abs (m2 * D - N * P) <= D) as A by lia.
    assert (2 * Z.abs (m2 * D - t * P * D) <= D + 2 * E * P) as C.
    { replace (m2 * D - t * P * D) with ((m2 * D - N * P) + P * (N - t * D)) by ring.
      pose proof (Z.abs_triangle (m2 * D - N * P) (P * (N - t * D))) as T.
      rewrite (Z.abs_mul P) in T. rewrite (Z.abs_eq P) in T by lia. nia. }
    assert (D + 2 * E * P < P * D) as L by nia.
    replace (m2 * D - t * P * D) with ((m2 - t * P) * D) in C by ring.
    rewrite Z.abs_mul, (Z.abs_eq D) in C by lia. nia. }
  unfold round. replace (0 <=? e2) with false by (symmetry; apply Z.leb_gt; lia).
  f_equal. destruct (Z.eq_dec m2 0) as [->|N0].
  - pose proof (rne_exact 0 P ltac:(lia)) as R0. rewrite Z.mul_0_l in R0.
    rewrite R0 in Hc2. rewrite <- Hc2. reflexivity.
  - replace (Z.sgn m2) with 1 by lia. replace (Z.abs m2) with m2 by lia.
    fold P. lia.
Qed.

Lemma truediv_100_format r :
  Z.abs r < 2 ^ 52 ->
  exists x, truediv r 100 = Ok x /\
    format_2f x
    = ((if (r <? 0)%Z then "-" else "") ++ PyStr.of_Z (Z.abs r / 100)%Z ++ "."
         ++ PyStr.zero_padded 2 (Z.abs r mod 100)%Z)%string.
Proof.
  intros Hr. unfold truediv. change (100 =? 0) with false. cbv iota.
  change (Z.sgn 100) with 1. change (Z.abs 100) with 100. rewrite Z.mul_1_r.
  unfold round_q. destruct (Z.eqb_spec r 0) as [->|Hn].
  { eexists. split; [reflexivity|]. reflexivity. }
  destruct (round_pos (Z.abs r) 100) as [m e] eqn:E.
  assert (0 < Z.abs r < 2 ^ 53) as Ha.
  { split; [lia|]. assert (2 ^ 52 < 2 ^ 53) by (apply Z.pow_lt_mono_r; lia). lia. }
  destruct (round_pos_floor (Z.abs r) 100 m e Ha ltac:(lia) E) as [He Hm].
  destruct (round_pos_mantissa (Z.abs r) 100 m e ltac:(lia) ltac:(lia) E) as (Ee & _ & _).
  assert (flog2 (Z.abs r) 100 < 46) as Hf.
  { assert (2 ^ 52 = 2 ^ 46 * 64) by reflexivity.
    apply (binade_bound (Z.abs r) 100 _ 46); try lia. apply flog2_spec; lia. }
  assert (e <= -7) as He7 by (unfold fexp in Ee; lia).
  assert (overflows m e = false) as Ho.
  { apply (no_overflow_below m e 52); try lia.
    assert (0 <= Z.abs r / 100 < 2 ^ 52).
    { split; [apply Z.div_pos; lia|].
      apply Z.div_lt_upper_bound; [lia|]. lia. }
    pose proof (pow2_gt0 (- e) ltac:(lia)). nia. }
  rewrite Ho. eexists. split; [reflexivity|].
  (* the mantissa is within 50 of [|r| * 2^-e / 100] *)
  assert (m = rne (Z.abs r * 2 ^ (- e)) 100) as Em.
  { unfold round_pos in E. injection E as E1 E2. rewrite E2 in E1.
    destruct (max0_neg e ltac:(lia)) as [M1 M2]. rewrite M1, M2 in E1.
    rewrite Z.mul_1_r in E1. auto. }
  pose proof (rne_near (Z.abs r * 2 ^ (- e)) 100 ltac:(lia)) as Near.
  rewrite <- Em in Near.
  assert (2 ^ 7 <= 2 ^ (- e)) as Hp by (apply pow2_mono; lia).
  change (2 ^ 7) with 128 in Hp.
  assert (0 < m) as Hm0 by nia.
  assert (rne (m * 100) (2 ^ (- e)) = Z.abs r) as Hc.
  { apply rne_close; [lia|]. nia. }
  unfold format_2f. cbv zeta.
  destruct (max0_neg e ltac:(lia)) as [M1 M2]. rewrite M1, M2.
  change (2 ^ 0) with 1. rewrite Z.mul_1_r.
  replace (Z.abs (Z.sgn r * m)) with m by nia.
  rewrite Hc.
  replace (Z.sgn r * m <? 0) with (r <? 0); [reflexivity|].
  destruct (Z.ltb_spec r 0), (Z.ltb_spec (Z.sgn r * m) 0); auto; nia.
Qed.

End Printing.

Lemma string_app_assoc (a b c : string) : ((a ++ b) ++ c = a ++ (b ++ c))%string.
Proof.
  induction a as [|x a IH]; [reflexivity|].
  change (String x (((a ++ b) ++ c)%string) = String x (a ++ (b ++ c))%string).
  rewrite IH. reflexivity.
Qed.

(** X16: Amounts below 2^52 cents are printed to the cent.  The text
    [f"{tx.sum/100:.2f}"] that [scan_anomalies] puts into the message of a
    table-move issue (and the report texts use for every amount) is the sign,
    the whole units and the two digits of the cents of the amount: the float
    division and the rounding to two decimals lose nothing, and the message
    of the issue ends with that text and the currency sign. *)
Theorem X16_cents_print_exactly tz d tx :
  Z.abs (tx_sum tx) < 2 ^ 52 ->
  (exists x, PyFloat.truediv (tx_sum tx) 100 = Ok x /\
             format_2f x = cents_text (tx_sum tx)) /\
  exists i lead,
    table_move_issue tz d tx = Ok i /\
    di_message i = (lead ++ ", сумма " ++ cents_text (tx_sum tx) ++ " €")%string.
Proof.
  intros H. destruct (truediv_100_format (tx_sum tx) H) as (x & Hx & Hf).
  split; [exists x; split; [exact Hx | exact Hf]|].
  unfold table_move_issue. cbv zeta. rewrite Hx. cbn [mbind result_bind].
  eexists. eexists. split; [reflexivity|]. cbn [di_message].
  lazymatch goal with
  | |- (?a ++ ?b ++ ?c ++ ?e ++ ?f ++ ?g ++ ?rest)%string = (?l ++ _)%string =>
      unify l (a ++ b ++ c ++ e ++ f ++ g)%string
  end.
  rewrite !string_app_assoc, Hf. reflexivity.
Qed.

Lemma X16_witness :
  (exists x, PyFloat.truediv (-123405) 100 = Ok x /\
             format_2f x = cents_text (-123405)) /\
  exists i lead,
    table_move_issue PyDate.utc demo_day (demo_transaction "1" "5" 2 (-123405)) = Ok i /\
    di_message i = (lead ++ ", сумма " ++ cents_text (-123405) ++ " €")%string.
Proof.
  apply (X16_cents_print_exactly PyDate.utc demo_day
           (demo_transaction "1" "5" 2 (-123405))).
  vm_compute. reflexivity.
Defined.

Example cents_printed :
  (x ← PyFloat.truediv (-123405) 100; Ok (format_2f x)) = Ok "-1234.05" /\
  (x ← PyFloat.truediv 7 100; Ok (format_2f x)) = Ok "0.07" /\
  (x ← PyFloat.truediv 14500 100; Ok (format_2f x)) = Ok "145.00".
Proof. repeat split; vm_compute; reflexivity. Qed.

(** ** The text of a custom report *)

Lemma money_exact cents :
  Z.abs cents < 2 ^ 52 -> money cents = Ok (cents_text cents ++ " €")%string.
Proof.
  intros H. destruct (truediv_100_format cents H) as (x & Hx & Hf).
  unfold money. rewrite Hx. simpl. rewrite Hf. reflexivity.
Qed.

(** X17: A custom report over a template that names no metric.  When the
    template's config is empty or a dict without (or with an empty)
    ["metrics"] entry: with no [DailyReport] for the date the text is the
    fixed line "Отчет за <date>: данных нет."; with a report whose revenue
    and average check are below 2^52 cents it is four lines, the template
    name with the date, then the count, the revenue and the average check
    under their labels, the two amounts written to the cent. *)
Theorem X17_custom_report_with_default_metrics d template db :
  names_no_metric template ->
  match current_report d db with
  | None =>
      build_custom_report_text d template db
      = Ok ("Отчет за " ++ PyDate.format_date "-" d ++ ": данных нет.")%string
  | Some r =>
      Z.abs (dr_revenue r) < 2 ^ 52 -> Z.abs (dr_avg_check r) < 2 ^ 52 ->
      build_custom_report_text d template db
      = Ok (PyRepr.join newline
              [(rt_name template ++ " за " ++ PyDate.format_date "-" d)%string;
               ("Чеков: " ++ PyStr.of_Z (dr_transactions_count r))%string;
               ("Выручка: " ++ cents_text (dr_revenue r) ++ " €")%string;
               ("Средний чек: " ++ cents_text (dr_avg_check r) ++ " €")%string])
  end.
Proof.
  intros (configured & Hc & Ht). unfold build_custom_report_text. cbv zeta.
  rewrite Hc. simpl. fold (current_report d db).
  destruct (current_report d db) as [r|]; [|reflexivity].
  intros Hr Ha. rewrite (money_exact _ Hr), (money_exact _ Ha). simpl.
  unfold Py.or_. rewrite Ht. reflexivity.
Qed.

Lemma X17_witness :
  build_custom_report_text demo_day weekly_template (drop_db 123456)
  = Ok (PyRepr.join newline
          [(rt_name weekly_template ++ " за " ++ PyDate.format_date "-" demo_day)%string;
           ("Чеков: " ++ PyStr.of_Z 10)%string;
           ("Выручка: " ++ cents_text 123456 ++ " €")%string;
           ("Средний чек: " ++ cents_text 70 ++ " €")%string]).
Proof.
  assert (names_no_metric weekly_template) as H.
  { exists PNone. split; reflexivity. }
  pose proof (X17_custom_report_with_default_metrics demo_day weekly_template
                (drop_db 123456) H) as T.
  change (current_report demo_day (drop_db 123456))
    with (Some (demo_report demo_day 10 123456 70)) in T.
  apply T; vm_compute; reflexivity.
Defined.

Example weekly_report_text :
  build_custom_report_text demo_day weekly_template (drop_db 123456)
  = Ok ("Weekly за 2023-11-14" ++ newline ++ "Чеков: 10" ++ newline
          ++ "Выручка: 1234.56 €" ++ newline ++ "Средний чек: 0.70 €")%string.
Proof. vm_compute. reflexivity. Qed.

Lemma metric_lines_named r names :
  metric_lines
    [("transactions_count", PInt (dr_transactions_count r));
     ("revenue", PStr (cents_text (dr_revenue r) ++ " €")%string);
     ("avg_check", PStr (cents_text (dr_avg_check r) ++ " €")%string)]
    (map PStr names)
  = Ok (map (named_line r) names).
Proof.
  induction names as [|name names IH]; [reflexivity|].
  cbn [map metric_lines]. rewrite IH.
  unfold metric_line, get_value, metric_labels, named_line.
  cbn -[String.eqb String.append PyStr.of_Z cents_text].
  rewrite !(String.eqb_sym _ name).
  destruct (String.eqb name "transactions_count"); [reflexivity|].
  destruct (String.eqb name "revenue"); [reflexivity|].
  destruct (String.eqb name "avg_check"); reflexivity.
Qed.

(** X18: A custom report has one line per metric named, known or not.
    When the template's config lists metric names, and the [DailyReport] of
    the date has its revenue and average check below 2^52 cents, the text is
    the title line followed by one line per name, in the order of the list:
    the three known names give their label and value, any other name is
    echoed with an empty value, and a name that occurs twice gives two
    lines. *)
Theorem X18_custom_report_lists_named_metrics d template db names r :
  Py.get (Py.or_ (rt_config template) (PDict [])) "metrics"
    = Ok (PList (map PStr names)) ->
  names <> [] ->
  current_report d db = Some r ->
  Z.abs (dr_revenue r) < 2 ^ 52 -> Z.abs (dr_avg_check r) < 2 ^ 52 ->
  build_custom_report_text d template db
  = Ok (PyRepr.join newline
          ((rt_name template ++ " за " ++ PyDate.format_date "-" d)%string
             :: map (named_line r) names)).
Proof.
  intros Hc Hn Hr Hrev Havg. unfold build_custom_report_text. cbv zeta.
  rewrite Hc. cbn [mbind result_bind]. fold (current_report d db). rewrite Hr.
  rewrite (money_exact _ Hrev), (money_exact _ Havg).
  destruct names as [|n0 names]; [congruence|].
  change (Py.or_ (PList (map PStr (n0 :: names))) default_metrics)
    with (PList (map PStr (n0 :: names))).
  cbn [mbind result_bind Py.iter].
  rewrite (metric_lines_named r (n0 :: names)). reflexivity.
Qed.

Lemma X18_witness :
  build_custom_report_text demo_day revenue_template (drop_db 123456)
  = Ok (PyRepr.join newline
          ((rt_name revenue_template ++ " за " ++ PyDate.format_date "-" demo_day)%string
             :: map (named_line (demo_report demo_day 10 123456 70))
                  ["revenue"; "margin"])).
Proof.
  apply (X18_custom_report_lists_named_metrics demo_day revenue_template
           (drop_db 123456) ["revenue"; "margin"]);
    first [reflexivity | discriminate | vm_compute; reflexivity].
Defined.

Example revenue_report_text :
  build_custom_report_text demo_day revenue_template (drop_db 123456)
  = Ok ("Revenue за 2023-11-14" ++ newline ++ "Выручка: 1234.56 €" ++ newline
          ++ "margin: ")%string.
Proof. vm_compute. reflexivity. Qed.

(** ** Import, scan and insights in a row *)

Lemma ignored_keys_types rows ex t k :
  ignored_keys rows = Ok ex -> In (t, k) ex ->
  exists g, In g rows /\ di_issue_type g = t.
Proof.
  revert ex. induction rows as [|g rows IH]; simpl; intros ex H Hin.
  - injection H as <-. destruct Hin.
  - apply bind_result_ok in H as (kg & Hg & H).
    apply bind_result_ok in H as (ks & Hks & [= <-]).
    destruct Hin as [->|Hin].
    + exists g. split; [auto|]. unfold ignored_key in Hg.
      apply bind_result_ok in Hg as (v & _ & Hg).
      destruct (Py.hashable v); [|discriminate]. injection Hg as -> _. reflexivity.
    + destruct (IH _ Hks Hin) as (g' & ? & ?). exists g'. auto.
Qed.

Lemma in_ignored_type t k ex :
  in_ignored t k ex = true -> exists k', In (t, k') ex.
Proof.
  unfold in_ignored. intros H. apply existsb_exists in H as ([t' k'] & Hin & H).
  apply andb_prop in H as [H _]. apply String.eqb_eq in H. simpl in H. subst t'.
  exists k'. exact Hin.
Qed.

Lemma table_move_issue_type tz d tx i :
  table_move_issue tz d tx = Ok i -> di_issue_type i = "table_move".
Proof.
  unfold table_move_issue. cbv zeta. intros H.
  apply bind_result_ok in H as (x & _ & [= <-]). reflexivity.
Qed.

Lemma fresh_issues_empty_day tz d db issues :
  fresh_issues tz d db = Ok issues ->
  exists ex,
    ignored_keys (List.filter (ignored_on d) (db_data_issues db)) = Ok ex /\
    (In (no_transactions_issue d) issues <->
     (exists r, current_report d db = Some r /\ dr_transactions_count r = 0) /\
     in_ignored "no_transactions" PNone ex = false).
Proof.
  unfold fresh_issues. cbv zeta. intros E.
  apply bind_result_ok in E as (ex & Hex & E).
  apply bind_result_ok in E as (l & Hl & [= <-]).
  exists ex. split; [exact Hex|]. fold (current_report d db).
  destruct (txs_issues_inv _ _ _ _ _ Hl) as [Hs _]. split.
  - intros Hi. apply in_app_or in Hi as [Hi|Hi].
    + exfalso. destruct (Hs _ Hi) as (tx & here & _ & Hhere & Hin).
      destruct (tx_issues_sound _ _ _ _ _ Hhere _ Hin)
        as [(E & _)|[(E & _)|(E & _)]]; try discriminate E.
      apply table_move_issue_type in E. discriminate E.
    + destruct (current_report d db) as [r|]; [|destruct Hi].
      destruct (Z.eqb_spec (dr_transactions_count r) 0) as [E0|]; [|destruct Hi].
      destruct (in_ignored "no_transactions" PNone ex); [destruct Hi|]. eauto.
  - intros [(r & -> & ->) ->]. apply in_or_app. right. simpl. auto.
Qed.

(** X19: A day without sales is reported by the scan and by the insights
    that follow its import.  When [import_daily] has returned [n], and
    [scan_anomalies] and then [generate_insights] have returned for the same
    date: the report of the date still counts [n] transactions; the insight
    "no sales" is stored for the date exactly when [n] is 0; the scan
    returned the issue "no transactions" only if [n] is 0, and did return it
    then unless an ignored issue of that type was stored for the date. *)
Theorem X19_day_without_sales_is_reported net client tz d inc db db1 db2 db3 n issues k :
  import_daily net client d inc db = (db1, Ok n) ->
  scan_anomalies tz d db1 = (db2, Ok issues) ->
  generate_insights d db2 = (db3, Ok k) ->
  (exists r, current_report d db3 = Some r /\ dr_transactions_count r = n) /\
  (In (no_sales_insight d) (insights_on d db3) <-> n = 0) /\
  (In (no_transactions_issue d) issues -> n = 0) /\
  (n = 0 ->
   (forall g, In g (db_data_issues db) -> ignored_on d g = true ->
              di_issue_type g <> "no_transactions") ->
   In (no_transactions_issue d) issues).
Proof.
  intros Himp Hscan Hgen.
  destruct (import_daily_keeps (PosterClient.get net client) d inc) as (Kissues & _).
  pose proof (Kissues _ _ _ Himp) as Eissues. simpl in Eissues.
  apply import_daily_ok in Himp as (t & Hrun).
  pose proof (import_run_report _ _ _ _ _ _ Hrun) as Hrep.
  assert (n = dr_transactions_count (it_report t)) as Hn by apply Hrun.
  rewrite scan_anomalies_eq in Hscan.
  destruct (fresh_issues tz d db1) as [fresh|e] eqn:Ef; [|discriminate].
  injection Hscan as <- <-.
  assert (current_report d
            (set_data_issues
               (fun tbl => Orm.bulk_create fresh (Orm.delete_rows (open_on d) tbl)) db1)
          = Some (it_report t)) as Hrep2 by exact Hrep.
  pose proof (generate_insights_ok _ _ _ _ _ Hrep2 Hgen) as Hins.
  destruct (insights_for_shape _ _ _ _ Hins) as [_ Hno].
  assert (current_report d db3 = Some (it_report t)) as Hrep3.
  { revert Hgen. unfold generate_insights, mbind, M_bind, read, lift, write, mret, M_ret.
    rewrite Hrep2. destruct (insights_for _ _ _); [|discriminate].
    intros [= <- _]. exact Hrep. }
  destruct (fresh_issues_empty_day _ _ _ _ Ef) as (ex & Hex & Hiff).
  rewrite Hrep in Hiff.
  split; [exists (it_report t); auto|]. split; [rewrite Hno, Hn; tauto|]. split.
  - intros Hi. apply Hiff in Hi as [(r & [= <-] & E0) _]. lia.
  - intros H0 Hnone. apply Hiff. split; [exists (it_report t); split; [auto|lia]|].
    destruct (in_ignored "no_transactions" PNone ex) eqn:Ei; [|reflexivity].
    exfalso. apply in_ignored_type in Ei as (k' & Hin).
    destruct (ignored_keys_types _ _ _ _ Hex Hin) as (g & Hg & Ht).
    apply filter_In in Hg as [Hg Hon]. rewrite Eissues in Hg.
    exact (Hnone g Hg Hon Ht).
Qed.

Lemma X19_witness :
  (exists r,
     current_report demo_day
       (fst (generate_insights demo_day
               (fst (scan_anomalies PyDate.utc demo_day
                       (fst (import_daily closed_day demo_client demo_day false
                               later_db)))))) = Some r /\
     dr_transactions_count r = 0) /\
  (In (no_sales_insight demo_day)
     (insights_on demo_day
        (fst (generate_insights demo_day
                (fst (scan_anomalies PyDate.utc demo_day
                        (fst (import_daily closed_day demo_client demo_day false
                                later_db))))))) <-> 0 = 0) /\
  (In (no_transactions_issue demo_day) [no_transactions_issue demo_day] -> 0 = 0) /\
  (0 = 0 ->
   (forall g, In g (db_data_issues later_db) -> ignored_on demo_day g = true ->
              di_issue_type g <> "no_transactions") ->
   In (no_transactions_issue demo_day) [no_transactions_issue demo_day]).
Proof.
  apply (X19_day_without_sales_is_reported closed_day demo_client PyDate.utc demo_day
           false later_db
           (fst (import_daily closed_day demo_client demo_day false later_db))
           (fst (scan_anomalies PyDate.utc demo_day
                   (fst (import_daily closed_day demo_client demo_day false later_db))))
           _ 0 _ 1);
    vm_compute; reflexivity.
Defined.

(** ** Totals with two decimals *)

Section Cents.
Import PyFloat.

Lemma round_mul_100 c x :
  0 <= c < 2 ^ 51 -> truediv c 100 = Ok x -> round (mul x lit_100) = Ok c.
Proof.
  intros Hc. unfold truediv. change (100 =? 0) with false. cbv iota.
  change (Z.sgn 100) with 1. change (Z.abs 100) with 100. rewrite Z.mul_1_r.
  unfold round_q. destruct (Z.eqb_spec c 0) as [->|Hn].
  { intros [= <-]. reflexivity. }
  replace (Z.abs c) with c by lia. replace (Z.sgn c) with 1 by lia.
  destruct (round_pos c 100) as [m e] eqn:E.
  assert (2 ^ 51 < 2 ^ 53) as P53 by (apply Z.pow_lt_mono_r; lia).
  assert (0 < c < 2 ^ 53) as Ha by lia.
  destruct (round_pos_floor c 100 m e Ha ltac:(lia) E) as [He Hm].
  destruct (round_pos_mantissa c 100 m e ltac:(lia) ltac:(lia) E) as (Ee & _ & _).
  assert (flog2 c 100 < 45) as Hf.
  { assert (2 ^ 51 = 2 ^ 45 * 64) by reflexivity.
    apply (binade_bound c 100 _ 45); try lia. apply flog2_spec; lia. }
  assert (e <= -8) as He8 by (unfold fexp in Ee; lia).
  assert (overflows m e = false) as Ho.
  { apply (no_overflow_below m e 52); try lia.
    assert (0 <= c / 100 < 2 ^ 52).
    { split; [apply Z.div_pos; lia|].
      apply Z.div_lt_upper_bound; [lia|].
      assert (2 ^ 51 < 2 ^ 52) by (apply Z.pow_lt_mono_r; lia). lia. }
    pose proof (pow2_gt0 (- e) ltac:(lia)). nia. }
  rewrite Ho, Z.mul_1_l. intros [= <-].
  assert (m = rne (c * 2 ^ (- e)) 100) as Em.
  { unfold round_pos in E. injection E as E1 E2. rewrite E2 in E1.
    destruct (max0_neg e ltac:(lia)) as [M1 M2]. rewrite M1, M2 in E1.
    rewrite Z.mul_1_r in E1. auto. }
  pose proof (rne_near (c * 2 ^ (- e)) 100 ltac:(lia)) as Near.
  rewrite <- Em in Near.
  assert (2 ^ 8 <= 2 ^ (- e)) as Hp by (apply pow2_mono; lia).
  change (2 ^ 8) with 256 in Hp.
  set (D := 2 ^ (- e)) in *.
  assert (0 < m) as Hm0 by nia.
  (* the product [m * 100 * 2^e], rounded once more *)
  unfold mul, lit_100. rewrite Z.add_0_r.
  destruct (max0_neg e ltac:(lia)) as [M1 M2]. rewrite M1, M2.
  change (2 ^ 0) with 1. rewrite Z.mul_1_r. fold D.
  apply (round_round_q_near (m * 100) D c 50); lia.
Qed.

Lemma truediv_100_nonneg c x :
  0 <= c -> truediv c 100 = Ok x -> geb x (FFin 0 0) = true.
Proof.
  intros Hc. unfold truediv. change (100 =? 0) with false. cbv iota.
  change (Z.sgn 100) with 1. change (Z.abs 100) with 100. rewrite Z.mul_1_r.
  unfold round_q. destruct (Z.eqb_spec c 0) as [->|Hn].
  { intros [= <-]. reflexivity. }
  replace (Z.abs c) with c by lia. replace (Z.sgn c) with 1 by lia.
  destruct (round_pos c 100) as [m e] eqn:E.
  destruct (round_pos_mantissa c 100 m e ltac:(lia) ltac:(lia) E) as (_ & Hm & _).
  destruct (overflows m e); [discriminate|]. intros [= <-].
  unfold geb. apply Z.leb_le.
  assert (0 <= 2 ^ (e - Z.min e 0)) by (apply Z.pow_nonneg; lia). nia.
Qed.

End Cents.

(** X20: A total with two decimals becomes its number of cents.  When the
    per-location aggregate is a dict whose revenue is a truthy value that
    [float] reads as the float nearest to [c / 100] (as it reads the decimal
    text of an amount of [c] cents), with [0 <= c < 2^51], the revenue
    [import_daily] keeps from the reconciliation is [c]: multiplying the
    float by 100 and rounding loses nothing. *)
Theorem X20_total_with_two_decimals_in_cents kvs response x c raw revenue count avg :
  Py.lookup_default kvs "response" PNone = PDict response ->
  Py.truthy (Py.lookup_default response "revenue" PNone) = true ->
  Py.float (Py.lookup_default response "revenue" PNone) = Ok x ->
  PyFloat.truediv c 100 = Ok x ->
  0 <= c < 2 ^ 51 ->
  reconcile (PDict kvs) raw = Ok (revenue, count, avg) ->
  revenue = c.
Proof.
  intros Hresp Ht Hx Hdiv Hc. unfold reconcile. rewrite Hresp. cbv zeta.
  destruct (Py.is_none _) eqn:En.
  { apply is_none_spec in En. rewrite En in Ht. discriminate Ht. }
  replace (Py.or_ (Py.lookup_default response "revenue" PNone) (PInt 0))
    with (Py.lookup_default response "revenue" PNone)
    by (unfold Py.or_; rewrite Ht; reflexivity).
  rewrite Hx. cbn [mbind result_bind].
  intros H. apply bind_result_ok in H as (tx & _ & H).
  assert (PyFloat.geb x (PyFloat.FFin 0 0) = true) as Hge
    by (apply (truediv_100_nonneg c); [lia|exact Hdiv]).
  rewrite Hge, (round_mul_100 c x Hc Hdiv) in H. cbn [mbind result_bind] in H.
  apply bind_result_ok in H as (a & _ & [= <- _ _]). reflexivity.
Qed.

Lemma X20_witness :
  reconcile (PDict [("response", PDict [("revenue", PStr "12.34"); ("clients", PInt 3)])])
    (0, 0, 0) = Ok (1234, 3, 411) /\
  1234 = 1234.
Proof.
  split; [vm_compute; reflexivity|].
  apply (X20_total_with_two_decimals_in_cents
           [("response", PDict [("revenue", PStr "12.34"); ("clients", PInt 3)])]
           [("revenue", PStr "12.34"); ("clients", PInt 3)]
           (PyFloat.FFin 6946802425218990 (-49)) 1234 (0, 0, 0) 1234 3 411);
    first [reflexivity | vm_compute; reflexivity | lia | idtac].
  all: vm_compute; split; [discriminate | reflexivity].
Defined.

(** ** Millisecond timestamps *)

Section Timestamps.
Import PyFloat.

Lemma parse_ms_exact ms :
  0 < ms < 1000 * 2 ^ 32 ->
  (x ← truediv ms 1000; PyDate.fromtimestamp x) = Ok (ms * 1000).
Proof.
  intros Hms. unfold truediv. change (1000 =? 0) with false. cbv iota.
  change (Z.sgn 1000) with 1. change (Z.abs 1000) with 1000. rewrite Z.mul_1_r.
  unfold round_q. replace (ms =? 0) with false by (symmetry; apply Z.eqb_neq; lia).
  replace (Z.abs ms) with ms by lia. replace (Z.sgn ms) with 1 by lia.
  destruct (round_pos ms 1000) as [m e] eqn:E.
  assert (2 ^ 32 = 4294967296) as P32 by reflexivity.
  assert (2 ^ 53 = 9007199254740992) as P53 by reflexivity.
  assert (0 < ms < 2 ^ 53) as Ha by lia.
  destruct (round_pos_floor ms 1000 m e Ha ltac:(lia) E) as [He Hm].
  destruct (round_pos_mantissa ms 1000 m e ltac:(lia) ltac:(lia) E) as (Ee & _ & _).
  assert (flog2 ms 1000 < 32) as Hf.
  { apply (binade_bound ms 1000 _ 32); first [lia | apply flog2_spec; lia]. }
  assert (e <= -21) as He21 by (unfold fexp in Ee; lia).
  assert (0 <= ms / 1000 < 2 ^ 32) as Hq.
  { split; [apply Z.div_pos; lia|]. apply Z.div_lt_upper_bound; lia. }
  assert (overflows m e = false) as Ho.
  { pose proof (pow2_gt0 (- e) ltac:(lia)).
    apply (no_overflow_below m e 33); first [lia | idtac].
    assert (2 ^ 33 = 2 * 2 ^ 32) by reflexivity. nia. }
  rewrite Ho, Z.mul_1_l. cbn [mbind result_bind finite_or_overflow is_inf].
  assert (m = rne (ms * 2 ^ (- e)) 1000) as Em.
  { unfold round_pos in E. injection E as E1 E2. rewrite E2 in E1.
    destruct (max0_neg e ltac:(lia)) as [M1 M2]. rewrite M1, M2 in E1.
    rewrite Z.mul_1_r in E1. auto. }
  pose proof (rne_near (ms * 2 ^ (- e)) 1000 ltac:(lia)) as Near.
  rewrite <- Em in Near.
  assert (2 ^ 21 <= 2 ^ (- e)) as Hp by (apply pow2_mono; lia).
  change (2 ^ 21) with 2097152 in Hp.
  unfold PyDate.fromtimestamp.
  replace (0 <=? e) with false by (symmetry; apply Z.leb_gt; lia).
  set (D := 2 ^ (- e)) in *.
  pose proof (Z.div_mod m D ltac:(lia)) as Dm.
  pose proof (Z.mod_pos_bound m D ltac:(lia)) as Bm.
  set (secs := m / D) in *. set (r := m mod D) in *.
  set (t := ms * 1000 - secs * 1000000).
  assert (Z.abs (r * 1000000 - t * D) <= 500000) as Hnear by (unfold t; nia).
  assert (0 <= t <= 1000000) as Ht by nia.
  assert (0 <= secs <= 2 ^ 32) as Hs by nia.
  assert (round (mul (FFin r e) (FFin 1000000 0)) = Ok t) as Hus.
  { unfold mul. rewrite Z.add_0_r.
    destruct (max0_neg e ltac:(lia)) as [M1 M2]. rewrite M1, M2.
    change (2 ^ 0) with 1. rewrite Z.mul_1_r. fold D.
    destruct (Z.eq_dec r 0) as [R0|R0].
    - rewrite R0. simpl. f_equal. nia.
    - assert (2 ^ 51 = 2251799813685248) by reflexivity.
      apply (round_round_q_near (r * 1000000) D t 500000); lia. }
  rewrite Hus. cbn [mbind result_bind].
  assert (2 ^ 63 = 9223372036854775808) as P63 by reflexivity.
  unfold PyDate.max_seconds.
  destruct (Z.leb_spec 1000000 t).
  - replace (2 ^ 63 <=? secs + 1) with false by (symmetry; apply Z.leb_gt; lia).
    replace (253402300799 <? secs + 1) with false by (symmetry; apply Z.ltb_ge; lia).
    f_equal. unfold t in *. lia.
  - replace (2 ^ 63 <=? secs) with false by (symmetry; apply Z.leb_gt; lia).
    replace (253402300799 <? secs) with false by (symmetry; apply Z.ltb_ge; lia).
    f_equal. unfold t. lia.
Qed.

End Timestamps.

(** X21: [_parse_ms] keeps a millisecond timestamp to the millisecond.  For
    a value that [int] reads as a positive number of milliseconds below
    2^32 seconds (a date before the year 2106), the instant returned is that
    number of milliseconds after the epoch, exactly: the float division by
    1000 and the rounding to microseconds inside [fromtimestamp] lose
    nothing. *)
Theorem X21_parse_ms_is_exact v ms :
  Py.int v = Ok ms -> 0 < ms < 1000 * 2 ^ 32 ->
  _parse_ms v = Ok (Some (ms * 1000)).
Proof.
  intros Hv Hms. unfold _parse_ms. rewrite Hv.
  replace (ms <=? 0) with false by (symmetry; apply Z.leb_gt; lia).
  pose proof (parse_ms_exact ms Hms) as H.
  destruct (PyFloat.truediv ms 1000) as [x|]; [|discriminate H].
  cbn [mbind result_bind] in *. rewrite H. reflexivity.
Qed.

Lemma X21_witness : _parse_ms (PStr "1699923600123") = Ok (Some (1699923600123 * 1000)).
Proof.
  apply (X21_parse_ms_is_exact (PStr "1699923600123") 1699923600123).
  - vm_compute. reflexivity.
  - vm_compute. split; reflexivity.
Defined.

(** ** The summary by spot as a list of items *)

Lemma items_set_map items k v :
  (list_to_map (items_set items k v) : gmap string SpotSummary)
  = <[k := v]> (list_to_map items).
Proof.
  induction items as [|[k' v'] items IH]; simpl; [reflexivity|].
  destruct (String.eqb_spec k' k) as [->|N]; simpl.
  - rewrite insert_insert_eq. reflexivity.
  - rewrite IH. apply insert_insert_ne. auto.
Qed.

Lemma items_get_map items k :
  items_get items k = (list_to_map items : gmap string SpotSummary) !! k.
Proof.
  unfold items_get. induction items as [|[k' v'] items IH]; simpl.
  - rewrite lookup_empty. reflexivity.
  - destruct (String.eqb_spec k' k) as [->|N]; simpl.
    + rewrite lookup_insert_eq. reflexivity.
    + rewrite lookup_insert_ne by auto. exact IH.
Qed.

Lemma items_empty items :
  (list_to_map items : gmap string SpotSummary) = ∅ <-> items = [].
Proof.
  split; [|intros ->; reflexivity].
  destruct items as [|[k v] items]; [reflexivity|]. simpl. intros H.
  apply insert_non_empty in H. destruct H.
Qed.

Lemma official_row_items_map items row :
  official_row (list_to_map items) row
  = (i ← official_row_items items row; Ok (list_to_map i)).
Proof.
  unfold official_row, official_row_items.
  destruct row; try reflexivity.
  destruct (negb (PyStr.nonempty _)); [reflexivity|].
  destruct (int_of_first kvs ["transactions_count"; "count"]) as [a|]; [|reflexivity].
  cbn [mbind result_bind].
  destruct (int_of_first kvs ["revenue"; "sum"]) as [b|]; [|reflexivity].
  cbn [mbind result_bind].
  destruct (int_of_first kvs ["returns_count"]) as [c|]; [|reflexivity].
  cbn [mbind result_bind].
  destruct (int_of_first kvs ["returns_sum"]) as [e|]; [|reflexivity].
  cbn [mbind result_bind].
  rewrite items_set_map. reflexivity.
Qed.

Lemma official_rows_items_map rows items :
  official_rows (list_to_map items) rows
  = (i ← official_rows_items items rows; Ok (list_to_map i)).
Proof.
  revert items. induction rows as [|row rows IH]; intros items; [reflexivity|].
  simpl. rewrite official_row_items_map.
  destruct (official_row_items items row) as [i|]; [|reflexivity]. simpl. apply IH.
Qed.

Lemma add_transaction_items_map items tx :
  add_transaction (list_to_map items) tx = list_to_map (add_transaction_items items tx).
Proof.
  unfold add_transaction, add_transaction_items. cbv zeta.
  rewrite items_set_map, items_get_map. reflexivity.
Qed.

Lemma fallback_items_map tz d db :
  fallback_summary tz d db = list_to_map (fallback_items tz d db).
Proof.
  unfold fallback_summary, fallback_items.
  change (∅ : gmap string SpotSummary) with (list_to_map [] : gmap string SpotSummary).
  generalize (@nil (string * SpotSummary)).
  induction (Orm.filter_rows (on_date tz d) (db_transactions db)) as [|tx txs IH];
    intros items; [reflexivity|].
  simpl. rewrite add_transaction_items_map. apply IH.
Qed.

Lemma daily_summary_items_map tz d db :
  daily_summary_by_spot tz d db
  = (items ← daily_summary_items tz d db; Ok (list_to_map items)).
Proof.
  unfold daily_summary_by_spot, daily_summary_items.
  destruct (stored_spots_report d db) as [[date raw]|];
    [|simpl; rewrite fallback_items_map; reflexivity].
  destruct raw; try (simpl; rewrite fallback_items_map; reflexivity).
  unfold official_summary, official_summary_items. cbv zeta.
  destruct (Py.iter _) as [elems|]; [|reflexivity]. simpl.
  change (∅ : gmap string SpotSummary) with (list_to_map [] : gmap string SpotSummary).
  rewrite official_rows_items_map.
  destruct (official_rows_items [] elems) as [items|]; [|reflexivity]. simpl.
  destruct items as [|kv items].
  - rewrite bool_decide_eq_true_2 by reflexivity. simpl.
    rewrite fallback_items_map. reflexivity.
  - rewrite bool_decide_eq_false_2; [reflexivity|].
    intros H. apply items_empty in H. discriminate H.
Qed.

(** ** The text of the daily report *)





(** X23: The head of the daily report.  With no [DailyReport] for the date
    [build_report_text] is the fixed line "Отчет за <date>: данных нет.",
    whatever is asked for.  With a report whose revenue and average check
    are below 2^52 cents, and a summary by spot that can be computed (it is
    computed even when the spots are left out), the text without spots and
    issues is five lines: the title, the revenue, the count, the average
    check, the two amounts written to the cent, and the number of issues of
    the date that are not ignored. *)
Theorem X23_report_head tz d include_returns spot_ids db :
  match current_report d db with
  | None =>
      forall metrics include_spots include_issues,
        build_report_text tz d metrics include_spots include_issues include_returns
          spot_ids db
        = Ok ("Отчет за " ++ PyDate.format_date "-" d ++ ": данных нет.")%string
  | Some r =>
      Z.abs (dr_revenue r) < 2 ^ 52 -> Z.abs (dr_avg_check r) < 2 ^ 52 ->
      (exists summary, daily_summary_by_spot tz d db = Ok summary) ->
      build_report_text tz d None false false include_returns spot_ids db
      = Ok (PyRepr.join newline
              [("Отчет за " ++ PyDate.format_date "-" d)%string;
               ("Выручка: " ++ cents_text (dr_revenue r) ++ " €")%string;
               ("Чеков: " ++ PyStr.of_Z (dr_transactions_count r))%string;
               ("Средний чек: " ++ cents_text (dr_avg_check r) ++ " €")%string;
               ("Проблем: "
                  ++ PyStr.of_Z
                       (Z.of_nat (List.length
                                    (List.filter (open_on d) (db_data_issues db)))))%string])
  end.
Proof.
  unfold build_report_text. fold (current_report d db).
  destruct (current_report d db) as [r|]; [|reflexivity].
  intros Hrev Havg [summary Hs]. rewrite daily_summary_items_map in Hs.
  apply bind_result_ok in Hs as (items & Hitems & _).
  unfold build_report_lines. cbv zeta. rewrite Hitems. cbn [mbind result_bind].
  change (in_list "revenue" default_report_metrics) with true.
  change (in_list "transactions" default_report_metrics) with true.
  change (in_list "avg_check" default_report_metrics) with true.
  change (in_list "issues" default_report_metrics) with true.
  cbv iota. rewrite (money_exact _ Hrev), (money_exact _ Havg). reflexivity.
Qed.

Lemma X23_witness :
  build_report_text PyDate.utc demo_day None false false true None later_db
  = Ok (PyRepr.join newline
          [("Отчет за " ++ PyDate.format_date "-" demo_day)%string;
           ("Выручка: " ++ cents_text 7000 ++ " €")%string;
           ("Чеков: " ++ PyStr.of_Z 7)%string;
           ("Средний чек: " ++ cents_text 1000 ++ " €")%string;
           ("Проблем: "
              ++ PyStr.of_Z
                   (Z.of_nat (List.length
                                (List.filter (open_on demo_day)
                                   (db_data_issues later_db)))))%string]).
Proof.
  pose proof (X23_report_head PyDate.utc demo_day true None later_db) as T.
  change (current_report demo_day later_db)
    with (Some (demo_report demo_day 7 7000 1000)) in T.
  apply T.
  - vm_compute. reflexivity.
  - vm_compute. reflexivity.
  - eexists. vm_compute. reflexivity.
Defined.

Example daily_report_text :
  build_report_text PyDate.utc demo_day None true true true (Some [PInt 5]) official_day_db
  = Ok ("Отчет за 2023-11-14" ++ newline ++ "Выручка: 8.20 €" ++ newline
          ++ "Чеков: 4" ++ newline ++ "Средний чек: 2.05 €" ++ newline
          ++ "Проблем: 1" ++ newline ++ newline ++ "По точкам:" ++ newline
          ++ "• Bar: выручка 7.00 €, чеков 3, возвратов 0" ++ newline ++ newline
          ++ "Сомнительные операции:" ++ newline ++ "• ")%string.
Proof. vm_compute. reflexivity. Qed.

Example daily_report_text_issues_only :
  build_report_text PyDate.utc demo_day (Some [PStr "issues"; PInt 1]) false true true None
    official_day_db
  = Ok ("Отчет за 2023-11-14" ++ newline ++ "Проблем: 1" ++ newline ++ newline
          ++ "Сомнительные операции:" ++ newline ++ "• ")%string.
Proof. vm_compute. reflexivity. Qed.
